(** * gpu-dash-glow: the GPU telemetry collector of [server/app.py]

    A shallow embedding of [run_cmd], [get_gpus], [_add_process_info] and
    the snapshot handler [nvidia], together with the Python built-ins they
    rely on ([str.strip], [str.split], [str.splitlines], [int], [float],
    the [re] patterns of the XML fallback).

    Strings are sequences of code points below 256; the external world
    (the shell, the NVML binding) is a record of oracles. *)

From Stdlib Require Import ZArith List String Ascii Bool Lia PeanoNat Sorted.
From Stdlib Require Import DecimalString.
From Stdlib Require DecimalZ.
Import ListNotations.

Local Open Scope string_scope.
Local Open Scope list_scope.

(* ------------------------------------------------------------------ *)
(** ** Exceptions and results *)

(** The exception classes that the code can meet.  All of them derive from
    [Exception]; the handlers of the source name either [Exception] (or
    nothing), [ValueError] or [subprocess.CalledProcessError]. *)
Inductive exn : Type :=
| CalledProcessError
| ValueError
| OverflowError
| TypeError
| IndexError
| ImportError
| NVMLError
| OSError.

Inductive result (A : Type) : Type :=
| Ok (a : A)
| Raise (e : exn).
Arguments Ok {A} a.
Arguments Raise {A} e.

Definition exn_eqb (a b : exn) : bool :=
  match a, b with
  | CalledProcessError, CalledProcessError
  | ValueError, ValueError
  | OverflowError, OverflowError
  | TypeError, TypeError
  | IndexError, IndexError
  | ImportError, ImportError
  | NVMLError, NVMLError
  | OSError, OSError => true
  | _, _ => false
  end.

Definition rbind {A B} (r : result A) (f : A -> result B) : result B :=
  match r with
  | Ok a => f a
  | Raise e => Raise e
  end.

(** [try: r / except cls: h] for a pure computation. *)
Definition try_except {A} (r : result A) (cls : exn) (h : result A) : result A :=
  match r with
  | Ok a => Ok a
  | Raise e => if exn_eqb e cls then h else Raise e
  end.

(* ------------------------------------------------------------------ *)
(** ** Python string built-ins *)

Module Py.

Definition code (c : ascii) : nat := nat_of_ascii c.

Definition between (lo hi n : nat) : bool := (lo <=? n)%nat && (n <=? hi)%nat.

(** [str.isspace] on one character (also the class [\s] of [re]). *)
Definition isspace (c : ascii) : bool :=
  let n := code c in
  between 9 13 n || between 28 32 n || (n =? 133)%nat || (n =? 160)%nat.

(** The white space that [int] and [float] accept around a literal. *)
Definition isspace_num (c : ascii) : bool :=
  let n := code c in
  between 9 13 n || (n =? 32)%nat || (n =? 133)%nat || (n =? 160)%nat.

(** [\d] of [re], and the digits of a numeric literal. *)
Definition isdigit (c : ascii) : bool := between 48 57 (code c).

(** Line boundaries of [str.splitlines] (apart from the pair CR LF). *)
Definition islinebreak (c : ascii) : bool :=
  let n := code c in
  between 10 13 n || between 28 30 n || (n =? 133)%nat.

Fixpoint mem (c : ascii) (chars : string) : bool :=
  match chars with
  | EmptyString => false
  | String d chars' => Ascii.eqb c d || mem c chars'
  end.

Fixpoint lstrip_by (f : ascii -> bool) (s : string) : string :=
  match s with
  | EmptyString => EmptyString
  | String c s' => if f c then lstrip_by f s' else s
  end.

Fixpoint rstrip_by (f : ascii -> bool) (s : string) : string :=
  match s with
  | EmptyString => EmptyString
  | String c s' =>
      match rstrip_by f s' with
      | EmptyString => if f c then EmptyString else String c EmptyString
      | r => String c r
      end
  end.

Definition strip_by (f : ascii -> bool) (s : string) : string :=
  rstrip_by f (lstrip_by f s).

(** [s.strip()] *)
Definition strip (s : string) : string := strip_by isspace s.

(** [s.strip(chars)] *)
Definition strip_chars (chars s : string) : string :=
  strip_by (fun c => mem c chars) s.

(** [s.startswith(p)] *)
Definition startswith (s p : string) : bool := String.prefix p s.

Fixpoint drop (n : nat) (s : string) : string :=
  match n, s with
  | S k, String _ s' => drop k s'
  | _, _ => s
  end.

Fixpoint take (n : nat) (s : string) : string :=
  match n, s with
  | S k, String c s' => String c (take k s')
  | _, _ => EmptyString
  end.

(** [s.endswith(p)] *)
Definition endswith (s p : string) : bool :=
  (String.length p <=? String.length s)%nat
  && String.eqb (drop (String.length s - String.length p) s) p.

(** [sub in s] *)
Fixpoint contains (sub s : string) : bool :=
  String.prefix sub s
  || match s with
     | EmptyString => false
     | String _ s' => contains sub s'
     end.

(** [s.split(sep)] for a separator of one character. *)
Fixpoint split (sep : ascii) (s : string) : list string :=
  match s with
  | EmptyString => [EmptyString]
  | String c s' =>
      if Ascii.eqb c sep then EmptyString :: split sep s'
      else match split sep s' with
           | w :: ws => String c w :: ws
           | [] => [String c EmptyString]
           end
  end.

(** [s.split()]: the maximal runs of characters that are not white space. *)
Fixpoint split_ws (s : string) : list string :=
  match s with
  | EmptyString => []
  | String c s' =>
      if isspace c then split_ws s'
      else match s' with
           | EmptyString => [String c EmptyString]
           | String c' _ =>
               if isspace c' then String c EmptyString :: split_ws s'
               else match split_ws s' with
                    | w :: ws => String c w :: ws
                    | [] => [String c EmptyString]
                    end
           end
  end.

(** [s.splitlines()] *)
Fixpoint splitlines (s : string) : list string :=
  match s with
  | EmptyString => []
  | String c s' =>
      if islinebreak c then
        EmptyString ::
        (if Ascii.eqb c "013" then
           match s' with
           | String "010" s'' => splitlines s''
           | _ => splitlines s'
           end
         else splitlines s')
      else match splitlines s' with
           | l :: ls => String c l :: ls
           | [] => [String c EmptyString]
           end
  end.

Definition lower_char (c : ascii) : ascii :=
  let n := code c in
  if between 65 90 n || (between 192 222 n && negb (n =? 215)%nat)
  then ascii_of_nat (n + 32) else c.

(** [s.lower()] *)
Fixpoint lower (s : string) : string :=
  match s with
  | EmptyString => EmptyString
  | String c s' => String (lower_char c) (lower s')
  end.

(** [s.replace(old, new)] for a non-empty [old]; [skip] counts the
    characters of a replaced occurrence that are still to be passed. *)
Fixpoint replace_from (old new : string) (skip : nat) (s : string) : string :=
  match s with
  | EmptyString => EmptyString
  | String c s' =>
      match skip with
      | S k => replace_from old new k s'
      | O =>
          if String.prefix old s
          then new ++ replace_from old new (String.length old - 1) s'
          else String c (replace_from old new 0 s')
      end
  end.

Definition replace (old new s : string) : string := replace_from old new 0 s.

(** [str(n)] *)
Definition str_of_int (n : Z) : string := NilZero.string_of_int (Z.to_int n).

(** [bool(s)] *)
Definition truthy (s : string) : bool := negb (String.eqb s "").

(** *** [int(s)] *)

(** Every underscore of a numeric literal stands between two digits. *)
Fixpoint underscores_ok (prev_digit : bool) (s : string) : bool :=
  match s with
  | EmptyString => true
  | String c s' =>
      if Ascii.eqb c "_" then
        prev_digit
        && match s' with
           | String d _ => isdigit d
           | EmptyString => false
           end
        && underscores_ok false s'
      else underscores_ok (isdigit c) s'
  end.

Fixpoint remove_underscores (s : string) : string :=
  match s with
  | EmptyString => EmptyString
  | String c s' =>
      if Ascii.eqb c "_" then remove_underscores s'
      else String c (remove_underscores s')
  end.

Fixpoint all_digits (s : string) : bool :=
  match s with
  | EmptyString => true
  | String c s' => isdigit c && all_digits s'
  end.

Fixpoint digits_value (acc : Z) (s : string) : Z :=
  match s with
  | EmptyString => acc
  | String c s' => digits_value (10 * acc + Z.of_nat (code c - 48)) s'
  end.

(** An optional sign; the flag says whether the literal is negative. *)
Definition split_sign (s : string) : bool * string :=
  match s with
  | String "-" s' => (true, s')
  | String "+" s' => (false, s')
  | _ => (false, s)
  end.

Definition apply_sign (neg : bool) (v : Z) : Z := if neg then (- v)%Z else v.

(** [int(s)] in base ten.  [limit] is [sys.get_int_max_str_digits()]:
    zero when the interpreter has no limit; otherwise a literal of more
    than 640 digits is refused when it has more digits than the limit. *)
Definition int (limit : nat) (s : string) : result Z :=
  let t := strip_by isspace_num s in
  if negb (underscores_ok false t) then Raise ValueError else
  let (neg, body) := split_sign (remove_underscores t) in
  if String.eqb body "" || negb (all_digits body) then Raise ValueError
  else if (640 <? String.length body)%nat && (0 <? limit)%nat
          && (limit <? String.length body)%nat
       then Raise ValueError
       else Ok (apply_sign neg (digits_value 0 body)).

(** *** [float(s)] and [int(x)] of a float *)

(** A binary64 value: not a number, an infinity, or [(-1)^neg * m * 2^e]. *)
Inductive pyfloat : Type :=
| FNan
| FInf
| FFin (neg : bool) (m e : Z).

(** [den * 2^k <= num], for any sign of [k]. *)
Definition ge_pow2 (num den k : Z) : bool :=
  if (0 <=? k)%Z then (den * 2 ^ k <=? num)%Z
  else (den <=? num * 2 ^ (- k))%Z.

(** The binary64 nearest to [num / den] (ties to even), as a significand
    and a binary exponent; [None] when the value rounds to infinity. *)
Definition round_binary64 (num den : Z) : option (Z * Z) :=
  if (num =? 0)%Z then Some (0, 0)%Z else
  let k0 := (Z.log2 num - Z.log2 den)%Z in
  let k := if ge_pow2 num den k0 then k0 else (k0 - 1)%Z in
  let e := Z.max (k - 52) (-1074) in
  let n' := if (0 <=? e)%Z then num else (num * 2 ^ (- e))%Z in
  let d' := if (0 <=? e)%Z then (den * 2 ^ e)%Z else den in
  let q := (n' / d')%Z in
  let r := (n' mod d')%Z in
  let q' := if (2 * r <? d')%Z then q
            else if (d' <? 2 * r)%Z then (q + 1)%Z
            else if Z.even q then q else (q + 1)%Z in
  if (0 <=? e)%Z && (2 ^ 1024 <=? q' * 2 ^ e)%Z then None
  else Some (q', e).

(** The leading digits of [s] and what follows them. *)
Fixpoint span_digits (s : string) : string * string :=
  match s with
  | String c s' =>
      if isdigit c then let (d, r) := span_digits s' in (String c d, r)
      else (EmptyString, s)
  | EmptyString => (EmptyString, EmptyString)
  end.

(** The exponent part of a decimal literal: nothing, or [e], an optional
    sign and at least one digit, up to the end of the literal. *)
Definition parse_exponent (s : string) : option Z :=
  match s with
  | EmptyString => Some 0%Z
  | String c s' =>
      if Ascii.eqb c "e" || Ascii.eqb c "E" then
        let (neg, ds) := split_sign s' in
        if String.eqb ds "" || negb (all_digits ds) then None
        else Some (apply_sign neg (digits_value 0 ds))
      else None
  end.

(** [float(s)] *)
Definition float (s : string) : result pyfloat :=
  let t := strip_by isspace_num s in
  if negb (underscores_ok false t) then Raise ValueError else
  let (neg, body) := split_sign (remove_underscores t) in
  let low := lower body in
  if String.eqb low "inf" || String.eqb low "infinity" then Ok FInf
  else if String.eqb low "nan" then Ok FNan
  else
    let (ip, r1) := span_digits body in
    let (fp, r2) := match r1 with
                    | String "." r => span_digits r
                    | _ => (EmptyString, r1)
                    end in
    if String.eqb (ip ++ fp) "" then Raise ValueError else
    match parse_exponent r2 with
    | None => Raise ValueError
    | Some ex =>
        let m := digits_value 0 (ip ++ fp) in
        let e10 := (ex - Z.of_nat (String.length fp))%Z in
        let num := if (0 <=? e10)%Z then (m * 10 ^ e10)%Z else m in
        let den := if (0 <=? e10)%Z then 1%Z else (10 ^ (- e10))%Z in
        match round_binary64 num den with
        | None => Ok FInf
        | Some (q, e) => Ok (FFin neg q e)
        end
    end.

(** [float(0)], the float of the integer zero. *)
Definition float_zero : pyfloat := FFin false 0 0.

(** [int(x)] for a float [x]: truncation towards zero. *)
Definition int_of_float (x : pyfloat) : result Z :=
  match x with
  | FNan => Raise ValueError
  | FInf => Raise OverflowError
  | FFin neg m e =>
      Ok (apply_sign neg (if (0 <=? e)%Z then (m * 2 ^ e)%Z
                          else (m / 2 ^ (- e))%Z))
  end.

(** [int(float(s))] *)
Definition int_float (s : string) : result Z :=
  rbind (float s) int_of_float.

(** [int(float(s or 0))] *)
Definition int_float_or_zero (s : string) : result Z :=
  if truthy s then int_float s else int_of_float float_zero.

(** *** The fragment of [re] that the XML fallback uses *)

(** A pattern is a sequence of atoms: a literal, or a repetition of a
    character class with a minimal count, greedy or lazy, that may be the
    capturing group. *)
Inductive atom : Type :=
| Lit (s : string)
| Rep (lazy : bool) (least : nat) (cls : ascii -> bool) (group : bool).

Fixpoint span_len (cls : ascii -> bool) (s : string) : nat :=
  match s with
  | String c s' => if cls c then S (span_len cls s') else 0
  | EmptyString => 0
  end.

Fixpoint first_some {A B} (f : A -> option B) (l : list A) : option B :=
  match l with
  | [] => None
  | x :: l' => match f x with
               | Some y => Some y
               | None => first_some f l'
               end
  end.

(** The repetition counts to try, in the order of the backtracking. *)
Definition counts (lazy : bool) (least most : nat) : list nat :=
  let up := seq least (S most - least) in
  if lazy then up else rev up.

(** Match [p] at the start of [s]: the text of the group, if the pattern
    has one, and the text left after the match. *)
Fixpoint match_here (p : list atom) (s : string) : option (option string * string) :=
  match p with
  | [] => Some (None, s)
  | Lit l :: p' =>
      if String.prefix l s then match_here p' (drop (String.length l) s)
      else None
  | Rep lazy least cls group :: p' =>
      first_some
        (fun k =>
           match match_here p' (drop k s) with
           | Some (g, rest) => Some (if group then Some (take k s) else g, rest)
           | None => None
           end)
        (counts lazy least (span_len cls s))
  end.

(** [re.search(p, s)]: the leftmost match. *)
Fixpoint search (p : list atom) (s : string) : option (option string * string) :=
  match match_here p s with
  | Some m => Some m
  | None => match s with
            | EmptyString => None
            | String _ s' => search p s'
            end
  end.

(** [m.group(1)] *)
Definition group1 (m : option string * string) : string :=
  match fst m with
  | Some g => g
  | None => EmptyString
  end.

(** [re.findall(p, s)] for a pattern with one group; [skip] counts the
    characters of the last match that are still to be passed. *)
Fixpoint findall_from (p : list atom) (skip : nat) (s : string) : list string :=
  match s with
  | EmptyString =>
      match skip, match_here p EmptyString with
      | O, Some m => [group1 m]
      | _, _ => []
      end
  | String _ s' =>
      match skip with
      | S k => findall_from p k s'
      | O =>
          match match_here p s with
          | Some m =>
              group1 m ::
              findall_from p (String.length s - String.length (snd m) - 1) s'
          | None => findall_from p 0 s'
          end
      end
  end.

Definition findall (p : list atom) (s : string) : list string :=
  findall_from p 0 s.

Definition any_char (c : ascii) : bool := true.
Definition not_lt (c : ascii) : bool := negb (Ascii.eqb c "<").

End Py.

(* ------------------------------------------------------------------ *)
(** ** Data model *)

(** An attribution record [{"pid": .., "name": .., "memory": ..}].  The
    value under ["memory"] is an integer number of MiB, or Python's [None]. *)
Record Process : Type := mkProcess {
  pid : Z;
  name : string;
  memory : option Z
}.

Record MemoryInfo : Type := mkMemoryInfo { used : Z; total : Z }.
Record PowerInfo : Type := mkPowerInfo { draw : Z; limit : Z }.

(** A device dictionary as [get_gpus] builds it; [dev_name] and
    [dev_memory] are its keys ["name"] and ["memory"]. *)
Record Device : Type := mkDevice {
  id : Z;
  uuid : option string;
  dev_name : string;
  driverVersion : option string;
  temperature : Z;
  utilization : Z;
  dev_memory : MemoryInfo;
  power : PowerInfo;
  fan : option Z;
  processes : list Process
}.

(** [g["processes"].append(p)] *)
Definition add_process (p : Process) (g : Device) : Device :=
  {| id := id g; uuid := uuid g; dev_name := dev_name g;
     driverVersion := driverVersion g; temperature := temperature g;
     utilization := utilization g; dev_memory := dev_memory g;
     power := power g; fan := fan g;
     processes := processes g ++ [p] |}.

(** ** The world outside the program *)

Definition handle : Type := nat.

(** The attribute [usedGpuMemory] of a process object of the binding:
    missing, [None] (the library's "value not available"), or bytes. *)
Inductive used_memory_attr : Type :=
| AttrMissing
| AttrNone
| AttrBytes (b : Z).

Record nvml_proc : Type := mkNvmlProc {
  np_pid : Z;
  usedGpuMemory : used_memory_attr
}.

Record World : Type := mkWorld {
  (** [subprocess.check_output(cmd, shell=True, text=True)] *)
  check_output : string -> result string;
  (** [sys.get_int_max_str_digits()] *)
  int_max_str_digits : nat;
  (** [import pynvml] *)
  import_pynvml : result unit;
  nvmlInit : result unit;
  nvmlDeviceGetHandleByIndex : nat -> result handle;
  nvmlDeviceGetComputeRunningProcesses : handle -> result (list nvml_proc);
  nvmlDeviceGetGraphicsRunningProcesses : handle -> result (list nvml_proc);
  (** [nvmlSystemGetProcessName(pid).decode('utf-8')] *)
  nvmlSystemGetProcessName : Z -> result string;
  nvmlShutdown : result unit;
  (** [socket.gethostname()] and [datetime.utcnow().isoformat()] *)
  gethostname : string;
  utcnow_isoformat : string
}.

(** ** Instrumented state *)

(** What a run does that can be observed from outside: the calls into the
    monitoring library, the shell commands, and (tagged with the number of
    the method, 1 to 5) the process records it appends. *)
Inductive event : Type :=
| EImport
| ENvmlInit
| ENvmlHandle (i : nat)
| ENvmlCompute (h : handle)
| ENvmlGraphics (h : handle)
| ENvmlName (p : Z)
| ENvmlShutdown
| ERun (cmd : string)
| EAppend (method : nat) (dev : nat) (p : Process).

(** The device list (shared and mutated in place), the local counter
    [appended] of [_add_process_info], and the history. *)
Record state : Type := mkState {
  gpus : list Device;
  appended : nat;
  trace : list event
}.

(** A computation that may raise; what it did to the state stays done. *)
Definition M (A : Type) : Type := state -> result A * state.

Definition ret {A} (a : A) : M A := fun s => (Ok a, s).

Definition bind {A B} (c : M A) (f : A -> M B) : M B :=
  fun s => match c s with
           | (Ok a, s') => f a s'
           | (Raise e, s') => (Raise e, s')
           end.

(** A pure computation inside [M]. *)
Definition lift {A} (r : result A) : M A := fun s => (r, s).

(** [try: c / except Exception: h] (and the bare [except:]). *)
Definition try_ {A} (c : M A) (h : M A) : M A :=
  fun s => match c s with
           | (Ok a, s') => (Ok a, s')
           | (Raise _, s') => h s'
           end.

(** [try: c / except cls: h] *)
Definition try_only {A} (cls : exn) (c : M A) (h : M A) : M A :=
  fun s => match c s with
           | (Ok a, s') => (Ok a, s')
           | (Raise e, s') => if exn_eqb e cls then h s' else (Raise e, s')
           end.

Declare Scope m_scope.
Delimit Scope m_scope with M.
Notation "x <- c ;; k" := (bind c (fun x => k))
  (at level 61, c at next level, right associativity) : m_scope.
Notation "c ;; k" := (bind c (fun _ => k))
  (at level 61, right associativity) : m_scope.

(** [for x in l: body(x)]; a [continue] is the normal end of the body. *)
Fixpoint for_each {A} (l : list A) (body : A -> M unit) : M unit :=
  match l with
  | [] => ret tt
  | x :: l' => bind (body x) (fun _ => for_each l' body)
  end.

(** A [for] loop that carries a local variable from round to round. *)
Fixpoint for_fold {A B} (l : list A) (b : B) (body : B -> A -> M B) : M B :=
  match l with
  | [] => ret b
  | x :: l' => bind (body b x) (fun b' => for_fold l' b' body)
  end.

Definition emit (e : event) : M unit :=
  fun s => (Ok tt, {| gpus := gpus s; appended := appended s;
                      trace := trace s ++ [e] |}).

(** A call into the outside world, recorded in the history. *)
Definition call {A} (e : event) (r : result A) : M A :=
  bind (emit e) (fun _ => lift r).

Fixpoint alter {A} (f : A -> A) (i : nat) (l : list A) : list A :=
  match l, i with
  | [], _ => []
  | x :: l', O => f x :: l'
  | x :: l', S j => x :: alter f j l'
  end.

(** Append [p] to the processes of the device at position [i]; [counted]
    says whether the statement [appended += 1] follows. *)
Definition append_process (method i : nat) (p : Process) (counted : bool) : M unit :=
  fun s => (Ok tt,
            {| gpus := alter (add_process p) i (gpus s);
               appended := if counted then S (appended s) else appended s;
               trace := trace s ++ [EAppend method i p] |}).

(** [for g in gpus: if key(g): g["processes"].append(p) (; appended += 1)] *)
Definition join (method : nat) (key : Device -> bool) (p : Process)
    (counted : bool) : M unit :=
  fun s =>
    for_each (seq 0 (List.length (gpus s)))
      (fun i s' =>
         match nth_error (gpus s') i with
         | Some g => if key g then append_process method i p counted s'
                     else ret tt s'
         | None => ret tt s'
         end) s.

(** [g.get("uuid") == u] and [g.get("id") == idx] *)
Definition uuid_is (u : string) (g : Device) : bool :=
  match uuid g with
  | Some v => String.eqb v u
  | None => false
  end.

Definition id_is (idx : Z) (g : Device) : bool := Z.eqb (id g) idx.

(** [l[i]] *)
Definition getitem {A} (l : list A) (i : nat) : result A :=
  match nth_error l i with
  | Some x => Ok x
  | None => Raise IndexError
  end.

(** [x in ("N/A", "[N/A]")] *)
Definition is_na (x : string) : bool :=
  String.eqb x "N/A" || String.eqb x "[N/A]".

(* ------------------------------------------------------------------ *)
(** ** [run_cmd] *)

Definition run_cmd (w : World) (cmd : string) : M string :=
  bind (call (ERun cmd) (check_output w cmd)) (fun out => ret (Py.strip out)).

(* ------------------------------------------------------------------ *)
(** ** [_add_process_info] *)

Section Resolver.

Variable w : World.

Local Open Scope m_scope.

(** *** Method 1: the NVML binding *)

(** [proc.usedGpuMemory // (1024 * 1024) if hasattr(proc, 'usedGpuMemory') else 0] *)
Definition memory_mb_of (proc : nvml_proc) : result Z :=
  match usedGpuMemory proc with
  | AttrMissing => Ok 0%Z
  | AttrNone => Raise TypeError
  | AttrBytes b => Ok (b / (1024 * 1024))%Z
  end.

Definition method1_proc (i : nat) (proc : nvml_proc) : M unit :=
  try_
    (let pid := np_pid proc in
     memory_mb <- lift (memory_mb_of proc) ;;
     proc_name <- try_ (call (ENvmlName pid) (nvmlSystemGetProcessName w pid))
                       (ret ("PID " ++ Py.str_of_int pid)%string) ;;
     append_process 1 i (mkProcess pid proc_name (Some memory_mb)) true)
    (ret tt).

Definition method1_device (i : nat) : M unit :=
  try_
    (handle <- call (ENvmlHandle i) (nvmlDeviceGetHandleByIndex w i) ;;
     try_
       (compute_procs <- call (ENvmlCompute handle)
                           (nvmlDeviceGetComputeRunningProcesses w handle) ;;
        graphics_procs <- call (ENvmlGraphics handle)
                            (nvmlDeviceGetGraphicsRunningProcesses w handle) ;;
        let all_procs := compute_procs ++ graphics_procs in
        for_each all_procs (method1_proc i))
       (ret tt))
    (ret tt).

Definition method1 : M unit :=
  try_
    (call EImport (import_pynvml w) ;;
     call ENvmlInit (nvmlInit w) ;;
     (fun s => for_each (seq 0 (List.length (gpus s))) method1_device s) ;;
     call ENvmlShutdown (nvmlShutdown w))
    (ret tt).

(** *** Method 2: the XML report *)

Definition ws_star : Py.atom := Py.Rep false 0 Py.isspace false.

(** [<gpu>(.*?)</gpu>] with [re.S] *)
Definition gpu_re : list Py.atom :=
  [Py.Lit "<gpu>"; Py.Rep true 0 Py.any_char true; Py.Lit "</gpu>"].

(** [<uuid>\s*([^<]+)\s*</uuid>] *)
Definition uuid_re : list Py.atom :=
  [Py.Lit "<uuid>"; ws_star; Py.Rep false 1 Py.not_lt true; ws_star;
   Py.Lit "</uuid>"].

(** [<process_info>(.*?)</process_info>] with [re.S] *)
Definition process_info_re : list Py.atom :=
  [Py.Lit "<process_info>"; Py.Rep true 0 Py.any_char true;
   Py.Lit "</process_info>"].

(** [<pid>\s*(\d+)\s*</pid>] *)
Definition pid_re : list Py.atom :=
  [Py.Lit "<pid>"; ws_star; Py.Rep false 1 Py.isdigit true; ws_star;
   Py.Lit "</pid>"].

(** [<used_memory>\s*(\d+)\s*MiB\s*</used_memory>] *)
Definition used_memory_re : list Py.atom :=
  [Py.Lit "<used_memory>"; ws_star; Py.Rep false 1 Py.isdigit true; ws_star;
   Py.Lit "MiB"; ws_star; Py.Lit "</used_memory>"].

(** [<process_name>\s*([^<]+)\s*</process_name>] *)
Definition process_name_re : list Py.atom :=
  [Py.Lit "<process_name>"; ws_star; Py.Rep false 1 Py.not_lt true; ws_star;
   Py.Lit "</process_name>"].

Definition py_int (s : string) : result Z := Py.int (int_max_str_digits w) s.

(** The record that a [<process_info>] block yields: nothing without a
    pid ([continue]); [int] may refuse a literal that is too long. *)
Definition xml_process (proc : string) : result (option Process) :=
  let pid_m := Py.search pid_re proc in
  let mem_m := Py.search used_memory_re proc in
  let name_m := Py.search process_name_re proc in
  match pid_m with
  | None => Ok None
  | Some pm =>
      rbind (py_int (Py.group1 pm)) (fun pid =>
      rbind (match mem_m with
             | Some mm => py_int (Py.group1 mm)
             | None => Ok 0%Z
             end) (fun pmem =>
      let pname := match name_m with
                   | Some nm => Py.strip (Py.group1 nm)
                   | None => "unknown"%string
                   end in
      Ok (Some (mkProcess pid pname (Some pmem)))))
  end.

(** The identifier of a [<gpu>] block: [uuid_match.group(1).strip()]. *)
Definition xml_gpu_uuid (gpu_block : string) : option string :=
  match Py.search uuid_re gpu_block with
  | None => None
  | Some um => Some (Py.strip (Py.group1 um))
  end.

Definition method2_proc (gpu_uuid proc : string) : M unit :=
  r <- lift (xml_process proc) ;;
  match r with
  | None => ret tt
  | Some p => join 2 (uuid_is gpu_uuid) p true
  end.

Definition method2_block (gpu_block : string) : M unit :=
  match xml_gpu_uuid gpu_block with
  | None => ret tt
  | Some gpu_uuid =>
      for_each (Py.findall process_info_re gpu_block) (method2_proc gpu_uuid)
  end.

Definition method2 : M unit :=
  try_
    (xml <- run_cmd w "nvidia-smi -x -q" ;;
     for_each (Py.findall gpu_re xml) method2_block)
    (ret tt).

(** *** Method 3: [--query-compute-apps] *)

Definition queries : list string :=
  ["gpu_uuid,pid,process_name,used_memory";
   "gpu_uuid,pid,process_name,used_gpu_memory"]%string.

Definition compute_apps_cmd (pq : string) : string :=
  ("nvidia-smi --query-compute-apps=" ++ pq
   ++ " --format=csv,noheader,nounits")%string.

(** The loop over [queries]; the result is the final value of [pout]. *)
Fixpoint query_loop (qs : list string) (pout : string) : M string :=
  match qs with
  | [] => ret pout
  | pq :: qs' =>
      r <- try_only CalledProcessError
             (out <- run_cmd w (compute_apps_cmd pq) ;; ret (Some out))
             (ret None) ;;
      match r with
      | Some out =>
          if Py.truthy out && negb (Py.contains "No running" out)
          then ret out
          else query_loop qs' out
      | None => query_loop qs' pout
      end
  end.

(** [int(float(x)) if x not in ("N/A", "[N/A]") else 0], with
    [except ValueError: pmem = 0]. *)
Definition csv_pmem (x : string) : result Z :=
  try_except (if negb (is_na x) then Py.int_float x else Ok 0%Z)
             ValueError (Ok 0%Z).

(** One row of the compute-apps table: the identifier of the device and
    the record, or nothing when the row is passed over. *)
Definition csv_row (line : string) : result (option (string * Process)) :=
  if negb (Py.truthy line) || Py.contains "No running" line
     || Py.contains "Not Supported" line
  then Ok None else
  let parts := map Py.strip (Py.split "," line) in
  if (List.length parts <? 4)%nat then Ok None else
  rbind (getitem parts 0) (fun gpu_uuid =>
  match rbind (getitem parts 1) py_int with
  | Raise ValueError => Ok None
  | Raise e => Raise e
  | Ok pid =>
      rbind (getitem parts 2) (fun pname =>
      rbind (rbind (getitem parts 3) csv_pmem) (fun pmem =>
      Ok (Some (gpu_uuid, mkProcess pid pname (Some pmem)))))
  end).

Definition method3_line (line : string) : M unit :=
  r <- lift (csv_row line) ;;
  match r with
  | None => ret tt
  | Some (gpu_uuid, p) => join 3 (uuid_is gpu_uuid) p true
  end.

Definition method3 : M unit :=
  pout <- query_loop queries "" ;;
  if Py.truthy pout then for_each (Py.splitlines pout) method3_line
  else ret tt.

(** *** Method 4: the plain-text table *)

(** The [try] block of a table row: device index, pid, name, memory. *)
Definition table_row (cols : list string) : result (Z * Process) :=
  rbind (rbind (rbind (getitem cols 0) (fun c => getitem (Py.split_ws c) 0))
               py_int) (fun idx =>
  rbind (rbind (rbind (getitem cols 3) (fun c => getitem (Py.split_ws c) 0))
               py_int) (fun pid =>
  rbind (getitem cols 5) (fun pname =>
  rbind (rbind (getitem cols 6) (fun c => getitem (Py.split_ws c) 0))
        (fun mem_part =>
  rbind (if Py.endswith mem_part "MiB"
         then py_int (Py.replace "MiB" "" mem_part)
         else py_int mem_part) (fun pmem =>
  Ok (idx, mkProcess pid pname (Some pmem))))))).

(** One round of the loop over the lines; the result is [in_block]. *)
Definition method4_line (in_block : bool) (line : string) : M bool :=
  if Py.contains "Processes:" line then ret true
  else if in_block && Py.startswith (Py.strip line) "+"
          && negb (Py.contains "Processes" line) then ret in_block
  else if in_block && Py.startswith (Py.strip line) "|" then
    let cols := map Py.strip
                  (Py.split "|" (Py.strip_chars ("|" ++ String "010" "") line)) in
    if (List.length cols <? 7)%nat then ret in_block
    else match table_row cols with
         | Raise _ => ret in_block
         | Ok (idx, p) => join 4 (id_is idx) p true ;; ret in_block
         end
  else ret in_block.

Definition method4 : M unit :=
  try_
    (txt <- run_cmd w "nvidia-smi" ;;
     for_fold (Py.splitlines txt) false method4_line ;;
     ret tt)
    (ret tt).

(** *** Method 5: [pmon] *)

(** [int(float(x)) if x not in ("-", "N/A", "[N/A]") else 0], with
    [except ValueError: pmem = 0]. *)
Definition pmon_pmem (fb_raw : string) : result Z :=
  try_except (if negb (String.eqb fb_raw "-" || is_na fb_raw)
              then Py.int_float fb_raw else Ok 0%Z)
             ValueError (Ok 0%Z).

Definition pmon_row (line0 : string) : result (option (Z * Process)) :=
  let line := Py.strip line0 in
  if negb (Py.truthy line) || Py.startswith line "#"
     || Py.startswith (Py.lower line) "gpu"
  then Ok None else
  let parts := Py.split_ws line in
  if (List.length parts <? 9)%nat then Ok None else
  match rbind (rbind (getitem parts 0) py_int) (fun idx =>
        rbind (rbind (getitem parts 1) py_int) (fun pid => Ok (idx, pid))) with
  | Raise ValueError => Ok None
  | Raise e => Raise e
  | Ok (idx, pid) =>
      rbind (getitem parts 8) (fun pname =>
      rbind (rbind (getitem parts 7) pmon_pmem) (fun pmem =>
      Ok (Some (idx, mkProcess pid pname (Some pmem)))))
  end.

Definition method5_line (line : string) : M unit :=
  r <- lift (pmon_row line) ;;
  match r with
  | None => ret tt
  | Some (idx, p) => join 5 (id_is idx) p false
  end.

Definition method5 : M unit :=
  try_only CalledProcessError
    (pmon <- run_cmd w "nvidia-smi pmon -c 1 -s mu" ;;
     for_each (Py.splitlines pmon) method5_line)
    (ret tt).

(** *** The chain *)

(** [if appended == 0: c] *)
Definition if_none_appended (c : M unit) : M unit :=
  fun s => if (appended s =? 0)%nat then c s else ret tt s.

(** [appended = 0] *)
Definition reset_appended : M unit :=
  fun s => (Ok tt, {| gpus := gpus s; appended := 0; trace := trace s |}).

(** What a Python function can hand back here: an integer or the list of
    device dictionaries. *)
Inductive pyvalue : Type :=
| PyInt (n : Z)
| PyDevices (l : list Device).

(** [return gpus] *)
Definition return_gpus : M pyvalue := fun s => (Ok (PyDevices (gpus s)), s).

Definition _add_process_info : M pyvalue :=
  reset_appended ;;
  method1 ;;
  if_none_appended method2 ;;
  if_none_appended method3 ;;
  if_none_appended method4 ;;
  if_none_appended method5 ;;
  return_gpus.

End Resolver.

(* ------------------------------------------------------------------ *)
(** ** [get_gpus] and the snapshot handler *)

Section Enumerator.

Variable w : World.

Local Open Scope m_scope.

Definition gpu_query : string :=
  "index,uuid,name,driver_version,temperature.gpu,utilization.gpu,memory.used,memory.total,power.draw,power.limit,fan.speed".

Definition gpu_cmd : string :=
  ("nvidia-smi --format=csv,noheader,nounits --query-gpu=" ++ gpu_query)%string.

(** [x or None] *)
Definition or_none (x : string) : option string :=
  if Py.truthy x then Some x else None.

(** [int(float(fan_raw)) if fan_raw and fan_raw not in ("N/A", "[N/A]") else None] *)
Definition fan_of (fan_raw : string) : result (option Z) :=
  if Py.truthy fan_raw && negb (is_na fan_raw)
  then rbind (Py.int_float fan_raw) (fun v => Ok (Some v))
  else Ok None.

(** The device of one CSV line, or nothing for a line with fewer than ten
    fields. *)
Definition gpu_row (line : string) : result (option Device) :=
  let parts := map Py.strip (Py.split "," line) in
  if (List.length parts <? 10)%nat then Ok None else
  rbind (rbind (getitem parts 0) (py_int w)) (fun idx =>
  rbind (getitem parts 1) (fun p1 => let uuid := or_none p1 in
  rbind (getitem parts 2) (fun name =>
  rbind (getitem parts 3) (fun p3 => let driver := or_none p3 in
  rbind (rbind (getitem parts 4) Py.int_float_or_zero) (fun temp =>
  rbind (rbind (getitem parts 5) Py.int_float_or_zero) (fun util =>
  rbind (rbind (getitem parts 6) Py.int_float_or_zero) (fun mem_used =>
  rbind (rbind (getitem parts 7) Py.int_float_or_zero) (fun mem_total =>
  rbind (rbind (getitem parts 8) Py.int_float_or_zero) (fun p_draw =>
  rbind (rbind (getitem parts 9) Py.int_float_or_zero) (fun p_limit =>
  rbind (if (10 <? List.length parts)%nat then getitem parts 10
         else Ok ""%string) (fun fan_raw =>
  rbind (fan_of fan_raw) (fun fan =>
  Ok (Some {| id := idx; uuid := uuid; dev_name := name;
              driverVersion := driver; temperature := temp;
              utilization := util;
              dev_memory := mkMemoryInfo mem_used mem_total;
              power := mkPowerInfo p_draw p_limit;
              fan := fan; processes := [] |}))))))))))))).

(** The loop over the lines: [acc] is the list built so far. *)
Fixpoint gpu_rows (lines : list string) (acc : list Device) : result (list Device) :=
  match lines with
  | [] => Ok acc
  | line :: lines' =>
      match gpu_row line with
      | Raise e => Raise e
      | Ok None => gpu_rows lines' acc
      | Ok (Some g) => gpu_rows lines' (acc ++ [g])
      end
  end.

(** The list built by [get_gpus] becomes the object that
    [_add_process_info] works on. *)
Definition set_gpus (l : list Device) : M unit :=
  fun s => (Ok tt, {| gpus := l; appended := appended s; trace := trace s |}).

Definition get_gpus : M (list Device) :=
  out <- run_cmd w gpu_cmd ;;
  l <- lift (gpu_rows (Py.splitlines out) []) ;;
  set_gpus l ;;
  _add_process_info w ;;
  (fun s => (Ok (gpus s), s)).

Record Snapshot : Type := mkSnapshot {
  host : string;
  timestamp : string;
  snapshot_gpus : list Device
}.

(** The handler of [/nvidia-smi.json]; an exception that leaves it is the
    error response of the request. *)
Definition nvidia : M Snapshot :=
  let h := gethostname w in
  let t := (utcnow_isoformat w ++ "Z")%string in
  l <- get_gpus ;;
  ret (mkSnapshot h t l).

End Enumerator.

(** The state of a request before anything has run. *)
Definition initial : state := mkState [] 0 [].

(** The state in which [_add_process_info(l)] is entered. *)
Definition entry (l : list Device) : state := mkState l 0 [].

(* ------------------------------------------------------------------ *)
(** ** Vocabulary of the properties *)

(** The method an event belongs to.  A shell command is recognised by its
    text; the device query of [get_gpus] belongs to no method. *)
Definition cmd_method (cmd : string) : nat :=
  if String.eqb cmd "nvidia-smi -x -q" then 2
  else if existsb (fun pq => String.eqb cmd (compute_apps_cmd pq)) queries then 3
  else if String.eqb cmd "nvidia-smi" then 4
  else if String.eqb cmd "nvidia-smi pmon -c 1 -s mu" then 5
  else 0.

Definition event_method (e : event) : nat :=
  match e with
  | ERun cmd => cmd_method cmd
  | EAppend m _ _ => m
  | _ => 1
  end.

Definition is_append (e : event) : bool :=
  match e with
  | EAppend _ _ _ => true
  | _ => false
  end.

(** The appends that are followed by [appended += 1]: all but those of
    method 5. *)
Definition counted (m : nat) : bool := negb (m =? 5)%nat.

Definition is_counted_append (e : event) : bool :=
  match e with
  | EAppend m _ _ => counted m
  | _ => false
  end.

Definition count_events (f : event -> bool) (t : list event) : nat :=
  List.length (filter f t).

(** The number of process records held by a device list. *)
Fixpoint n_records (l : list Device) : nat :=
  match l with
  | [] => 0
  | g :: l' => List.length (processes g) + n_records l'
  end.

(** [g'] is [g] with records appended to its processes and nothing else
    changed. *)
Definition grows (g g' : Device) : Prop :=
  id g' = id g /\ uuid g' = uuid g /\ dev_name g' = dev_name g
  /\ driverVersion g' = driverVersion g /\ temperature g' = temperature g
  /\ utilization g' = utilization g /\ dev_memory g' = dev_memory g
  /\ power g' = power g /\ fan g' = fan g
  /\ exists l, processes g' = processes g ++ l.

(** Same devices, in the same order, each one grown. *)
Definition extends (l l' : list Device) : Prop := Forall2 grows l l'.

(** What one method may do to the state: call out, and append records to
    devices that exist. *)
Inductive steps (m : nat) : state -> state -> Prop :=
| steps_refl s : steps m s s
| steps_event e s s' :
    steps m s s' -> event_method e = m -> is_append e = false ->
    steps m s (snd (emit e s'))
| steps_append i p s s' :
    steps m s s' -> (i < List.length (gpus s'))%nat ->
    steps m s (snd (append_process m i p (counted m) s')).

(** A computation of method [m] on a list of [n] devices. *)
Definition runs_as (m n : nat) {A} (c : M A) : Prop :=
  forall s, List.length (gpus s) = n -> steps m s (snd (c s)).

(** A computation that cannot raise. *)
Definition never_raises {A} (c : M A) : Prop :=
  forall s, exists a, fst (c s) = Ok a.

(** Earlier events belong to earlier methods. *)
Definition method_le (e1 e2 : event) : Prop :=
  (event_method e1 <= event_method e2)%nat.

Definition in_method_order (t : list event) : Prop := StronglySorted method_le t.

(** What holds of the state once the methods 1 to [k] have had their turn
    on the device list [l]. *)
Definition chain_inv (l : list Device) (k : nat) (s : state) : Prop :=
  extends l (gpus s)
  /\ Forall (fun e => (1 <= event_method e <= k)%nat) (trace s)
  /\ in_method_order (trace s)
  /\ (forall j i p e, In (EAppend j i p) (trace s) -> In e (trace s) ->
                     (event_method e <= j)%nat)
  /\ appended s = count_events is_counted_append (trace s)
  /\ n_records (gpus s) = (n_records l + count_events is_append (trace s))%nat.

(** What a method does first: method 1 imports the binding, each of the
    others issues its (first) command. *)
Definition method_entry (k : nat) : event :=
  match k with
  | 1 => EImport
  | 2 => ERun "nvidia-smi -x -q"
  | 3 => ERun (compute_apps_cmd "gpu_uuid,pid,process_name,used_memory")
  | 4 => ERun "nvidia-smi"
  | _ => ERun "nvidia-smi pmon -c 1 -s mu"
  end.

(** No method before method [k] has appended a record. *)
Definition none_before (k : nat) (t : list event) : Prop :=
  forall j i p, In (EAppend j i p) t -> (k <= j)%nat.

(** A computation that, on a list of [n] devices, leaves the event [e] in
    the history, however it ends. *)
Definition issues (e : event) (n : nat) {A} (c : M A) : Prop :=
  forall s, List.length (gpus s) = n -> In e (trace (snd (c s))).

(** The methods 1 to [k] have been entered, each one unless a method
    before it had appended a record. *)
Definition entered_upto (k : nat) (t : list event) : Prop :=
  In (method_entry 1) t
  /\ forall k', (2 <= k' <= k)%nat -> none_before k' t -> In (method_entry k') t.

(** The record that method 1 appends for a process object, if any. *)
Definition nvml_records (w : World) (proc : nvml_proc) : list Process :=
  match memory_mb_of proc with
  | Raise _ => []
  | Ok mb =>
      [mkProcess (np_pid proc)
         (match nvmlSystemGetProcessName w (np_pid proc) with
          | Ok n => n
          | Raise _ => ("PID " ++ Py.str_of_int (np_pid proc))%string
          end)
         (Some mb)]
  end.

Definition is_pmon_append (e : event) : bool :=
  match e with
  | EAppend m _ _ => (m =? 5)%nat
  | _ => false
  end.

(** [g'] is [g] grown by records that [J] relates to the identifier of
    the device. *)
Definition joined_by (J : option string -> Process -> Prop) (g g' : Device) : Prop :=
  grows g g'
  /\ exists added, processes g' = processes g ++ added
                   /\ Forall (J (uuid g)) added.

Definition all_joined_by (J : option string -> Process -> Prop)
    (l l' : list Device) : Prop :=
  Forall2 (joined_by J) l l'.

Definition keeps_join (J : option string -> Process -> Prop) {A} (c : M A) : Prop :=
  forall s, all_joined_by J (gpus s) (gpus (snd (c s))).

(** The XML text [xml] has a [<gpu>] block with identifier [u] that holds
    a [<process_info>] block read as the record [p]. *)
Definition xml_reports (w : World) (xml u : string) (p : Process) : Prop :=
  exists gpu_block proc,
    In gpu_block (Py.findall gpu_re xml)
    /\ xml_gpu_uuid gpu_block = Some u
    /\ In proc (Py.findall process_info_re gpu_block)
    /\ xml_process w proc = Ok (Some p).

(** The report of [nvidia-smi -x -q] attributes [p] to the identifier
    [ou] of a device. *)
Definition xml_attributes (w : World) (ou : option string) (p : Process) : Prop :=
  exists raw u,
    check_output w "nvidia-smi -x -q" = Ok raw
    /\ ou = Some u
    /\ xml_reports w (Py.strip raw) u p.

(** How often the process id [z] occurs in a list of records. *)
Definition count_pid (z : Z) (l : list Process) : nat :=
  List.length (filter (fun p => Z.eqb (pid p) z) l).

(* ------------------------------------------------------------------ *)
(** ** Sample hosts *)

Definition nl : string := String "010" "".

(** A host on which nothing answers: no NVML binding, and every shell
    command exits with a non-zero status. *)
Definition no_tools : World :=
  {| check_output := fun _ => Raise CalledProcessError;
     int_max_str_digits := 4300;
     import_pynvml := Raise ImportError;
     nvmlInit := Raise NVMLError;
     nvmlDeviceGetHandleByIndex := fun _ => Raise NVMLError;
     nvmlDeviceGetComputeRunningProcesses := fun _ => Raise NVMLError;
     nvmlDeviceGetGraphicsRunningProcesses := fun _ => Raise NVMLError;
     nvmlSystemGetProcessName := fun _ => Raise NVMLError;
     nvmlShutdown := Raise NVMLError;
     gethostname := "gpu-host";
     utcnow_isoformat := "2024-05-01T12:00:00.000000" |}.

(** The host [w], except that the command [cmd] prints [out]. *)
Definition with_output (cmd out : string) (w : World) : World :=
  {| check_output := fun c => if String.eqb c cmd then Ok out
                              else check_output w c;
     int_max_str_digits := int_max_str_digits w;
     import_pynvml := import_pynvml w;
     nvmlInit := nvmlInit w;
     nvmlDeviceGetHandleByIndex := nvmlDeviceGetHandleByIndex w;
     nvmlDeviceGetComputeRunningProcesses :=
       nvmlDeviceGetComputeRunningProcesses w;
     nvmlDeviceGetGraphicsRunningProcesses :=
       nvmlDeviceGetGraphicsRunningProcesses w;
     nvmlSystemGetProcessName := nvmlSystemGetProcessName w;
     nvmlShutdown := nvmlShutdown w;
     gethostname := gethostname w;
     utcnow_isoformat := utcnow_isoformat w |}.

(** A device as [get_gpus] builds it, with no process yet. *)
Definition sample_device (i : Z) (u : string) : Device :=
  {| id := i; uuid := Some u; dev_name := "Tesla T4";
     driverVersion := Some "535.104"; temperature := 41; utilization := 5;
     dev_memory := mkMemoryInfo 100 15360; power := mkPowerInfo 27 70;
     fan := None; processes := [] |}.

Definition two_devices : list Device :=
  [sample_device 0 "GPU-1"; sample_device 1 "GPU-2"].

(** A host with a working NVML binding on which process 4242 both
    computes and renders on every device. *)
Definition nvml_proc_4242 : nvml_proc := mkNvmlProc 4242 (AttrBytes 1073741824).

Definition nvml_host : World :=
  {| check_output := fun _ => Raise CalledProcessError;
     int_max_str_digits := 4300;
     import_pynvml := Ok tt;
     nvmlInit := Ok tt;
     nvmlDeviceGetHandleByIndex := fun i => Ok i;
     nvmlDeviceGetComputeRunningProcesses := fun _ => Ok [nvml_proc_4242];
     nvmlDeviceGetGraphicsRunningProcesses := fun _ => Ok [nvml_proc_4242];
     nvmlSystemGetProcessName := fun _ => Ok "python3";
     nvmlShutdown := Ok tt;
     gethostname := "gpu-host";
     utcnow_isoformat := "2024-05-01T12:00:00.000000" |}.

Definition record_4242 : Process := mkProcess 4242 "python3" (Some 1024%Z).

(** The XML report of the scenario: one [<gpu>] block for [GPU-1] with
    one process. *)
Definition sample_xml : string :=
  "<nvidia_smi_log>" ++ nl ++ "<gpu>" ++ nl ++ "  <uuid>GPU-1</uuid>" ++ nl
  ++ "  <processes><process_info><pid>1234</pid>"
  ++ "<used_memory>512 MiB</used_memory>"
  ++ "<process_name>train.py</process_name></process_info></processes>" ++ nl
  ++ "</gpu>" ++ nl ++ "</nvidia_smi_log>".

Definition xml_host : World := with_output "nvidia-smi -x -q" sample_xml no_tools.

Definition record_1234 : Process := mkProcess 1234 "train.py" (Some 512%Z).


(** The compute-apps table with an infinite memory figure. *)
Definition inf_host : World :=
  with_output (compute_apps_cmd "gpu_uuid,pid,process_name,used_memory")
    "GPU-1, 12, python, inf" no_tools.

(** The default report, with the Processes table of the scenario. *)
Definition table_row_line : string := "| 0 1 N/A 4567 C python3 2048MiB |".

Definition sample_table : string :=
  "| NVIDIA-SMI 535.104    Driver Version: 535.104 |" ++ nl
  ++ "+---------------------------------------------+" ++ nl
  ++ "| Processes:                                  |" ++ nl
  ++ "|  GPU   GI   CI   PID   Type   Process name   GPU Memory |" ++ nl
  ++ "|=============================================|" ++ nl
  ++ table_row_line ++ nl
  ++ "+---------------------------------------------+".

Definition table_host : World := with_output "nvidia-smi" sample_table no_tools.

(** One sample of [pmon] with one process on device 0. *)
Definition sample_pmon : string :=
  "# gpu        pid  type    sm   mem   enc   dec    fb   command" ++ nl
  ++ "# Idx          #   C/G     %     %     %     %    MB   name" ++ nl
  ++ "    0       4567     C    10     5     -     -  2048   python3".

Definition pmon_host : World :=
  with_output "nvidia-smi pmon -c 1 -s mu" sample_pmon no_tools.

Definition record_4567 : Process := mkProcess 4567 "python3" (Some 2048%Z).

(** A device query whose temperature is not available. *)
Definition na_temperature_line : string :=
  "0, GPU-1, Tesla T4, 535.104, N/A, 5, 100, 15360, 27, 70, 30".

Definition na_temperature_host : World :=
  with_output gpu_cmd na_temperature_line no_tools.

(* ------------------------------------------------------------------ *)
(** ** The registry of hosts *)

Module Registry.

(** The exceptions that the handlers of the registry can let escape; the
    web framework answers them with status 500. *)
Inductive error : Type :=
| KeyError
| TypeError
| AttributeError.

Inductive outcome (A : Type) : Type :=
| Done (a : A)
| Fail (e : error).
Arguments Done {A} a.
Arguments Fail {A} e.

Definition obind {A B} (r : outcome A) (f : A -> outcome B) : outcome B :=
  match r with
  | Done a => f a
  | Fail e => Fail e
  end.

(** A float as [json] decodes it: [NaN], an infinity, or
    [(-1)^neg * m * 2^e]. *)
Inductive jfloat : Type :=
| JNan
| JInf (neg : bool)
| JFin (neg : bool) (m e : Z).

(** What [json.load] and [request.get_json] return.  A dictionary is the
    list of its items in insertion order; a decoded dictionary has no
    key twice, and a lookup takes the first item of a key. *)
#[warnings="-register-all"]
Inductive pyobj : Type :=
| PNone
| PBool (b : bool)
| PInt (n : Z)
| PFloat (x : jfloat)
| PStr (s : string)
| PList (l : list pyobj)
| PDict (d : list (string * pyobj)).

(** The value of a number: [m * 2^e], an infinity, or not a number. *)
Inductive number : Type :=
| NNan
| NInf (neg : bool)
| NDyadic (m e : Z).

Definition as_number (o : pyobj) : option number :=
  match o with
  | PBool b => Some (NDyadic (if b then 1 else 0) 0)
  | PInt n => Some (NDyadic n 0)
  | PFloat JNan => Some NNan
  | PFloat (JInf s) => Some (NInf s)
  | PFloat (JFin s m e) => Some (NDyadic (if s then (- m)%Z else m) e)
  | _ => None
  end.

Definition number_eqb (a b : number) : bool :=
  match a, b with
  | NDyadic m e, NDyadic n f =>
      let g := Z.min e f in (m * 2 ^ (e - g) =? n * 2 ^ (f - g))%Z
  | NInf s, NInf t => Bool.eqb s t
  | _, _ => false
  end.

(** [json] decodes every [NaN] to one and the same object. *)
Definition is_nan (o : pyobj) : bool :=
  match o with
  | PFloat JNan => true
  | _ => false
  end.

Fixpoint lookup (k : string) (d : list (string * pyobj)) : option pyobj :=
  match d with
  | [] => None
  | (k', v) :: d' => if String.eqb k k' then Some v else lookup k d'
  end.

Definition has_key (k : string) (d : list (string * pyobj)) : bool :=
  match lookup k d with
  | Some _ => true
  | None => false
  end.

Definition mem_key (k : string) (ks : list string) : bool :=
  existsb (String.eqb k) ks.

(** The keys of a dictionary, each one once. *)
Fixpoint keys_from (d : list (string * pyobj)) (seen : list string) : list string :=
  match d with
  | [] => []
  | (k, _) :: d' =>
      if mem_key k seen then keys_from d' seen
      else k :: keys_from d' (k :: seen)
  end.

Definition keys (d : list (string * pyobj)) : list string := keys_from d [].

(** [a == b].  The items of a list and the values of a dictionary are
    compared as Python compares them inside a container: identical
    objects are equal, so the one [NaN] object equals itself there. *)
Fixpoint py_eqb (a b : pyobj) {struct a} : bool :=
  match a, b with
  | PNone, PNone => true
  | PStr s, PStr t => String.eqb s t
  | PList l, PList l' =>
      (fix all2 (l l' : list pyobj) {struct l} : bool :=
         match l, l' with
         | [], [] => true
         | x :: l, y :: l' =>
             (is_nan x && is_nan y || py_eqb x y) && all2 l l'
         | _, _ => false
         end) l l'
  | PDict d, PDict d' =>
      (List.length (keys d) =? List.length (keys d'))%nat
      && (fix sub (d : list (string * pyobj)) (seen : list string)
              {struct d} : bool :=
            match d with
            | [] => true
            | (k, v) :: d =>
                (if mem_key k seen then true
                 else match lookup k d' with
                      | Some v' => is_nan v && is_nan v' || py_eqb v v'
                      | None => false
                      end)
                && sub d (k :: seen)
            end) d []
  | _, _ =>
      match as_number a, as_number b with
      | Some x, Some y => number_eqb x y
      | _, _ => false
      end
  end.

(** [bool(o)] *)
Definition truthy (o : pyobj) : bool :=
  match o with
  | PNone => false
  | PBool b => b
  | PInt n => negb (n =? 0)%Z
  | PFloat (JFin _ m _) => negb (m =? 0)%Z
  | PFloat _ => true
  | PStr s => negb (String.eqb s "")
  | PList l => negb (Nat.eqb (List.length l) 0)
  | PDict d => negb (Nat.eqb (List.length d) 0)
  end.

(** [k in o] for a string [k] *)
Definition contains (k : string) (o : pyobj) : outcome bool :=
  match o with
  | PDict d => Done (has_key k d)
  | PList l => Done (existsb (fun x => py_eqb x (PStr k)) l)
  | PStr s => Done (Py.contains k s)
  | _ => Fail TypeError
  end.

(** [o[k]] for a string [k] *)
Definition getitem (o : pyobj) (k : string) : outcome pyobj :=
  match o with
  | PDict d => match lookup k d with
               | Some v => Done v
               | None => Fail KeyError
               end
  | _ => Fail TypeError
  end.

Fixpoint chars (s : string) : list pyobj :=
  match s with
  | EmptyString => []
  | String c s' => PStr (String c EmptyString) :: chars s'
  end.

(** The items that [for h in o] goes through. *)
Definition iterate (o : pyobj) : outcome (list pyobj) :=
  match o with
  | PList l => Done l
  | PDict d => Done (map PStr (keys d))
  | PStr s => Done (chars s)
  | _ => Fail TypeError
  end.

(** [len(o)] *)
Definition len (o : pyobj) : outcome nat :=
  match o with
  | PList l => Done (List.length l)
  | PDict d => Done (List.length (keys d))
  | PStr s => Done (String.length s)
  | _ => Fail TypeError
  end.

(** [o.append(x)] *)
Definition append (o x : pyobj) : outcome pyobj :=
  match o with
  | PList l => Done (PList (l ++ [x]))
  | _ => Fail AttributeError
  end.

(** The file [hosts.json]: absent, present but not readable as JSON, or
    holding the value that [json.load] returns. *)
Inductive file : Type :=
| Missing
| Unreadable
| Holds (v : pyobj).

(** The clock, and what can go wrong when the file is written: for the
    value to be dumped and the file as it is, nothing ([None]), or the
    state in which the failed write leaves the file. *)
Record Env : Type := mkEnv {
  utcnow : string;
  write_failure : pyobj -> file -> option file
}.

Record response : Type := mkResponse { body : pyobj; status : nat }.

Definition error_reply (msg : string) (code : nat) : response :=
  mkResponse (PDict [("error", PStr msg)]) code.

Definition load_hosts (f : file) : pyobj :=
  match f with
  | Holds v => v
  | _ => PList []
  end.

Definition save_hosts (env : Env) (hosts : pyobj) (f : file) : bool * file :=
  match write_failure env hosts f with
  | None => (true, Holds hosts)
  | Some f' => (false, f')
  end.

(** The handler of [GET /api/hosts]. *)
Definition get_hosts (f : file) : response := mkResponse (load_hosts f) 200.

(** [not data or 'url' not in data or 'name' not in data] *)
Definition missing_fields (data : pyobj) : outcome bool :=
  if negb (truthy data) then Done true
  else obind (contains "url" data) (fun has_url =>
       if negb has_url then Done true
       else obind (contains "name" data) (fun has_name =>
            Done (negb has_name))).

(** The loop that looks for [data['url']] among the hosts. *)
Fixpoint url_taken (hosts : list pyobj) (data : pyobj) : outcome bool :=
  match hosts with
  | [] => Done false
  | host :: rest =>
      obind (getitem host "url") (fun u =>
      obind (getitem data "url") (fun du =>
      if py_eqb u du then Done true else url_taken rest data))
  end.

Definition new_host (env : Env) (data : pyobj) : outcome pyobj :=
  obind (getitem data "url") (fun du =>
  obind (getitem data "name") (fun dn =>
  Done (PDict [("url", du); ("name", dn); ("isConnected", PBool false);
               ("createdAt", PStr (utcnow env ++ "Z"))]))).

(** The handler of [POST /api/hosts] on the decoded body [data]; an
    exception that leaves it is the [Fail] of the result. *)
Definition add_host (env : Env) (data : pyobj) (f : file) : outcome response * file :=
  match missing_fields data with
  | Fail e => (Fail e, f)
  | Done true => (Done (error_reply "Missing url or name" 400), f)
  | Done false =>
      let hosts := load_hosts f in
      match obind (iterate hosts) (fun l => url_taken l data) with
      | Fail e => (Fail e, f)
      | Done true => (Done (error_reply "Host already exists" 409), f)
      | Done false =>
          match obind (new_host env data) (fun nh =>
                obind (append hosts nh) (fun hosts' => Done (nh, hosts'))) with
          | Fail e => (Fail e, f)
          | Done (nh, hosts') =>
              match save_hosts env hosts' f with
              | (true, f') => (Done (mkResponse nh 201), f')
              | (false, f') => (Done (error_reply "Failed to save host" 500), f')
              end
          end
      end
  end.

(** [[h for h in hosts if h['url'] != url]] *)
Fixpoint without_url (hosts : list pyobj) (url : string) : outcome (list pyobj) :=
  match hosts with
  | [] => Done []
  | h :: rest =>
      obind (getitem h "url") (fun u =>
      obind (without_url rest url) (fun kept =>
      Done (if negb (py_eqb u (PStr url)) then h :: kept else kept)))
  end.

(** The handler of [DELETE /api/hosts/<path:url>]. *)
Definition delete_host (env : Env) (url : string) (f : file) : outcome response * file :=
  let hosts := load_hosts f in
  match obind (len hosts) (fun original_length =>
        obind (iterate hosts) (fun l =>
        obind (without_url l url) (fun kept => Done (original_length, kept)))) with
  | Fail e => (Fail e, f)
  | Done (original_length, kept) =>
      if (List.length kept =? original_length)%nat
      then (Done (error_reply "Host not found" 404), f)
      else match save_hosts env (PList kept) f with
           | (true, f') =>
               (Done (mkResponse (PDict [("message", PStr "Host deleted")]) 200), f')
           | (false, f') =>
               (Done (error_reply "Failed to delete host" 500), f')
           end
  end.

(** The handler of [GET /api/health]. *)
Definition health (env : Env) : response :=
  mkResponse (PDict [("status", PStr "ok");
                     ("timestamp", PStr (utcnow env ++ "Z"))]) 200.

End Registry.

(* ------------------------------------------------------------------ *)
(** ** Vocabulary of the further properties *)

(** A computation that raises nothing but exceptions of [P]. *)
Definition raises_only (P : exn -> Prop) {A} (c : M A) : Prop :=
  forall s e, fst (c s) = Raise e -> P e.

(** What a join does to one device. *)
Definition attach (key : Device -> bool) (p : Process) (g : Device) : Device :=
  if key g then add_process p g else g.

(** One round of the loop of a join, at the device of position [i]. *)
Definition join_round (m : nat) (key : Device -> bool) (p : Process)
    (c : bool) (i : nat) : M unit :=
  fun s => match nth_error (gpus s) i with
           | Some g => if key g then append_process m i p c s else ret tt s
           | None => ret tt s
           end.

(** The device [g] with the records [rs] behind its processes. *)
Definition grow (rs : list Process) (g : Device) : Device :=
  {| id := id g; uuid := uuid g; dev_name := dev_name g;
     driverVersion := driverVersion g; temperature := temperature g;
     utilization := utilization g; dev_memory := dev_memory g;
     power := power g; fan := fan g;
     processes := processes g ++ rs |}.

(** The records that the binding has for the device of position [i]:
    none when the handle or one of the two lists cannot be had. *)
Definition device_records (w : World) (i : nat) : list Process :=
  match nvmlDeviceGetHandleByIndex w i with
  | Raise _ => []
  | Ok h =>
      match nvmlDeviceGetComputeRunningProcesses w h,
            nvmlDeviceGetGraphicsRunningProcesses w h with
      | Ok cs, Ok gs => flat_map (nvml_records w) (cs ++ gs)
      | _, _ => []
      end
  end.

(** A host like [nvml_host] on which the handle of device 0 cannot be had. *)
Definition half_nvml_host : World :=
  {| check_output := check_output nvml_host;
     int_max_str_digits := int_max_str_digits nvml_host;
     import_pynvml := Ok tt;
     nvmlInit := Ok tt;
     nvmlDeviceGetHandleByIndex :=
       fun i => match i with O => Raise NVMLError | S _ => Ok i end;
     nvmlDeviceGetComputeRunningProcesses :=
       nvmlDeviceGetComputeRunningProcesses nvml_host;
     nvmlDeviceGetGraphicsRunningProcesses := fun _ => Ok [];
     nvmlSystemGetProcessName := fun _ => Raise NVMLError;
     nvmlShutdown := Raise NVMLError;
     gethostname := "gpu-host";
     utcnow_isoformat := "2024-05-01T12:00:00.000000" |}.

(** The test after which the loop over [queries] stops:
    [pout and "No running" not in pout]. *)
Definition usable (pout : string) : bool :=
  Py.truthy pout && negb (Py.contains "No running" pout).

(** The two commands of method 3. *)
Definition first_query_cmd : string :=
  compute_apps_cmd "gpu_uuid,pid,process_name,used_memory".

Definition second_query_cmd : string :=
  compute_apps_cmd "gpu_uuid,pid,process_name,used_gpu_memory".

(** The fields of a line of the device query. *)
Definition fields (line : string) : list string :=
  map Py.strip (Py.split "," line).

(** A line that [get_gpus] passes over. *)
Definition short_row (line : string) : bool :=
  (List.length (fields line) <? 10)%nat.

(** The field of the fan speed in a line, empty when the line has no
    eleventh field. *)
Definition fan_field (line : string) : string := nth 10 (fields line) "".

(** A device built from a row without identifier. *)
Definition anonymous_device : Device :=
  {| id := 0; uuid := None; dev_name := "Tesla T4";
     driverVersion := None; temperature := 41; utilization := 5;
     dev_memory := mkMemoryInfo 100 15360; power := mkPowerInfo 27 70;
     fan := None; processes := [] |}.

(** The XML report and the compute-apps table both name [GPU-1]. *)
Definition xml_and_table_host : World :=
  with_output first_query_cmd "GPU-1, 12, python, 300" xml_host.

(** A device query of two rows around a blank line. *)
Definition two_rows : string :=
  "0, GPU-1, Tesla T4, 535.104, 41, 5, 100, 15360, 27.51, 70.00, [N/A]"
  ++ nl ++ nl
  ++ "1, GPU-2, Tesla T4, 535.104, 39, 0, 0, 15360, 9.80, 70.00, 35".

Definition two_rows_host : World := with_output gpu_cmd two_rows xml_host.

(** A device query whose second row has no number for its index. *)
Definition bad_second_row : string :=
  "0, GPU-1, Tesla T4, 535.104, 41, 5, 100, 15360, 27.51, 70.00, 30"
  ++ nl
  ++ "x, GPU-2, Tesla T4, 535.104, 39, 0, 0, 15360, 9.80, 70.00, 35".

Definition bad_row_host : World := with_output gpu_cmd bad_second_row no_tools.

(** The url of an entry of the registry, when the entry is a dictionary
    whose ["url"] is a string. *)
Definition url_of (h : Registry.pyobj) : option string :=
  match h with
  | Registry.PDict d =>
      match Registry.lookup "url" d with
      | Some (Registry.PStr u) => Some u
      | _ => None
      end
  | _ => None
  end.

(** A registry in good order: every entry has a string for its url. *)
Definition string_urls (l : list Registry.pyobj) : Prop :=
  Forall (fun h => url_of h <> None) l.

(** The entries whose url is not [u]. *)
Definition others (u : string) (l : list Registry.pyobj) : list Registry.pyobj :=
  filter (fun h => match url_of h with
                   | Some v => negb (String.eqb v u)
                   | None => true
                   end) l.

(** Whether some entry has the url [u]. *)
Definition has_url (u : string) (l : list Registry.pyobj) : bool :=
  existsb (fun h => match url_of h with
                    | Some v => String.eqb v u
                    | None => false
                    end) l.

(** A body with a url, a name and whatever else. *)
Definition host_body (u : string) (n : Registry.pyobj)
    (more : list (string * Registry.pyobj)) : Registry.pyobj :=
  Registry.PDict (("url", Registry.PStr u) :: ("name", n) :: more).

(** The entry that [add_host] stores for such a body. *)
Definition stored_host (env : Registry.Env) (u : string) (n : Registry.pyobj) :
    Registry.pyobj :=
  Registry.PDict [("url", Registry.PStr u); ("name", n);
                  ("isConnected", Registry.PBool false);
                  ("createdAt", Registry.PStr (Registry.utcnow env ++ "Z"))].

(** A disk on which every write succeeds. *)
Definition good_disk (env : Registry.Env) : Prop :=
  forall hosts f, Registry.write_failure env hosts f = None.

Definition sample_env : Registry.Env :=
  Registry.mkEnv "2024-05-01T12:00:00.000000" (fun _ _ => None).

Definition full_disk_env : Registry.Env :=
  Registry.mkEnv "2024-05-01T12:00:00.000000" (fun _ f => Some f).

Definition host_a : Registry.pyobj :=
  Registry.PDict [("url", Registry.PStr "http://a:5000/nvidia-smi.json");
                  ("name", Registry.PStr "a");
                  ("isConnected", Registry.PBool false);
                  ("createdAt", Registry.PStr "2024-04-30T08:00:00Z")].

Definition body_b : Registry.pyobj :=
  host_body "http://b:5000/nvidia-smi.json" (Registry.PStr "b") [].

(** A body with the name before the url, and a key more. *)
Definition body_name_first : Registry.pyobj :=
  Registry.PDict [("name", Registry.PStr "b");
                  ("url", Registry.PStr "http://b:5000/nvidia-smi.json");
                  ("group", Registry.PStr "lab")].

(** An entry that is a dictionary with the key ["url"], whatever the
    value. *)
Definition has_url_key (h : Registry.pyobj) : bool :=
  match h with
  | Registry.PDict d => Registry.has_key "url" d
  | _ => false
  end.

(** [h['url'] == v], for an entry that has a url. *)
Definition url_equals (v : Registry.pyobj) (h : Registry.pyobj) : bool :=
  match Registry.getitem h "url" with
  | Registry.Done x => Registry.py_eqb x v
  | Registry.Fail _ => false
  end.

(** A value that is a string. *)
Definition is_string (v : Registry.pyobj) : bool :=
  match v with
  | Registry.PStr _ => true
  | _ => false
  end.

(** The entry that [add_host] stores for a body with the url [v], of
    whatever type. *)
Definition stored_entry (env : Registry.Env) (v n : Registry.pyobj) :
    Registry.pyobj :=
  Registry.PDict [("url", v); ("name", n);
                  ("isConnected", Registry.PBool false);
                  ("createdAt", Registry.PStr (Registry.utcnow env ++ "Z"))].

(* ------------------------------------------------------------------ *)
(** * Properties *)

(** ** The built-ins on the inputs that matter below *)

Example strip_bars_keeps_one_column :
  Py.split "|" (Py.strip_chars ("|" ++ nl) table_row_line)
  = [" 0 1 N/A 4567 C python3 2048MiB "].
Proof. reflexivity. Qed.

Example split_ws_words : Py.split_ws "  0   4567  C " = ["0"; "4567"; "C"].
Proof. reflexivity. Qed.

Example splitlines_crlf :
  Py.splitlines ("a" ++ String "013" nl ++ "b" ++ nl ++ nl ++ "c" ++ nl)
  = ["a"; "b"; ""; "c"].
Proof. reflexivity. Qed.

Example int_literals :
  map (Py.int 4300) [" 42 "; "+5"; "1_000"; "-0"; ""; "5.0"; "N/A"]
  = [Ok 42%Z; Ok 5%Z; Ok 1000%Z; Ok 0%Z; Raise ValueError; Raise ValueError;
     Raise ValueError].
Proof. reflexivity. Qed.

Example int_float_literals :
  map Py.int_float ["2048"; " 12.7 "; "-7.9"; "1e3"; "N/A"; "[N/A]"; "nan";
                    "inf"; "-Infinity"; "1e999"]
  = [Ok 2048%Z; Ok 12%Z; Ok (-7)%Z; Ok 1000%Z; Raise ValueError;
     Raise ValueError; Raise ValueError; Raise OverflowError;
     Raise OverflowError; Raise OverflowError].
Proof. vm_compute; reflexivity. Qed.

Example int_float_rounds_to_binary64 :
  Py.int_float "9007199254740993" = Ok 9007199254740992%Z
  /\ Py.int_float "0.99999999999999999999" = Ok 1%Z
  /\ Py.int_float "1e23" = Ok 99999999999999991611392%Z.
Proof. repeat split; vm_compute; reflexivity. Qed.

Example findall_is_lazy :
  Py.findall gpu_re "<gpu>a<gpu>b</gpu>c</gpu><gpu></gpu><gpu>x" = ["a<gpu>b"; ""].
Proof. reflexivity. Qed.

Example uuid_group_is_stripped :
  xml_gpu_uuid ("<id>0</id><uuid> GPU-1" ++ nl ++ "</uuid>") = Some "GPU-1"
  /\ xml_gpu_uuid "<uuid></uuid>" = None.
Proof. split; reflexivity. Qed.

Example str_of_negative : ("PID " ++ Py.str_of_int (-5))%string = "PID -5".
Proof. reflexivity. Qed.

(** ** Devices that grow *)

Lemma grows_refl g : grows g g.
Proof.
  unfold grows; repeat split; exists []; now rewrite app_nil_r.
Qed.

Lemma grows_trans g1 g2 g3 : grows g1 g2 -> grows g2 g3 -> grows g1 g3.
Proof.
  unfold grows; intros H12 H23.
  decompose [and ex] H12; decompose [and ex] H23; clear H12 H23.
  repeat split; try congruence.
  match goal with
  | H2 : processes g2 = _ ++ ?a, H3 : processes g3 = _ ++ ?b |- _ =>
      exists (a ++ b); rewrite H3, H2; now rewrite app_assoc
  end.
Qed.

Lemma grows_add_process p g : grows g (add_process p g).
Proof.
  unfold grows; simpl; repeat split; now exists [p].
Qed.

Lemma extends_refl l : extends l l.
Proof.
  induction l; constructor; auto using grows_refl.
Qed.

Lemma extends_trans l1 l2 l3 : extends l1 l2 -> extends l2 l3 -> extends l1 l3.
Proof.
  unfold extends; intros H; revert l3.
  induction H; intros l3 H3; inversion H3; subst; constructor;
    eauto using grows_trans.
Qed.

Lemma extends_length l l' : extends l l' -> List.length l' = List.length l.
Proof.
  induction 1; simpl; congruence.
Qed.

Lemma alter_length {A} (f : A -> A) i l : List.length (alter f i l) = List.length l.
Proof.
  revert i; induction l; intros [|i]; simpl; auto.
Qed.

Lemma extends_alter p i l : extends l (alter (add_process p) i l).
Proof.
  revert i; induction l as [|g l IH]; intros [|i]; simpl; constructor.
  - apply grows_add_process.
  - apply extends_refl.
  - apply grows_refl.
  - apply IH.
Qed.

Lemma nth_error_alter_same {A} (f : A -> A) i l x :
  nth_error l i = Some x -> nth_error (alter f i l) i = Some (f x).
Proof.
  revert i; induction l; intros [|i]; simpl; try discriminate; auto.
  now intros [= ->].
Qed.

Lemma nth_error_alter_other {A} (f : A -> A) i j l :
  i <> j -> nth_error (alter f i l) j = nth_error l j.
Proof.
  revert i j; induction l; intros [|i] [|j]; simpl; auto; congruence.
Qed.

Lemma n_records_alter p i l :
  (i < List.length l)%nat ->
  n_records (alter (add_process p) i l) = S (n_records l).
Proof.
  revert i; induction l as [|g l IH]; intros [|i]; simpl; try lia.
  - intros _. rewrite length_app; simpl; lia.
  - intros H. rewrite IH by lia. lia.
Qed.

(** ** What a method's steps add up to *)

Lemma steps_trans m s1 s2 s3 : steps m s1 s2 -> steps m s2 s3 -> steps m s1 s3.
Proof.
  intros H12 H23; induction H23; auto.
  - apply steps_event; auto.
  - apply steps_append; auto.
Qed.

Lemma steps_length m s s' : steps m s s' -> List.length (gpus s') = List.length (gpus s).
Proof.
  induction 1; simpl; auto.
  now rewrite alter_length.
Qed.

Lemma steps_extends m s s' : steps m s s' -> extends (gpus s) (gpus s').
Proof.
  induction 1; simpl; auto using extends_refl.
  eapply extends_trans; eauto using extends_alter.
Qed.

Lemma count_events_app f t1 t2 :
  count_events f (t1 ++ t2) = (count_events f t1 + count_events f t2)%nat.
Proof.
  unfold count_events; now rewrite filter_app, length_app.
Qed.

Lemma count_events_one f e : count_events f [e] = if f e then 1%nat else 0%nat.
Proof.
  unfold count_events; simpl; now destruct (f e).
Qed.

Lemma steps_trace m s s' :
  steps m s s' ->
  exists evs,
    trace s' = trace s ++ evs
    /\ Forall (fun e => event_method e = m) evs
    /\ appended s' = (appended s + count_events is_counted_append evs)%nat
    /\ n_records (gpus s') = (n_records (gpus s) + count_events is_append evs)%nat.
Proof.
  induction 1 as [s | e s s' _ (evs & Ht & Hm & Ha & Hn) He Hx
                    | i p s s' _ (evs & Ht & Hm & Ha & Hn) Hi].
  - exists []; rewrite app_nil_r; repeat split; auto; unfold count_events; simpl; lia.
  - assert (Hc : is_counted_append e = false)
      by (destruct e; simpl in *; congruence).
    exists (evs ++ [e]); simpl; rewrite Ht, app_assoc; repeat split.
    + apply Forall_app; auto.
    + rewrite count_events_app, count_events_one, Ha, Hc; lia.
    + rewrite count_events_app, count_events_one, Hn, Hx; lia.
  - exists (evs ++ [EAppend m i p]); simpl; rewrite Ht, app_assoc; repeat split.
    + apply Forall_app; auto.
    + rewrite count_events_app, count_events_one, Ha; simpl.
      destruct (counted m); lia.
    + rewrite count_events_app, count_events_one, n_records_alter, Hn by auto.
      simpl; lia.
Qed.

(** ** Rules for computations of one method *)

Section Rules.

Variables m n : nat.

Lemma runs_ret {A} (a : A) : runs_as m n (ret a).
Proof. intros s _; apply steps_refl. Qed.

Lemma runs_lift {A} (r : result A) : runs_as m n (lift r).
Proof. intros s _; apply steps_refl. Qed.

Lemma runs_bind {A B} (c : M A) (f : A -> M B) :
  runs_as m n c -> (forall a, runs_as m n (f a)) -> runs_as m n (bind c f).
Proof.
  intros Hc Hf s Hs; unfold bind.
  specialize (Hc s Hs). destruct (c s) as [[a|e] s1]; simpl in *; auto.
  eapply steps_trans; eauto. apply Hf.
  erewrite steps_length; eauto.
Qed.

Lemma runs_try {A} (c h : M A) :
  runs_as m n c -> runs_as m n h -> runs_as m n (try_ c h).
Proof.
  intros Hc Hh s Hs; unfold try_.
  specialize (Hc s Hs). destruct (c s) as [[a|e] s1]; simpl in *; auto.
  eapply steps_trans; eauto. apply Hh.
  erewrite steps_length; eauto.
Qed.

Lemma runs_try_only {A} cls (c h : M A) :
  runs_as m n c -> runs_as m n h -> runs_as m n (try_only cls c h).
Proof.
  intros Hc Hh s Hs; unfold try_only.
  specialize (Hc s Hs). destruct (c s) as [[a|e] s1]; simpl in *; auto.
  destruct (exn_eqb e cls); simpl; auto.
  eapply steps_trans; eauto. apply Hh.
  erewrite steps_length; eauto.
Qed.

Lemma runs_for_each {A} (l : list A) (body : A -> M unit) :
  (forall x, In x l -> runs_as m n (body x)) -> runs_as m n (for_each l body).
Proof.
  induction l as [|x l IH]; intros Hb; simpl.
  - apply runs_ret.
  - apply runs_bind; [apply Hb; now left|].
    intros _; apply IH; intros; apply Hb; now right.
Qed.

Lemma runs_for_fold {A B} (l : list A) (b : B) (body : B -> A -> M B) :
  (forall b x, runs_as m n (body b x)) -> runs_as m n (for_fold l b body).
Proof.
  intros Hb; revert b; induction l as [|x l IH]; intros b; simpl.
  - apply runs_ret.
  - apply runs_bind; auto.
Qed.

Lemma runs_call {A} e (r : result A) :
  event_method e = m -> is_append e = false -> runs_as m n (call e r).
Proof.
  intros He Hx s _; unfold call, bind, lift; simpl.
  destruct r; simpl;
    apply (steps_event m e s s (steps_refl m s) He Hx).
Qed.

Lemma runs_run_cmd w cmd : cmd_method cmd = m -> runs_as m n (run_cmd w cmd).
Proof.
  intros Hc; unfold run_cmd.
  apply runs_bind; [now apply runs_call|intros; apply runs_ret].
Qed.

Lemma runs_append i p : (i < n)%nat -> runs_as m n (append_process m i p (counted m)).
Proof.
  intros Hi s Hs.
  apply (steps_append m i p s s (steps_refl m s)); lia.
Qed.

Lemma runs_state_dependent {A} (c : state -> M A) :
  (forall s0, List.length (gpus s0) = n -> runs_as m n (c s0)) ->
  runs_as m n (fun s => c s s).
Proof.
  intros H s Hs; now apply H.
Qed.

Lemma runs_join key p : runs_as m n (join m key p (counted m)).
Proof.
  unfold join. apply (runs_state_dependent (fun s0 => for_each _ _)).
  intros s0 _. apply runs_for_each; intros i _ s Hs.
  destruct (nth_error (gpus s) i) as [g|] eqn:Hg; [|apply steps_refl].
  destruct (key g); [|apply steps_refl].
  apply runs_append; auto.
  rewrite <- Hs. apply nth_error_Some; congruence.
Qed.

End Rules.

Ltac run_rules :=
  repeat first
    [ apply runs_ret
    | apply runs_lift
    | apply runs_call; reflexivity
    | apply runs_run_cmd; reflexivity
    | apply runs_try
    | apply runs_try_only
    | apply runs_bind; [|intros ?]
    | apply runs_for_each; intros ? ?
    | apply runs_for_fold; intros ? ? ].

Section Methods.

Variable w : World.
Variable n : nat.

Lemma runs_method1_proc i proc : (i < n)%nat -> runs_as 1 n (method1_proc w i proc).
Proof.
  intros Hi; unfold method1_proc; run_rules.
  now apply (runs_append 1 n).
Qed.

Lemma runs_method1_device i : (i < n)%nat -> runs_as 1 n (method1_device w i).
Proof.
  intros Hi; unfold method1_device; run_rules.
  now apply (runs_append 1 n).
Qed.

Lemma runs_method1 : runs_as 1 n (method1 w).
Proof.
  unfold method1; run_rules.
  apply (runs_state_dependent 1 n (fun s0 => for_each _ _)).
  intros s0 Hs0; apply runs_for_each; intros i Hi.
  apply runs_method1_device.
  apply in_seq in Hi; lia.
Qed.

Lemma runs_method2 : runs_as 2 n (method2 w).
Proof.
  unfold method2; run_rules.
  unfold method2_block.
  destruct (xml_gpu_uuid _); run_rules.
  unfold method2_proc; run_rules.
  match goal with |- runs_as _ _ (match ?r with _ => _ end) => destruct r end;
    [apply (runs_join 2 n) | apply runs_ret].
Qed.

Lemma runs_query_loop qs pout :
  Forall (fun pq => cmd_method (compute_apps_cmd pq) = 3) qs ->
  runs_as 3 n (query_loop w qs pout).
Proof.
  intros Hq; revert pout; induction Hq as [|pq qs Hpq _ IH]; intros pout; simpl.
  - apply runs_ret.
  - apply runs_bind.
    + apply runs_try_only; [|apply runs_ret].
      apply runs_bind; [now apply runs_run_cmd | intros; apply runs_ret].
    + intros [out|]; auto.
      destruct (_ && _); auto using runs_ret.
Qed.

Lemma runs_method3 : runs_as 3 n (method3 w).
Proof.
  unfold method3; apply runs_bind.
  - apply runs_query_loop; repeat constructor.
  - intros pout; destruct (Py.truthy pout); run_rules.
    unfold method3_line; run_rules.
    match goal with |- runs_as _ _ (match ?r with _ => _ end) => destruct r as [[u p]|] end;
      [apply (runs_join 3 n) | apply runs_ret].
Qed.

Lemma runs_method4_line in_block line : runs_as 4 n (method4_line w in_block line).
Proof.
  unfold method4_line.
  repeat match goal with
         | |- runs_as _ _ (if ?b then _ else _) => destruct b
         | |- runs_as _ _ (match ?r with Ok _ => _ | Raise _ => _ end) =>
             destruct r as [[idx p]|]
         end; run_rules.
  apply (runs_join 4 n).
Qed.

Lemma runs_method4 : runs_as 4 n (method4 w).
Proof.
  unfold method4; run_rules. apply runs_method4_line.
Qed.

Lemma runs_method5 : runs_as 5 n (method5 w).
Proof.
  unfold method5; run_rules.
  unfold method5_line; run_rules.
  match goal with |- runs_as _ _ (match ?r with _ => _ end) => destruct r as [[u p]|] end;
    [apply (runs_join 5 n) | apply runs_ret].
Qed.

End Methods.

(** The methods 1, 2 and 4 are wrapped as a whole: they cannot raise. *)
Lemma try_pass_never_raises (c : M unit) : never_raises (try_ c (ret tt)).
Proof.
  intros s; unfold try_. destruct (c s) as [[a|e] s']; simpl; eauto.
Qed.

Lemma method1_never_raises w : never_raises (method1 w).
Proof. apply try_pass_never_raises. Qed.

Lemma method2_never_raises w : never_raises (method2 w).
Proof. apply try_pass_never_raises. Qed.

Lemma method4_never_raises w : never_raises (method4 w).
Proof. apply try_pass_never_raises. Qed.

(** ** The chain of methods *)

Lemma sorted_app (t1 t2 : list event) :
  in_method_order t1 -> in_method_order t2 ->
  (forall e1 e2, In e1 t1 -> In e2 t2 -> method_le e1 e2) ->
  in_method_order (t1 ++ t2).
Proof.
  unfold in_method_order; intros H1 H2 H12.
  induction H1 as [|e t1 Ht1 IH He]; simpl; auto.
  constructor.
  - apply IH; intros; apply H12; simpl; auto.
  - apply Forall_app; split; auto.
    apply Forall_forall; intros; apply H12; simpl; auto.
Qed.

Lemma sorted_same_method m (t : list event) :
  Forall (fun e => event_method e = m) t -> in_method_order t.
Proof.
  unfold in_method_order; induction 1 as [|e t He Ht IH]; constructor; auto.
  eapply Forall_impl; [|exact Ht]. unfold method_le; simpl; intros; lia.
Qed.

Lemma count_events_in f e t : In e t -> f e = true -> (1 <= count_events f t)%nat.
Proof.
  unfold count_events; induction t as [|x t IH]; simpl; [tauto|].
  intros [->|Hin] Hf.
  - rewrite Hf; simpl; lia.
  - specialize (IH Hin Hf). destruct (f x); simpl; lia.
Qed.

Lemma chain_inv_entry l : chain_inv l 0 (entry l).
Proof.
  unfold chain_inv, entry, in_method_order, count_events; simpl.
  repeat split; auto using extends_refl; try constructor; try tauto; lia.
Qed.

Lemma chain_inv_mono l k k' s : (k <= k')%nat -> chain_inv l k s -> chain_inv l k' s.
Proof.
  unfold chain_inv; intros Hk (He & Hr & Ho & Hf & Ha & Hn); repeat split; auto.
  eapply Forall_impl; [|exact Hr]; simpl; intros; lia.
Qed.

(** Nothing counted so far means nothing appended so far, as long as
    method 5 has not run. *)
Lemma no_append_yet l k s j i p :
  chain_inv l k s -> (k <= 4)%nat -> appended s = 0%nat ->
  ~ In (EAppend j i p) (trace s).
Proof.
  intros (_ & Hr & _ & _ & Ha & _) Hk H0 Hin.
  assert (Hj : (1 <= j <= k)%nat)
    by (rewrite Forall_forall in Hr; apply (Hr _ Hin)).
  assert (Hc : is_counted_append (EAppend j i p) = true).
  { simpl; unfold counted. apply negb_true_iff, Nat.eqb_neq; lia. }
  pose proof (count_events_in _ _ _ Hin Hc); lia.
Qed.

Lemma chain_inv_steps l k s s' :
  chain_inv l k s -> (k <= 4)%nat -> appended s = 0%nat ->
  steps (S k) s s' -> chain_inv l (S k) s'.
Proof.
  intros Hinv Hk H0 Hsteps.
  pose proof (no_append_yet l k s) as Hno.
  pose proof (steps_extends _ _ _ Hsteps) as Hext.
  destruct (steps_trace _ _ _ Hsteps) as (evs & Ht & Hm & Ha' & Hn').
  destruct Hinv as (He & Hr & Ho & Hf & Ha & Hn).
  assert (Hinv : chain_inv l k s) by (repeat split; auto).
  unfold chain_inv; rewrite Ht; repeat split.
  - eapply extends_trans; eauto.
  - apply Forall_app; split.
    + eapply Forall_impl; [|exact Hr]; simpl; intros; lia.
    + eapply Forall_impl; [|exact Hm]; simpl; intros; lia.
  - apply sorted_app; auto.
    + eapply sorted_same_method; eauto.
    + intros e1 e2 H1 H2; unfold method_le.
      rewrite Forall_forall in Hr, Hm.
      specialize (Hr _ H1); specialize (Hm _ H2); lia.
  - intros j i p e Hin He'.
    apply in_app_or in Hin; destruct Hin as [Hin|Hin].
    + exfalso; eapply Hno; eauto.
    + rewrite Forall_forall in Hr, Hm.
      pose proof (Hm _ Hin) as Hj; simpl in Hj; subst j.
      apply in_app_or in He'; destruct He' as [He'|He'].
      * specialize (Hr _ He'); lia.
      * rewrite (Hm _ He'); lia.
  - rewrite count_events_app, Ha', Ha; lia.
  - rewrite count_events_app, Hn', Hn; lia.
Qed.

Lemma chain_inv_gated l k s (c : M unit) :
  chain_inv l k s -> (k <= 4)%nat -> runs_as (S k) (List.length l) c ->
  chain_inv l (S k) (snd (if_none_appended c s)).
Proof.
  intros Hinv Hk Hc; unfold if_none_appended.
  destruct (appended s =? 0)%nat eqn:H0.
  - apply Nat.eqb_eq in H0. eapply chain_inv_steps; eauto.
    apply Hc. destruct Hinv as (He & _). now apply extends_length.
  - simpl. eapply chain_inv_mono; [|eauto]; lia.
Qed.

Lemma chain_bind {A B} l k' (c : M A) (f : A -> M B) s :
  (k' <= 5)%nat ->
  chain_inv l k' (snd (c s)) ->
  (forall a s', chain_inv l k' s' -> chain_inv l 5 (snd (f a s'))) ->
  chain_inv l 5 (snd (bind c f s)).
Proof.
  intros Hk Hc Hf; unfold bind.
  destruct (c s) as [[a|e] s1]; simpl in *; auto.
  eapply chain_inv_mono; eauto.
Qed.

Lemma chain_inv_final w l : chain_inv l 5 (snd (_add_process_info w (entry l))).
Proof.
  unfold _add_process_info.
  apply (chain_bind l 0); [lia|apply chain_inv_entry|]; intros _ s0 H0.
  apply (chain_bind l 1); [lia| |]; [|intros _ s1 H1].
  { replace (method1 w s0) with (if_none_appended (method1 w) s0).
    - apply chain_inv_gated; auto using runs_method1.
    - unfold if_none_appended.
      destruct H0 as (_ & Hr & _ & _ & Ha & _).
      destruct (trace s0) as [|e t]; [now rewrite Ha|].
      inversion Hr; subst; lia. }
  apply (chain_bind l 2); [lia| |]; [|intros _ s2 H2].
  { apply chain_inv_gated; auto using runs_method2. }
  apply (chain_bind l 3); [lia| |]; [|intros _ s3 H3].
  { apply chain_inv_gated; auto using runs_method3. }
  apply (chain_bind l 4); [lia| |]; [|intros _ s4 H4].
  { apply chain_inv_gated; auto using runs_method4. }
  apply (chain_bind l 5); [lia| |]; [|intros _ s5 H5].
  { apply chain_inv_gated; auto using runs_method5. }
  exact H5.
Qed.

(** ** Joins *)

Section Join.

Variable J : option string -> Process -> Prop.

Lemma joined_by_refl g : joined_by J g g.
Proof.
  split; [apply grows_refl|]. exists []; now rewrite app_nil_r.
Qed.

Lemma joined_by_trans g1 g2 g3 :
  joined_by J g1 g2 -> joined_by J g2 g3 -> joined_by J g1 g3.
Proof.
  intros [G12 (a & E12 & F12)] [G23 (b & E23 & F23)].
  split; [eapply grows_trans; eauto|].
  exists (a ++ b); split.
  - now rewrite E23, E12, app_assoc.
  - apply Forall_app; split; auto.
    destruct G12 as (_ & Hu & _). now rewrite <- Hu.
Qed.

Lemma all_joined_refl l : all_joined_by J l l.
Proof.
  induction l; constructor; auto using joined_by_refl.
Qed.

Lemma all_joined_trans l1 l2 l3 :
  all_joined_by J l1 l2 -> all_joined_by J l2 l3 -> all_joined_by J l1 l3.
Proof.
  unfold all_joined_by; intros H; revert l3.
  induction H; intros l3 H3; inversion H3; subst; constructor;
    eauto using joined_by_trans.
Qed.

Lemma joined_alter p i l g :
  nth_error l i = Some g -> J (uuid g) p ->
  all_joined_by J l (alter (add_process p) i l).
Proof.
  revert i; induction l as [|x l IH]; intros [|i]; simpl; try discriminate.
  - intros [= ->] HJ; constructor; [|apply all_joined_refl].
    split; [apply grows_add_process|]. exists [p]; simpl; auto.
  - intros Hg HJ; constructor; [apply joined_by_refl|]. now apply IH.
Qed.

Lemma keeps_ret {A} (a : A) : keeps_join J (ret a).
Proof. intros s; apply all_joined_refl. Qed.

Lemma keeps_lift {A} (r : result A) : keeps_join J (lift r).
Proof. intros s; apply all_joined_refl. Qed.

Lemma keeps_bind {A B} (c : M A) (f : A -> M B) :
  keeps_join J c -> (forall a, keeps_join J (f a)) -> keeps_join J (bind c f).
Proof.
  intros Hc Hf s; unfold bind.
  specialize (Hc s). destruct (c s) as [[a|e] s1]; simpl in *; auto.
  eapply all_joined_trans; eauto. apply Hf.
Qed.

Lemma keeps_bind_lift {A B} (r : result A) (f : A -> M B) :
  (forall a, r = Ok a -> keeps_join J (f a)) -> keeps_join J (bind (lift r) f).
Proof.
  intros Hf s; unfold bind, lift.
  destruct r as [a|e]; simpl; [now apply Hf | apply all_joined_refl].
Qed.

Lemma keeps_for_each {A} (l : list A) (body : A -> M unit) :
  (forall x, In x l -> keeps_join J (body x)) -> keeps_join J (for_each l body).
Proof.
  induction l as [|x l IH]; intros Hb; simpl.
  - apply keeps_ret.
  - apply keeps_bind; [apply Hb; now left|].
    intros _; apply IH; intros; apply Hb; now right.
Qed.

Lemma keeps_join_loop m key p c :
  (forall g, key g = true -> J (uuid g) p) -> keeps_join J (join m key p c).
Proof.
  intros HJ s0; unfold join.
  generalize (seq 0 (List.length (gpus s0))); intros idxs.
  apply keeps_for_each; intros i _ s.
  destruct (nth_error (gpus s) i) as [g|] eqn:Hg; [|apply all_joined_refl].
  destruct (key g) eqn:Hk; [|apply all_joined_refl].
  simpl. eapply joined_alter; eauto.
Qed.

End Join.

(** Method 2 appends a record only where the report attributes it. *)
Lemma method2_keeps_join w : keeps_join (xml_attributes w) (method2 w).
Proof.
  intros s; unfold method2, try_, bind at 1, run_cmd, bind at 1, call, bind at 1, emit, lift.
  simpl.
  destruct (check_output w "nvidia-smi -x -q") as [raw|e] eqn:Hraw; simpl;
    [|apply all_joined_refl].
  match goal with
  | |- context [for_each ?l ?b ?st] =>
      assert (H : all_joined_by (xml_attributes w) (gpus st) (gpus (snd (for_each l b st))))
  end.
  { apply keeps_for_each; intros gpu_block Hblock.
    unfold method2_block.
    destruct (xml_gpu_uuid gpu_block) as [u|] eqn:Hu; [|apply keeps_ret].
    apply keeps_for_each; intros proc Hproc.
    unfold method2_proc. apply keeps_bind_lift.
    intros [p|] Hp; [|apply keeps_ret].
    apply keeps_join_loop. intros g Hk.
    unfold uuid_is in Hk. destruct (uuid g) as [v|]; [|discriminate].
    apply String.eqb_eq in Hk; subst v.
    exists raw, u; repeat split; auto. now exists gpu_block, proc. }
  simpl in H.
  destruct (for_each _ _ _) as [[[]|e] s1]; simpl in *; exact H.
Qed.

(** ** Every method is entered in its turn *)

Lemma runs_keeps_events m n {A} (c : M A) s e :
  runs_as m n c -> List.length (gpus s) = n ->
  In e (trace s) -> In e (trace (snd (c s))).
Proof.
  intros Hc Hs He.
  destruct (steps_trace _ _ _ (Hc s Hs)) as (evs & -> & _).
  apply in_or_app; now left.
Qed.

Section Issues.

Variables (m n : nat) (e : event).

Lemma issues_call {A} (r : result A) : issues e n (call e r).
Proof.
  intros s _; unfold call, bind, emit, lift; simpl.
  apply in_or_app; right; now left.
Qed.

Lemma issues_bind {A B} (c : M A) (f : A -> M B) :
  issues e n c -> runs_as m n c -> (forall a, runs_as m n (f a)) ->
  issues e n (bind c f).
Proof.
  intros Hi Hc Hf s Hs; unfold bind.
  specialize (Hi s Hs). specialize (Hc s Hs).
  destruct (c s) as [[a|x] s1]; simpl in *; auto.
  apply (runs_keeps_events m n); auto.
  erewrite steps_length; eauto.
Qed.

Lemma issues_try_pass {A} (c : M A) (a : A) :
  issues e n c -> issues e n (try_ c (ret a)).
Proof.
  intros Hi s Hs; unfold try_. specialize (Hi s Hs).
  destruct (c s) as [[a'|x] s1]; simpl in *; auto.
Qed.

Lemma issues_try_only_pass {A} cls (c : M A) (a : A) :
  issues e n c -> issues e n (try_only cls c (ret a)).
Proof.
  intros Hi s Hs; unfold try_only. specialize (Hi s Hs).
  destruct (c s) as [[a'|x] s1]; simpl in *; auto.
  destruct (exn_eqb x cls); simpl; auto.
Qed.

End Issues.

Lemma issues_run_cmd n w cmd : issues (ERun cmd) n (run_cmd w cmd).
Proof.
  unfold run_cmd.
  apply (issues_bind (cmd_method cmd)); [apply issues_call| |intros; apply runs_ret].
  now apply runs_call.
Qed.

Section Entries.

Variable w : World.
Variable n : nat.

Lemma method1_issues : issues (method_entry 1) n (method1 w).
Proof.
  unfold method1.
  apply issues_try_pass.
  apply (issues_bind 1); [apply issues_call|now apply runs_call|].
  intros _. run_rules.
  apply (runs_state_dependent 1 n (fun s0 => for_each _ _)).
  intros s0 Hs0; apply runs_for_each; intros i Hi.
  apply runs_method1_device.
  apply in_seq in Hi; lia.
Qed.

Lemma method2_issues : issues (method_entry 2) n (method2 w).
Proof.
  unfold method2.
  apply issues_try_pass.
  apply (issues_bind 2); [apply issues_run_cmd|now apply runs_run_cmd|].
  intros xml. run_rules.
  unfold method2_block.
  destruct (xml_gpu_uuid _); run_rules.
  unfold method2_proc; run_rules.
  match goal with |- runs_as _ _ (match ?r with _ => _ end) => destruct r end;
    [apply (runs_join 2 n) | apply runs_ret].
Qed.

Lemma query_loop_issues pq qs pout :
  Forall (fun pq => cmd_method (compute_apps_cmd pq) = 3) (pq :: qs) ->
  issues (ERun (compute_apps_cmd pq)) n (query_loop w (pq :: qs) pout).
Proof.
  intros Hq; inversion Hq as [|? ? Hpq Hqs]; subst.
  cbn [query_loop].
  apply (issues_bind 3).
  - apply issues_try_only_pass.
    apply (issues_bind 3);
      [apply issues_run_cmd|now apply runs_run_cmd|intros; apply runs_ret].
  - apply runs_try_only; [|apply runs_ret].
    apply runs_bind; [now apply runs_run_cmd|intros; apply runs_ret].
  - intros [out|].
    + destruct (_ && _); [apply runs_ret|now apply runs_query_loop].
    + now apply runs_query_loop.
Qed.

Lemma method3_issues : issues (method_entry 3) n (method3 w).
Proof.
  unfold method3.
  apply (issues_bind 3).
  - apply query_loop_issues; repeat constructor.
  - apply runs_query_loop; repeat constructor.
  - intros pout; destruct (Py.truthy pout); run_rules.
    unfold method3_line; run_rules.
    match goal with |- runs_as _ _ (match ?r with _ => _ end) => destruct r as [[u p]|] end;
      [apply (runs_join 3 n) | apply runs_ret].
Qed.

Lemma method4_issues : issues (method_entry 4) n (method4 w).
Proof.
  unfold method4.
  apply issues_try_pass.
  apply (issues_bind 4); [apply issues_run_cmd|now apply runs_run_cmd|].
  intros txt. run_rules. apply runs_method4_line.
Qed.

Lemma method5_issues : issues (method_entry 5) n (method5 w).
Proof.
  unfold method5.
  apply issues_try_only_pass.
  apply (issues_bind 5); [apply issues_run_cmd|now apply runs_run_cmd|].
  intros pmon. run_rules.
  unfold method5_line; run_rules.
  match goal with |- runs_as _ _ (match ?r with _ => _ end) => destruct r as [[u p]|] end;
    [apply (runs_join 5 n) | apply runs_ret].
Qed.

End Entries.

Lemma method_entry_method k : (1 <= k <= 5)%nat -> event_method (method_entry k) = k.
Proof.
  intros Hk.
  destruct k as [|[|[|[|[|[|k]]]]]]; try lia; reflexivity.
Qed.

Lemma none_before_prefix k t evs : none_before k (t ++ evs) -> none_before k t.
Proof.
  intros H j i p Hin. apply (H j i p). apply in_or_app; now left.
Qed.

Lemma count_events_none f t :
  (forall e, In e t -> f e = false) -> count_events f t = 0%nat.
Proof.
  unfold count_events; induction t as [|x t IH]; simpl; auto.
  intros H. rewrite (H x) by auto. apply IH; auto.
Qed.

(** Before method [k + 1]: when no method up to [k] has appended, the
    counter is zero. *)
Lemma none_before_counter l k s :
  chain_inv l k s -> none_before (S k) (trace s) -> appended s = 0%nat.
Proof.
  intros (_ & Hr & _ & _ & Ha & _) Hn.
  rewrite Ha. apply count_events_none. intros e He.
  destruct e as [| | | | | | | |j i p]; auto.
  rewrite Forall_forall in Hr. specialize (Hr _ He); simpl in Hr.
  specialize (Hn j i p He). lia.
Qed.

Lemma entered_gated l k s (c : M unit) :
  chain_inv l k s -> (1 <= k <= 4)%nat -> entered_upto k (trace s) ->
  runs_as (S k) (List.length l) c ->
  issues (method_entry (S k)) (List.length l) c ->
  entered_upto (S k) (trace (snd (if_none_appended c s))).
Proof.
  intros Hinv Hk (H1 & Hup) Hc Hi.
  assert (Hlen : List.length (gpus s) = List.length l)
    by (destruct Hinv as (He & _); now apply extends_length).
  unfold if_none_appended.
  destruct (appended s =? 0)%nat eqn:H0.
  - destruct (steps_trace _ _ _ (Hc s Hlen)) as (evs & Ht & _).
    split.
    + rewrite Ht. apply in_or_app; now left.
    + intros k' Hk' Hn.
      destruct (Nat.eq_dec k' (S k)) as [->|Hne]; [now apply Hi|].
      rewrite Ht in *. apply in_or_app; left.
      apply Hup; [lia|]. eapply none_before_prefix; eauto.
  - simpl. split; auto.
    intros k' Hk' Hn.
    destruct (Nat.eq_dec k' (S k)) as [->|Hne]; [|apply Hup; auto; lia].
    apply Nat.eqb_neq in H0.
    exfalso; apply H0. eapply none_before_counter; eauto.
Qed.

Lemma gated_never_raises (c : M unit) :
  never_raises c -> never_raises (if_none_appended c).
Proof.
  intros Hc s; unfold if_none_appended.
  destruct (appended s =? 0)%nat; [apply Hc|simpl; eauto].
Qed.

(** A pass ends after method 5 has had its turn, or in method 3 with an
    exception. *)
Lemma resolver_enters_in_order w l :
  (chain_inv l 5 (snd (_add_process_info w (entry l)))
   /\ entered_upto 5 (trace (snd (_add_process_info w (entry l)))))
  \/ (chain_inv l 3 (snd (_add_process_info w (entry l)))
      /\ entered_upto 3 (trace (snd (_add_process_info w (entry l))))
      /\ exists e, fst (_add_process_info w (entry l)) = Raise e).
Proof.
  unfold _add_process_info, bind.
  change (reset_appended (entry l)) with (@Ok unit tt, entry l).
  cbv iota.
  (* method 1 *)
  assert (H1 : chain_inv l 1 (snd (method1 w (entry l)))).
  { apply (chain_inv_steps l 0 (entry l));
      [apply chain_inv_entry|lia|reflexivity|].
    now apply (runs_method1 w (List.length l)). }
  assert (P1 : entered_upto 1 (trace (snd (method1 w (entry l))))).
  { split; [now apply (method1_issues w (List.length l))|intros; lia]. }
  destruct (method1_never_raises w (entry l)) as (a1 & N1).
  destruct (method1 w (entry l)) as [[a|e] s1]; simpl in H1, P1, N1;
    [clear N1 a1|discriminate].
  (* method 2 *)
  pose proof (chain_inv_gated l 1 s1 (method2 w) H1 ltac:(lia)
                (runs_method2 w _)) as H2.
  pose proof (entered_gated l 1 s1 (method2 w) H1 ltac:(lia) P1
                (runs_method2 w _) (method2_issues w _)) as P2.
  destruct (gated_never_raises _ (method2_never_raises w) s1) as (a2 & N2).
  destruct (if_none_appended (method2 w) s1) as [[a'|e] s2]; simpl in H2, P2, N2;
    [clear N2 a2|discriminate].
  (* method 3 *)
  pose proof (chain_inv_gated l 2 s2 (method3 w) H2 ltac:(lia)
                (runs_method3 w _)) as H3.
  pose proof (entered_gated l 2 s2 (method3 w) H2 ltac:(lia) P2
                (runs_method3 w _) (method3_issues w _)) as P3.
  destruct (if_none_appended (method3 w) s2) as [[a3|e] s3]; simpl in H3, P3;
    [|right; simpl; eauto].
  (* method 4 *)
  pose proof (chain_inv_gated l 3 s3 (method4 w) H3 ltac:(lia)
                (runs_method4 w _)) as H4.
  pose proof (entered_gated l 3 s3 (method4 w) H3 ltac:(lia) P3
                (runs_method4 w _) (method4_issues w _)) as P4.
  destruct (gated_never_raises _ (method4_never_raises w) s3) as (a4 & N4).
  destruct (if_none_appended (method4 w) s3) as [[a''|e] s4]; simpl in H4, P4, N4;
    [clear N4 a4|discriminate].
  (* method 5 *)
  pose proof (chain_inv_gated l 4 s4 (method5 w) H4 ltac:(lia)
                (runs_method5 w _)) as H5.
  pose proof (entered_gated l 4 s4 (method5 w) H4 ltac:(lia) P4
                (runs_method5 w _) (method5_issues w _)) as P5.
  destruct (if_none_appended (method5 w) s4) as [[a5|e] s5]; simpl in H5, P5;
    left; simpl; auto.
Qed.

(** ** The resolver as a whole *)

(** C1. The five methods are tried in their order, each one as long as
    none before it has appended a record, and once a method has appended
    a record no event of a later method occurs: neither a call into the
    library nor a shell command.  In full: the history of a pass holds
    events of the methods 1 to 5 only, ordered by method; no event belongs
    to a method later than one that appended; method 1 is always entered;
    method [k] is entered whenever no method before it appended, unless
    the pass ended in method 3 with an exception; and a method is entered
    only after all the methods before it. *)
Theorem first_success_wins (w : World) (l : list Device) :
  Forall (fun e => (1 <= event_method e <= 5)%nat)
         (trace (snd (_add_process_info w (entry l))))
  /\ in_method_order (trace (snd (_add_process_info w (entry l))))
  /\ (forall k i p e,
       In (EAppend k i p) (trace (snd (_add_process_info w (entry l)))) ->
       In e (trace (snd (_add_process_info w (entry l)))) ->
       (event_method e <= k)%nat)
  /\ In (method_entry 1) (trace (snd (_add_process_info w (entry l))))
  /\ (forall k, (2 <= k <= 5)%nat ->
       none_before k (trace (snd (_add_process_info w (entry l)))) ->
       In (method_entry k) (trace (snd (_add_process_info w (entry l))))
       \/ ((4 <= k)%nat
           /\ (exists e, fst (_add_process_info w (entry l)) = Raise e)
           /\ Forall (fun e => (event_method e <= 3)%nat)
                     (trace (snd (_add_process_info w (entry l))))))
  /\ (forall k k', (1 <= k <= k')%nat -> (k' <= 5)%nat ->
       In (method_entry k') (trace (snd (_add_process_info w (entry l)))) ->
       In (method_entry k) (trace (snd (_add_process_info w (entry l))))).
Proof.
  destruct (chain_inv_final w l) as (_ & Hr & Ho & Hf & _).
  pose proof (resolver_enters_in_order w l) as Hp.
  set (r := _add_process_info w (entry l)) in *.
  assert (H1 : In (method_entry 1) (trace (snd r)))
    by (destruct Hp as [(_ & H1 & _)|(_ & (H1 & _) & _)]; exact H1).
  assert (Hk : forall k, (2 <= k <= 5)%nat -> none_before k (trace (snd r)) ->
            In (method_entry k) (trace (snd r))
            \/ ((4 <= k)%nat /\ (exists e, fst r = Raise e)
                /\ Forall (fun e => (event_method e <= 3)%nat) (trace (snd r)))).
  { intros k Hk Hn.
    destruct Hp as [(_ & _ & Hup)|((_ & Hr3 & _) & (_ & Hup) & He)].
    - left; now apply Hup.
    - destruct (le_lt_dec k 3) as [Hk3|Hk3]; [left; apply Hup; auto; lia|].
      right; repeat split; auto.
      eapply Forall_impl; [|exact Hr3]; simpl; intros; lia. }
  repeat split; auto.
  intros k k' Hkk Hk' Hin.
  destruct (Nat.eq_dec k 1) as [->|Hne]; [exact H1|].
  assert (Hn : none_before k (trace (snd r))).
  { intros j i p Hj. specialize (Hf j i p _ Hj Hin).
    rewrite method_entry_method in Hf by lia. lia. }
  destruct (Hk k ltac:(lia) Hn) as [Hin'|(Hk4 & _ & Hr3)]; [exact Hin'|].
  rewrite Forall_forall in Hr3. specialize (Hr3 _ Hin).
  rewrite method_entry_method in Hr3 by lia. lia.
Qed.

Lemma first_success_wins_witness :
  (In (EAppend 1 0 record_4242)
      (trace (snd (_add_process_info nvml_host (entry two_devices))))
   /\ forall e,
        In e (trace (snd (_add_process_info nvml_host (entry two_devices)))) ->
        (event_method e <= 1)%nat)
  /\ (none_before 2 (trace (snd (_add_process_info xml_host (entry two_devices))))
      /\ In (method_entry 2)
            (trace (snd (_add_process_info xml_host (entry two_devices))))).
Proof.
  assert (H : In (EAppend 1 0 record_4242)
                 (trace (snd (_add_process_info nvml_host (entry two_devices)))))
    by (vm_compute; tauto).
  assert (N : none_before 2
                (trace (snd (_add_process_info xml_host (entry two_devices))))).
  { intros j i p Hin. vm_compute in Hin.
    destruct Hin as [Hin|[Hin|[Hin|[]]]];
      [discriminate|discriminate|injection Hin as <- _ _; lia]. }
  split; [split; [exact H|]|split; [exact N|]].
  - intros e He.
    exact (proj1 (proj2 (proj2 (first_success_wins nvml_host two_devices)))
                 1%nat 0%nat record_4242 e H He).
  - destruct (proj1 (proj2 (proj2 (proj2 (proj2
                (first_success_wins xml_host two_devices))))) 2%nat
                ltac:(lia) N) as [Hin|(Hk & _)]; [exact Hin|lia].
Defined.

(** C8. The resolver keeps the devices, their order and all their fields
    but ["processes"], to which it only appends; this holds of the list
    also when the resolver leaves with an exception. *)
Theorem resolver_append_only (w : World) (l : list Device) :
  extends l (gpus (snd (_add_process_info w (entry l)))).
Proof.
  now destruct (chain_inv_final w l) as (He & _).
Qed.

Lemma count_events_split t :
  count_events is_append t
  = (count_events is_counted_append t + count_events is_pmon_append t)%nat.
Proof.
  unfold count_events; induction t as [|e t IH]; simpl; auto.
  destruct e as [| | | | | | | |m i p]; simpl; auto.
  unfold counted; destruct (m =? 5)%nat; simpl; lia.
Qed.

Lemma count_events_exists f t :
  (0 < count_events f t)%nat -> exists e, In e t /\ f e = true.
Proof.
  unfold count_events; induction t as [|x t IH]; simpl; [lia|].
  destruct (f x) eqn:Hx; [exists x; auto|].
  intros H; destruct (IH H) as (e & He & Hf); exists e; auto.
Qed.

Lemma result_is_device_list w s v :
  fst (_add_process_info w s) = Ok v ->
  v = PyDevices (gpus (snd (_add_process_info w s))).
Proof.
  unfold _add_process_info, bind, return_gpus.
  repeat match goal with
         | |- context [match ?c ?st with _ => _ end] =>
             destruct (c st) as [[[]|?] ?]; simpl; try discriminate
         end.
  now intros [= <-].
Qed.

(** Every record of a pass is counted or comes from [pmon]. *)
Lemma records_counted_or_pmon w l :
  n_records (gpus (snd (_add_process_info w (entry l))))
  = (n_records l + appended (snd (_add_process_info w (entry l)))
     + count_events is_pmon_append
         (trace (snd (_add_process_info w (entry l)))))%nat.
Proof.
  destruct (chain_inv_final w l) as (_ & _ & _ & _ & Ha & Hn).
  rewrite count_events_split in Hn. rewrite <- Ha in Hn. lia.
Qed.

(** C7, as amended.  The resolver hands back the device list itself, not
    a count; the counter it keeps, whenever it is not zero, is the number
    of records appended during the pass. *)
Theorem resolver_returns_device_list (w : World) (l : list Device) :
  (forall v, fst (_add_process_info w (entry l)) = Ok v ->
             v = PyDevices (gpus (snd (_add_process_info w (entry l)))))
  /\ ((0 < appended (snd (_add_process_info w (entry l))))%nat ->
      n_records (gpus (snd (_add_process_info w (entry l))))
      = (n_records l + appended (snd (_add_process_info w (entry l))))%nat).
Proof.
  split; [intros v; apply result_is_device_list|].
  pose proof (records_counted_or_pmon w l) as Hn.
  destruct (chain_inv_final w l) as (_ & Hr & _ & Hf & Ha & _).
  intros Hpos. rewrite Ha in Hpos.
  destruct (count_events_exists _ _ Hpos) as (e & He & Hc).
  destruct e as [| | | | | | | |j i p]; try discriminate.
  rewrite (count_events_none is_pmon_append) in Hn; [lia|].
  intros e' He'. specialize (Hf j i p e' He He').
  destruct e' as [| | | | | | | |m i' p']; simpl in *; auto.
  unfold counted in Hc. apply negb_true_iff, Nat.eqb_neq in Hc.
  rewrite Forall_forall in Hr. specialize (Hr _ He); simpl in Hr.
  apply Nat.eqb_neq; lia.
Qed.

Lemma resolver_returns_device_list_witness :
  n_records (gpus (snd (_add_process_info xml_host (entry two_devices))))
  = (n_records two_devices
     + appended (snd (_add_process_info xml_host (entry two_devices))))%nat.
Proof.
  apply (proj2 (resolver_returns_device_list xml_host two_devices)).
  vm_compute; lia.
Defined.

(** C7, as stated, fails where only [pmon] attributes: one record is
    appended, the value handed back is not the integer 1 (it is the device
    list), and the counter is still zero. *)
Lemma pmon_result_is_not_the_count :
  n_records (gpus (snd (_add_process_info pmon_host (entry two_devices)))) = 1%nat
  /\ n_records two_devices = 0%nat
  /\ fst (_add_process_info pmon_host (entry two_devices)) <> Ok (PyInt 1)
  /\ appended (snd (_add_process_info pmon_host (entry two_devices))) = 0%nat.
Proof.
  repeat split; try (vm_compute; reflexivity).
  vm_compute; discriminate.
Qed.

(** ** Method 2: the join by identifier *)

Lemma Forall2_nth_error_both {A B} (R : A -> B -> Prop) l l' i x y :
  Forall2 R l l' -> nth_error l i = Some x -> nth_error l' i = Some y -> R x y.
Proof.
  intros H; revert i; induction H; intros [|i]; simpl; try discriminate.
  - now intros [= ->] [= ->].
  - apply IHForall2.
Qed.

(** C6. Whatever method 2 appends to a device comes from a
    [<process_info>] block inside a [<gpu>] block of the report whose
    identifier is the [uuid] of that device; the position and the index of
    the device play no part. *)
Theorem xml_join_by_uuid (w : World) (s : state) (i : nat) (g g' : Device) :
  nth_error (gpus s) i = Some g ->
  nth_error (gpus (snd (method2 w s))) i = Some g' ->
  exists added,
    processes g' = processes g ++ added
    /\ forall p, In p added ->
         exists raw u,
           check_output w "nvidia-smi -x -q" = Ok raw
           /\ uuid g = Some u
           /\ xml_reports w (Py.strip raw) u p.
Proof.
  intros Hg Hg'.
  destruct (Forall2_nth_error_both _ _ _ _ _ _ (method2_keeps_join w s) Hg Hg')
    as (_ & added & Hadd & HJ).
  exists added; split; auto.
  intros p Hp. rewrite Forall_forall in HJ.
  destruct (HJ p Hp) as (raw & u & Hraw & Hu & Hrep).
  now exists raw, u.
Qed.

Lemma xml_join_by_uuid_witness :
  exists added,
    [record_1234] = [] ++ added
    /\ forall p, In p added ->
         exists raw u,
           check_output xml_host "nvidia-smi -x -q" = Ok raw
           /\ Some "GPU-1" = Some u
           /\ xml_reports xml_host (Py.strip raw) u p.
Proof.
  apply (xml_join_by_uuid xml_host (entry two_devices) 0
           (sample_device 0 "GPU-1")
           (add_process record_1234 (sample_device 0 "GPU-1")));
    vm_compute; reflexivity.
Defined.

(** A device whose identifier heads no [<gpu>] block of the report with a
    process gets nothing from method 2. *)
Lemma xml_no_match_no_append w s i g g' :
  nth_error (gpus s) i = Some g ->
  nth_error (gpus (snd (method2 w s))) i = Some g' ->
  (forall raw u p, check_output w "nvidia-smi -x -q" = Ok raw ->
                   xml_reports w (Py.strip raw) u p -> uuid g <> Some u) ->
  processes g' = processes g.
Proof.
  intros Hg Hg' Hno.
  destruct (Forall2_nth_error_both _ _ _ _ _ _ (method2_keeps_join w s) Hg Hg')
    as (_ & [|p added] & Hadd & HJ).
  - now rewrite app_nil_r in Hadd.
  - inversion HJ as [|? ? (raw & u & Hraw & Hu & Hrep) _]; subst.
    now destruct (Hno raw u p Hraw Hrep).
Qed.

(** The scenario of the report: the record goes to the device [GPU-1] and
    the other device stays empty. *)
Example xml_scenario :
  map processes (gpus (snd (_add_process_info xml_host (entry two_devices))))
  = [[record_1234]; []].
Proof. vm_compute; reflexivity. Qed.

(** No command of a later method is issued in that run. *)
Example xml_scenario_trace :
  trace (snd (_add_process_info xml_host (entry two_devices)))
  = [EImport; ERun "nvidia-smi -x -q"; EAppend 2 0 record_1234].
Proof. vm_compute; reflexivity. Qed.

(** ** Method 1: both lists of the binding *)

Lemma for_each_method1_proc w i procs s g :
  nth_error (gpus s) i = Some g ->
  fst (for_each procs (method1_proc w i) s) = Ok tt
  /\ nth_error (gpus (snd (for_each procs (method1_proc w i) s))) i
     = Some {| id := id g; uuid := uuid g; dev_name := dev_name g;
               driverVersion := driverVersion g; temperature := temperature g;
               utilization := utilization g; dev_memory := dev_memory g;
               power := power g; fan := fan g;
               processes := processes g ++ flat_map (nvml_records w) procs |}.
Proof.
  revert s g; induction procs as [|proc procs IH]; intros s g Hg; simpl.
  - rewrite app_nil_r; split; auto. now destruct g.
  - unfold bind at 1 2.
    assert (Hone : fst (method1_proc w i proc s) = Ok tt
                   /\ nth_error (gpus (snd (method1_proc w i proc s))) i
                      = Some {| id := id g; uuid := uuid g; dev_name := dev_name g;
                                driverVersion := driverVersion g;
                                temperature := temperature g;
                                utilization := utilization g;
                                dev_memory := dev_memory g;
                                power := power g; fan := fan g;
                                processes := processes g ++ nvml_records w proc |}).
    { unfold method1_proc, nvml_records, try_, bind, lift, call, emit,
        append_process, ret; simpl.
      destruct (memory_mb_of proc) as [mb|e]; simpl.
      - destruct (nvmlSystemGetProcessName w (np_pid proc)); simpl;
          (split; [reflexivity|]);
          now apply (nth_error_alter_same (add_process _) i (gpus s) g).
      - rewrite app_nil_r; split; auto. now destruct g. }
    destruct Hone as [Hok Hnth].
    destruct (method1_proc w i proc s) as [[[]|e] s1]; simpl in *; try discriminate.
    destruct (IH s1 _ Hnth) as [Hok' Hnth']; simpl in *.
    split; auto. now rewrite Hnth', <- app_assoc.
Qed.

Lemma count_pid_app z l1 l2 :
  count_pid z (l1 ++ l2) = (count_pid z l1 + count_pid z l2)%nat.
Proof.
  unfold count_pid; now rewrite filter_app, length_app.
Qed.

Lemma count_pid_records w proc procs :
  In proc procs -> usedGpuMemory proc <> AttrNone ->
  (1 <= count_pid (np_pid proc) (flat_map (nvml_records w) procs))%nat.
Proof.
  induction procs as [|x procs IH]; simpl; [tauto|].
  intros [->|Hin] Hmem; rewrite count_pid_app.
  - unfold nvml_records, memory_mb_of.
    destruct (usedGpuMemory proc); try congruence;
      unfold count_pid; simpl; rewrite Z.eqb_refl; simpl; lia.
  - specialize (IH Hin Hmem); lia.
Qed.

(** C10. For a device whose handle and two process lists the binding
    returns, method 1 appends the records of the compute list followed by
    those of the graphics list, one for every entry whose memory it can
    read; a process that is in both lists is therefore there twice. *)
Theorem nvml_lists_not_deduplicated (w : World) (s : state) (i : nat)
    (g : Device) (h : handle) (cs gs : list nvml_proc) :
  nth_error (gpus s) i = Some g ->
  nvmlDeviceGetHandleByIndex w i = Ok h ->
  nvmlDeviceGetComputeRunningProcesses w h = Ok cs ->
  nvmlDeviceGetGraphicsRunningProcesses w h = Ok gs ->
  exists g',
    nth_error (gpus (snd (method1_device w i s))) i = Some g'
    /\ processes g' = processes g ++ flat_map (nvml_records w) (cs ++ gs)
    /\ forall proc, In proc cs -> In proc gs -> usedGpuMemory proc <> AttrNone ->
         (2 <= count_pid (np_pid proc) (processes g'))%nat.
Proof.
  intros Hg Hh Hcs Hgs.
  unfold method1_device, try_, bind at 1, call, bind at 1, emit, lift; simpl.
  rewrite Hh; simpl.
  unfold bind at 1, bind at 1; simpl. rewrite Hcs; simpl.
  unfold bind at 1, bind at 1; simpl. rewrite Hgs; simpl.
  match goal with
  | |- context [for_each ?l ?b ?st] =>
      destruct (for_each_method1_proc w i l st g Hg) as [Hok Hnth];
      destruct (for_each l b st) as [[[]|e] s1]; simpl in *; try discriminate
  end.
  eexists; split; [exact Hnth|]; simpl; split; auto.
  intros proc Hc Hgr Hmem.
  rewrite flat_map_app, !count_pid_app.
  pose proof (count_pid_records w proc cs Hc Hmem).
  pose proof (count_pid_records w proc gs Hgr Hmem).
  lia.
Qed.

Lemma nvml_lists_not_deduplicated_witness :
  exists g',
    nth_error (gpus (snd (method1_device nvml_host 0 (entry two_devices)))) 0
    = Some g'
    /\ processes g' = [] ++ flat_map (nvml_records nvml_host)
                                     ([nvml_proc_4242] ++ [nvml_proc_4242])
    /\ forall proc, In proc [nvml_proc_4242] -> In proc [nvml_proc_4242] ->
         usedGpuMemory proc <> AttrNone ->
         (2 <= count_pid (np_pid proc) (processes g'))%nat.
Proof.
  apply (nvml_lists_not_deduplicated nvml_host (entry two_devices) 0
           (sample_device 0 "GPU-1") 0 [nvml_proc_4242] [nvml_proc_4242]);
    reflexivity.
Defined.

(** On that host one snapshot lists process 4242 twice on each device. *)
Example nvml_duplicate_pid :
  map processes (gpus (snd (_add_process_info nvml_host (entry two_devices))))
  = [[record_4242; record_4242]; [record_4242; record_4242]].
Proof. vm_compute; reflexivity. Qed.

(** ** The enumerator *)

(** C9. When the device query fails, [get_gpus] raises the error of the
    command with no device built and nothing else run, and the handler of
    the snapshot raises it too. *)
Theorem enumeration_failure_is_total (w : World) (e : exn) :
  check_output w gpu_cmd = Raise e ->
  get_gpus w initial = (Raise e, mkState [] 0 [ERun gpu_cmd])
  /\ fst (nvidia w initial) = Raise e.
Proof.
  intros H.
  unfold nvidia, get_gpus, run_cmd, call, bind, emit, lift, initial; simpl.
  now rewrite H.
Qed.

Lemma enumeration_failure_is_total_witness :
  get_gpus no_tools initial
  = (Raise CalledProcessError, mkState [] 0 [ERun gpu_cmd])
  /\ fst (nvidia no_tools initial) = Raise CalledProcessError.
Proof.
  apply (enumeration_failure_is_total no_tools CalledProcessError).
  reflexivity.
Defined.

(** C4 at the failing input: a row whose temperature is the sentinel
    makes [get_gpus] raise [ValueError], on every host; no device is
    produced. *)
Theorem na_temperature_raises (w : World) :
  gpu_row w na_temperature_line = Raise ValueError
  /\ fst (get_gpus (with_output gpu_cmd na_temperature_line w) initial)
     = Raise ValueError.
Proof.
  split; reflexivity.
Qed.

(** The fan speed is the one field whose sentinel becomes [None]. *)
Lemma fan_sentinel_is_none x : is_na x = true -> fan_of x = Ok None.
Proof.
  unfold fan_of; intros ->; simpl. now rewrite andb_false_r.
Qed.

(** ** Failures inside the resolver *)

(** C2 at the failing input: an infinite memory figure in the
    compute-apps table leaves [_add_process_info] with [OverflowError]. *)
Theorem resolver_raises_on_infinite_memory :
  csv_pmem "inf" = Raise OverflowError
  /\ fst (_add_process_info inf_host (entry two_devices)) = Raise OverflowError.
Proof.
  split; vm_compute; reflexivity.
Qed.

(** The same figure in the output of [pmon]. *)
Example pmon_raises_on_infinite_memory : pmon_pmem "inf" = Raise OverflowError.
Proof. vm_compute; reflexivity. Qed.

(** C3 at the failing input: the row of the scenario has no inner bar, so
    it is one column and the loop passes it over on every host and in
    every state; with that table alone no device gets a process. *)
Theorem table_row_is_skipped :
  (forall w s, method4_line w true table_row_line s = (Ok true, s))
  /\ gpus (snd (method4 table_host (entry two_devices))) = two_devices
  /\ map processes
       (gpus (snd (_add_process_info table_host (entry two_devices))))
     = [[]; []].
Proof.
  split; [intros w s; reflexivity|].
  split; vm_compute; reflexivity.
Qed.

(** A row with a bar between the columns is read as the comment in the
    source describes. *)
Example table_row_with_bars w :
  table_row w ["0"; "1"; "N/A"; "4567"; "C"; "python3"; "2048MiB"]
  = Ok (0%Z, record_4567).
Proof. reflexivity. Qed.

(** ** Memory figures that are not available *)






(* ------------------------------------------------------------------ *)
(** * Further properties *)

(** ** One pass of the resolver *)

(** X1. All the records appended in one pass come from one and the same
    method. *)
Theorem one_method_per_pass (w : World) (l : list Device)
    (j i j' i' : nat) (p p' : Process) :
  In (EAppend j i p) (trace (snd (_add_process_info w (entry l)))) ->
  In (EAppend j' i' p') (trace (snd (_add_process_info w (entry l)))) ->
  j = j'.
Proof.
  intros H H'.
  destruct (chain_inv_final w l) as (_ & _ & _ & Hf & _).
  pose proof (Hf j i p _ H H') as A. pose proof (Hf j' i' p' _ H' H) as B.
  simpl in A, B. lia.
Qed.

Lemma one_method_per_pass_witness :
  In (EAppend 1 0 record_4242)
     (trace (snd (_add_process_info nvml_host (entry two_devices))))
  /\ In (EAppend 1 1 record_4242)
        (trace (snd (_add_process_info nvml_host (entry two_devices))))
  /\ 1%nat = 1%nat.
Proof.
  assert (A : In (EAppend 1 0 record_4242)
                 (trace (snd (_add_process_info nvml_host (entry two_devices)))))
    by (vm_compute; tauto).
  assert (B : In (EAppend 1 1 record_4242)
                 (trace (snd (_add_process_info nvml_host (entry two_devices)))))
    by (vm_compute; tauto).
  split; [exact A|split; [exact B|]].
  exact (one_method_per_pass nvml_host two_devices 1 0 1 1
           record_4242 record_4242 A B).
Defined.

Lemma grows_more_records g g' :
  grows g g' -> (List.length (processes g) <= List.length (processes g'))%nat.
Proof.
  intros (_ & _ & _ & _ & _ & _ & _ & _ & _ & a & Ha).
  rewrite Ha, length_app; lia.
Qed.

Lemma grows_same_records g g' :
  grows g g' -> List.length (processes g') = List.length (processes g) -> g' = g.
Proof.
  intros (H1 & H2 & H3 & H4 & H5 & H6 & H7 & H8 & H9 & a & Ha) Hlen.
  rewrite Ha, length_app in Hlen.
  assert (a = []) by (destruct a; simpl in *; [reflexivity|lia]). subst a.
  rewrite app_nil_r in Ha.
  destruct g, g'; simpl in *; congruence.
Qed.

Lemma extends_more_records l l' :
  extends l l' -> (n_records l <= n_records l')%nat.
Proof.
  induction 1 as [|g g' l l' Hg _ IH]; simpl; auto.
  pose proof (grows_more_records _ _ Hg); lia.
Qed.

Lemma extends_same_records l l' :
  extends l l' -> n_records l' = n_records l -> l' = l.
Proof.
  induction 1 as [|g g' l l' Hg Hl IH]; simpl; auto.
  intros Hn.
  pose proof (grows_more_records _ _ Hg).
  pose proof (extends_more_records _ _ Hl).
  f_equal; [apply grows_same_records; auto; lia | apply IH; lia].
Qed.

(** X2. A pass that leaves the number of process records as it was
    leaves the whole device list as it was. *)
Theorem no_record_no_change (w : World) (l : list Device) :
  n_records (gpus (snd (_add_process_info w (entry l)))) = n_records l ->
  gpus (snd (_add_process_info w (entry l))) = l.
Proof.
  intros Hn. apply extends_same_records; auto.
  now destruct (chain_inv_final w l) as (He & _).
Qed.

Lemma no_record_no_change_witness :
  gpus (snd (_add_process_info table_host (entry two_devices))) = two_devices.
Proof.
  apply (no_record_no_change table_host two_devices).
  vm_compute; reflexivity.
Defined.

(** X3. On a host without the NVML binding on which every command exits
    with a non-zero status, the resolver tries the methods in turn, each
    command once, and hands the device list back untouched. *)
Theorem nothing_available (w : World) (l : list Device) (e : exn) :
  import_pynvml w = Raise e ->
  (forall cmd, check_output w cmd = Raise CalledProcessError) ->
  _add_process_info w (entry l)
  = (Ok (PyDevices l),
     mkState l 0 [EImport; ERun "nvidia-smi -x -q"; ERun first_query_cmd;
                  ERun second_query_cmd; ERun "nvidia-smi";
                  ERun "nvidia-smi pmon -c 1 -s mu"]).
Proof.
  intros Hi Hc.
  unfold _add_process_info, method1, method2, method3, method4, method5,
    if_none_appended, reset_appended, return_gpus, entry, queries, query_loop,
    run_cmd, try_, try_only, call, bind, emit, lift, ret; simpl.
  rewrite Hi; simpl. rewrite !Hc; simpl. reflexivity.
Qed.

Lemma nothing_available_witness :
  _add_process_info no_tools (entry two_devices)
  = (Ok (PyDevices two_devices),
     mkState two_devices 0
       [EImport; ERun "nvidia-smi -x -q"; ERun first_query_cmd;
        ERun second_query_cmd; ERun "nvidia-smi";
        ERun "nvidia-smi pmon -c 1 -s mu"]).
Proof.
  apply (nothing_available no_tools two_devices ImportError);
    [reflexivity | intros cmd; reflexivity].
Defined.

(** ** The join loop *)

Lemma alter_middle {A} (f : A -> A) pre x rest :
  alter f (List.length pre) (pre ++ x :: rest) = pre ++ f x :: rest.
Proof.
  induction pre as [|y pre IH]; simpl; auto. now rewrite IH.
Qed.

Lemma nth_error_middle {A} (pre : list A) x rest :
  nth_error (pre ++ x :: rest) (List.length pre) = Some x.
Proof.
  induction pre; simpl; auto.
Qed.

Lemma join_rounds m key p c k :
  forall pre rest s,
    gpus s = pre ++ rest -> (k <= List.length rest)%nat ->
    fst (for_each (seq (List.length pre) k) (join_round m key p c) s) = Ok tt
    /\ gpus (snd (for_each (seq (List.length pre) k) (join_round m key p c) s))
       = pre ++ map (attach key p) (firstn k rest) ++ skipn k rest
    /\ appended (snd (for_each (seq (List.length pre) k) (join_round m key p c) s))
       = (appended s
          + if c then List.length (filter key (firstn k rest)) else 0)%nat.
Proof.
  induction k as [|k IH]; intros pre rest s Hs Hk.
  - simpl. rewrite Hs. repeat split; auto. destruct c; lia.
  - destruct rest as [|g rest]; [simpl in Hk; lia|].
    simpl seq. simpl for_each. unfold bind at 1 2 3.
    unfold join_round at 1 3 5. rewrite Hs, nth_error_middle.
    assert (Hlen : S (List.length pre) = List.length (pre ++ [attach key p g]))
      by (rewrite length_app; simpl; lia).
    destruct (key g) eqn:Hkey.
    + unfold append_process at 1 2 3; cbn [fst snd].
      rewrite Hlen.
      match goal with
      | |- context [for_each _ _ ?st] =>
          destruct (IH (pre ++ [attach key p g]) rest st) as (A & B & C)
      end.
      * cbn [gpus]. rewrite Hs, alter_middle. unfold attach; rewrite Hkey.
        now rewrite <- app_assoc.
      * simpl in Hk; lia.
      * rewrite A, B, C. cbn [appended firstn map filter skipn].
        rewrite Hkey, <- app_assoc. repeat split; auto.
        destruct c; simpl; lia.
    + unfold ret at 1 2 3; cbn [fst snd].
      rewrite Hlen.
      destruct (IH (pre ++ [attach key p g]) rest s) as (A & B & C).
      * rewrite Hs. unfold attach; rewrite Hkey. now rewrite <- app_assoc.
      * simpl in Hk; lia.
      * rewrite A, B, C. cbn [firstn map filter skipn].
        rewrite Hkey, <- app_assoc. repeat split; auto.
Qed.

(** X4. A join never raises; it appends the record to every device that
    passes the test and to no other, and counts one per such device. *)
Theorem join_attaches_to_matches (m : nat) (key : Device -> bool)
    (p : Process) (c : bool) (s : state) :
  fst (join m key p c s) = Ok tt
  /\ gpus (snd (join m key p c s)) = map (attach key p) (gpus s)
  /\ appended (snd (join m key p c s))
     = (appended s + if c then List.length (filter key (gpus s)) else 0)%nat.
Proof.
  unfold join. change (fun (i : nat) (s' : state) => _) with (join_round m key p c).
  destruct (join_rounds m key p c (List.length (gpus s)) [] (gpus s) s
              eq_refl (le_n _)) as (A & B & C).
  simpl in A, B, C.
  rewrite firstn_all, skipn_all, app_nil_r in B. rewrite firstn_all in C.
  auto.
Qed.

(** ** Devices without an identifier *)

Lemma all_joined_mono (J J' : option string -> Process -> Prop) l l' :
  (forall ou p, J ou p -> J' ou p) ->
  all_joined_by J l l' -> all_joined_by J' l l'.
Proof.
  intros HJ; induction 1 as [|g g' l l' (Hg & a & Ha & Hf) _ IH];
    constructor; [|exact IH].
  split; [exact Hg|]. exists a; split; [exact Ha|].
  eapply Forall_impl; [|exact Hf]. intros p; apply HJ.
Qed.

Lemma keeps_try_only (J : option string -> Process -> Prop) {A} cls (c h : M A) :
  keeps_join J c -> keeps_join J h -> keeps_join J (try_only cls c h).
Proof.
  intros Hc Hh s; unfold try_only.
  specialize (Hc s). destruct (c s) as [[a|e] s1]; simpl in *; auto.
  destruct (exn_eqb e cls); simpl; auto.
  eapply all_joined_trans; [exact Hc | apply Hh].
Qed.

Lemma keeps_run_cmd (J : option string -> Process -> Prop) w cmd :
  keeps_join J (run_cmd w cmd).
Proof.
  intros s; unfold run_cmd, call, bind, emit, lift, ret; simpl.
  destruct (check_output w cmd); simpl; apply all_joined_refl.
Qed.

Lemma keeps_query_loop (J : option string -> Process -> Prop) w qs pout :
  keeps_join J (query_loop w qs pout).
Proof.
  revert pout; induction qs as [|pq qs IH]; intros pout; simpl.
  - apply keeps_ret.
  - apply keeps_bind.
    + apply keeps_try_only; [|apply keeps_ret].
      apply keeps_bind; [apply keeps_run_cmd | intros; apply keeps_ret].
    + intros [out|]; auto.
      destruct (_ && _); auto using keeps_ret.
Qed.

Lemma uuid_is_some u g : uuid_is u g = true -> uuid g <> None.
Proof.
  unfold uuid_is; destruct (uuid g); [discriminate|discriminate].
Qed.

Lemma method3_keeps_identified w :
  keeps_join (fun ou _ => ou <> None) (method3 w).
Proof.
  unfold method3. apply keeps_bind; [apply keeps_query_loop|].
  intros pout; destruct (Py.truthy pout); [|apply keeps_ret].
  apply keeps_for_each; intros line _.
  unfold method3_line. apply keeps_bind; [apply keeps_lift|].
  intros [[u p]|]; [|apply keeps_ret].
  apply keeps_join_loop. intros g; apply uuid_is_some.
Qed.

Lemma method2_keeps_identified w :
  keeps_join (fun ou _ => ou <> None) (method2 w).
Proof.
  intros s. eapply all_joined_mono; [|apply method2_keeps_join].
  intros ou p (raw & u & _ & -> & _); discriminate.
Qed.

Lemma Forall2_nth_error_left {A B} (R : A -> B -> Prop) l l' i x :
  Forall2 R l l' -> nth_error l i = Some x ->
  exists y, nth_error l' i = Some y /\ R x y.
Proof.
  intros H; revert i; induction H; intros [|i]; simpl; try discriminate.
  - intros [= ->]; eauto.
  - apply IHForall2.
Qed.

Lemma unidentified_untouched (c : M unit) s i g :
  keeps_join (fun ou _ => ou <> None) c ->
  nth_error (gpus s) i = Some g -> uuid g = None ->
  nth_error (gpus (snd (c s))) i = Some g.
Proof.
  intros Hc Hg Hu.
  destruct (Forall2_nth_error_left _ _ _ _ _ (Hc s) Hg)
    as (g' & Hg' & Hgrow & a & Ha & Hf).
  rewrite Hg'; f_equal. apply grows_same_records; auto.
  destruct a as [|p a]; [now rewrite Ha, app_nil_r|].
  inversion Hf; subst. congruence.
Qed.

(** X5. A device whose [uuid] is [None] gets nothing from the two methods
    that join by identifier, whatever the report and the table say. *)
Theorem no_uuid_no_join (w : World) (s : state) (i : nat) (g : Device) :
  nth_error (gpus s) i = Some g -> uuid g = None ->
  nth_error (gpus (snd (method2 w s))) i = Some g
  /\ nth_error (gpus (snd (method3 w s))) i = Some g.
Proof.
  intros Hg Hu; split.
  - apply (unidentified_untouched (method2 w)); auto using method2_keeps_identified.
  - apply (unidentified_untouched (method3 w)); auto using method3_keeps_identified.
Qed.

Lemma no_uuid_no_join_witness :
  nth_error
    (gpus (snd (method2 xml_and_table_host
                  (entry [anonymous_device; sample_device 1 "GPU-1"])))) 0
  = Some anonymous_device
  /\ nth_error
       (gpus (snd (method3 xml_and_table_host
                     (entry [anonymous_device; sample_device 1 "GPU-1"])))) 0
     = Some anonymous_device.
Proof.
  apply (no_uuid_no_join xml_and_table_host
           (entry [anonymous_device; sample_device 1 "GPU-1"]) 0
           anonymous_device); reflexivity.
Defined.

(** On that host both methods do attribute to the device [GPU-1]. *)
Example identified_device_is_joined :
  map processes
    (gpus (snd (method2 xml_and_table_host
                  (entry [anonymous_device; sample_device 1 "GPU-1"]))))
  = [[]; [record_1234]]
  /\ map processes
       (gpus (snd (method3 xml_and_table_host
                     (entry [anonymous_device; sample_device 1 "GPU-1"]))))
     = [[]; [mkProcess 12 "python" (Some 300%Z)]].
Proof. split; vm_compute; reflexivity. Qed.

(** ** The two queries of method 3 *)

(** X6. The second compute-apps query is a fallback: it is not issued
    when the first prints a usable table; it is issued when the first
    prints nothing usable or exits with a non-zero status; and when it
    then fails as well, what the first printed is what gets parsed. *)
Theorem second_query_is_fallback (w : World) (s : state) :
  (forall out,
      check_output w first_query_cmd = Ok out -> usable (Py.strip out) = true ->
      query_loop w queries "" s
      = (Ok (Py.strip out),
         mkState (gpus s) (appended s) (trace s ++ [ERun first_query_cmd])))
  /\ (forall out,
         check_output w first_query_cmd = Ok out ->
         usable (Py.strip out) = false ->
         trace (snd (query_loop w queries "" s))
         = trace s ++ [ERun first_query_cmd; ERun second_query_cmd])
  /\ (check_output w first_query_cmd = Raise CalledProcessError ->
      trace (snd (query_loop w queries "" s))
      = trace s ++ [ERun first_query_cmd; ERun second_query_cmd])
  /\ (forall out,
         check_output w first_query_cmd = Ok out ->
         usable (Py.strip out) = false ->
         check_output w second_query_cmd = Raise CalledProcessError ->
         fst (query_loop w queries "" s) = Ok (Py.strip out)).
Proof.
  unfold queries, query_loop, usable, run_cmd, try_only, call, bind, emit,
    lift, ret; simpl.
  fold first_query_cmd second_query_cmd.
  repeat split.
  - intros out H1 Hu. rewrite H1; simpl. rewrite Hu. reflexivity.
  - intros out H1 Hu. rewrite H1; simpl. rewrite Hu; simpl.
    destruct (check_output w second_query_cmd) as [out2|e2]; simpl.
    + destruct (Py.truthy (Py.strip out2) && _); simpl; rewrite <- app_assoc;
        reflexivity.
    + destruct (exn_eqb e2 CalledProcessError); simpl; rewrite <- app_assoc;
        reflexivity.
  - intros H1. rewrite H1; simpl.
    destruct (check_output w second_query_cmd) as [out2|e2]; simpl.
    + destruct (Py.truthy (Py.strip out2) && _); simpl; rewrite <- app_assoc;
        reflexivity.
    + destruct (exn_eqb e2 CalledProcessError); simpl; rewrite <- app_assoc;
        reflexivity.
  - intros out H1 Hu H2. rewrite H1; simpl. rewrite Hu; simpl.
    rewrite H2. reflexivity.
Qed.

Lemma second_query_is_fallback_witness :
  query_loop inf_host queries "" (entry two_devices)
  = (Ok "GPU-1, 12, python, inf",
     mkState two_devices 0 [ERun first_query_cmd])
  /\ trace (snd (query_loop no_tools queries "" (entry two_devices)))
     = [ERun first_query_cmd; ERun second_query_cmd].
Proof.
  split.
  - apply (proj1 (second_query_is_fallback inf_host (entry two_devices))
             "GPU-1, 12, python, inf"); reflexivity.
  - apply (proj1 (proj2 (proj2
             (second_query_is_fallback no_tools (entry two_devices)))));
      reflexivity.
Defined.

(** ** What can leave the resolver *)

Lemma exn_eqb_eq a b : exn_eqb a b = true -> a = b.
Proof. destruct a, b; simpl; congruence. Qed.

Lemma int_raises lim s e : Py.int lim s = Raise e -> e = ValueError.
Proof.
  unfold Py.int.
  destruct (negb _); [congruence|].
  destruct (Py.split_sign _) as [neg body].
  destruct (_ || _); [congruence|].
  destruct (_ && _); congruence.
Qed.

Lemma float_raises s e : Py.float s = Raise e -> e = ValueError.
Proof.
  unfold Py.float.
  destruct (negb _); [congruence|].
  destruct (Py.split_sign _) as [neg body].
  destruct (_ || _); [congruence|].
  destruct (String.eqb _ "nan"); [congruence|].
  destruct (Py.span_digits body) as [ip r1].
  destruct (match r1 with String "." r => _ | _ => _ end) as [fp r2].
  destruct (String.eqb _ ""); [congruence|].
  destruct (Py.parse_exponent r2); [|congruence].
  destruct (Py.round_binary64 _ _) as [[q e']|]; congruence.
Qed.

Lemma int_float_raises s e :
  Py.int_float s = Raise e -> e = ValueError \/ e = OverflowError.
Proof.
  unfold Py.int_float, rbind.
  destruct (Py.float s) as [x|e'] eqn:Hf.
  - destruct x; simpl; intros [= <-]; auto.
  - intros [= <-]. left; eapply float_raises; eauto.
Qed.

Lemma csv_pmem_raises x e : csv_pmem x = Raise e -> e = OverflowError.
Proof.
  unfold csv_pmem, try_except.
  destruct (negb (is_na x)); [|congruence].
  destruct (Py.int_float x) as [v|e'] eqn:Hx; [congruence|].
  destruct (int_float_raises _ _ Hx) as [->| ->]; simpl; congruence.
Qed.

Lemma pmon_pmem_raises x e : pmon_pmem x = Raise e -> e = OverflowError.
Proof.
  unfold pmon_pmem, try_except.
  destruct (negb _); [|congruence].
  destruct (Py.int_float x) as [v|e'] eqn:Hx; [congruence|].
  destruct (int_float_raises _ _ Hx) as [->| ->]; simpl; congruence.
Qed.

Lemma csv_row_raises w line e : csv_row w line = Raise e -> e = OverflowError.
Proof.
  unfold csv_row.
  destruct (_ || _); [congruence|].
  destruct (map Py.strip (Py.split "," line)) as [|p0 [|p1 [|p2 [|p3 rest]]]];
    try (simpl; congruence).
  cbn [List.length Nat.ltb Nat.leb getitem nth_error rbind]. unfold py_int.
  destruct (Py.int _ p1) as [n|e'] eqn:H1.
  - destruct (csv_pmem p3) as [v|e''] eqn:H3; cbn [rbind]; [congruence|].
    intros [= <-]. eapply csv_pmem_raises; eauto.
  - rewrite (int_raises _ _ _ H1); congruence.
Qed.

Lemma pmon_row_raises w line e : pmon_row w line = Raise e -> e = OverflowError.
Proof.
  unfold pmon_row.
  destruct (_ || _); [congruence|].
  destruct (Py.split_ws (Py.strip line))
    as [|p0 [|p1 [|p2 [|p3 [|p4 [|p5 [|p6 [|p7 [|p8 rest]]]]]]]]];
    try (simpl; congruence).
  cbn [List.length Nat.ltb Nat.leb getitem nth_error rbind]. unfold py_int.
  destruct (Py.int _ p0) as [n0|e0] eqn:H0; cbn [rbind].
  - destruct (Py.int _ p1) as [n1|e1] eqn:H1; cbn [rbind].
    + destruct (pmon_pmem p7) as [v|e''] eqn:H7; cbn [rbind]; [congruence|].
      intros [= <-]. eapply pmon_pmem_raises; eauto.
    + rewrite (int_raises _ _ _ H1); congruence.
  - rewrite (int_raises _ _ _ H0); congruence.
Qed.

Section Raises.

Variable P : exn -> Prop.

Lemma raises_ret {A} (a : A) : raises_only P (ret a).
Proof. intros s e; unfold ret; simpl; congruence. Qed.

Lemma raises_lift {A} (r : result A) :
  (forall e, r = Raise e -> P e) -> raises_only P (lift r).
Proof. intros H s e; unfold lift; simpl; auto. Qed.

Lemma raises_bind {A B} (c : M A) (f : A -> M B) :
  raises_only P c -> (forall a, raises_only P (f a)) ->
  raises_only P (bind c f).
Proof.
  intros Hc Hf s e; unfold bind.
  specialize (Hc s). destruct (c s) as [[a|e'] s1]; simpl in *.
  - apply Hf.
  - intros [= <-]; auto.
Qed.

Lemma raises_try {A} (c h : M A) : raises_only P h -> raises_only P (try_ c h).
Proof.
  intros Hh s e; unfold try_.
  destruct (c s) as [[a|e'] s1]; simpl; [congruence|apply Hh].
Qed.

Lemma raises_try_only {A} cls (c h : M A) :
  raises_only (fun e => e = cls \/ P e) c -> raises_only P h ->
  raises_only P (try_only cls c h).
Proof.
  intros Hc Hh s e; unfold try_only.
  specialize (Hc s). destruct (c s) as [[a|e'] s1]; simpl in *; [congruence|].
  destruct (exn_eqb e' cls) eqn:He; simpl; [apply Hh|].
  intros [= <-]. destruct (Hc e' eq_refl) as [->|]; auto.
  destruct cls; discriminate.
Qed.

Lemma raises_for_each {A} (l : list A) (body : A -> M unit) :
  (forall x, raises_only P (body x)) -> raises_only P (for_each l body).
Proof.
  intros Hb; induction l as [|x l IH]; simpl.
  - apply raises_ret.
  - apply raises_bind; auto.
Qed.

Lemma raises_gate (c : M unit) :
  raises_only P c -> raises_only P (if_none_appended c).
Proof.
  intros Hc s e; unfold if_none_appended.
  destruct (appended s =? 0)%nat; [apply Hc|apply raises_ret].
Qed.

Lemma raises_join m key p c : raises_only P (join m key p c).
Proof.
  intros s e; unfold join.
  change (fun (i : nat) (s' : state) => _) with (join_round m key p c).
  destruct (join_rounds m key p c (List.length (gpus s)) [] (gpus s) s
              eq_refl (le_n _)) as (A & _).
  simpl in A. rewrite A. congruence.
Qed.

End Raises.

Lemma raises_weaken (P Q : exn -> Prop) {A} (c : M A) :
  (forall e, P e -> Q e) -> raises_only P c -> raises_only Q c.
Proof. intros H Hc s e He; apply H, (Hc s e He). Qed.

Section ExitStatusOnly.

Variable w : World.
Hypothesis exit_status_only :
  forall cmd e, check_output w cmd = Raise e -> e = CalledProcessError.

Lemma run_cmd_raises cmd :
  raises_only (fun e => e = CalledProcessError) (run_cmd w cmd).
Proof.
  intros s e; unfold run_cmd, call, bind, emit, lift, ret; simpl.
  destruct (check_output w cmd) as [out|e'] eqn:H; simpl; [congruence|].
  intros [= <-]; eapply exit_status_only; eauto.
Qed.

Lemma query_loop_raises P qs pout : raises_only P (query_loop w qs pout).
Proof.
  revert pout; induction qs as [|pq qs IH]; intros pout; simpl.
  - apply raises_ret.
  - apply raises_bind.
    + apply raises_try_only; [|apply raises_ret].
      apply raises_bind; [|intros; apply raises_ret].
      eapply raises_weaken; [|apply run_cmd_raises]. auto.
    + intros [out|]; auto. destruct (_ && _); auto using raises_ret.
Qed.

Lemma method3_raises : raises_only (fun e => e = OverflowError) (method3 w).
Proof.
  unfold method3. apply raises_bind; [apply query_loop_raises|].
  intros pout; destruct (Py.truthy pout); [|apply raises_ret].
  apply raises_for_each; intros line.
  unfold method3_line. apply raises_bind.
  - apply raises_lift. intros e; apply csv_row_raises.
  - intros [[u p]|]; [apply raises_join|apply raises_ret].
Qed.

Lemma method5_raises : raises_only (fun e => e = OverflowError) (method5 w).
Proof.
  unfold method5. apply raises_try_only; [|apply raises_ret].
  apply raises_bind.
  - eapply raises_weaken; [|apply run_cmd_raises]. auto.
  - intros pmon. apply raises_for_each; intros line.
    unfold method5_line. apply raises_bind.
    + apply raises_lift. intros e He; right; eapply pmon_row_raises; eauto.
    + intros [[u p]|]; [apply raises_join|apply raises_ret].
Qed.

Lemma resolver_raises :
  raises_only (fun e => e = OverflowError) (_add_process_info w).
Proof.
  unfold _add_process_info.
  apply raises_bind; [intros s e; unfold reset_appended; simpl; congruence|].
  intros _. apply raises_bind; [apply raises_try, raises_ret|].
  intros _. apply raises_bind; [apply raises_gate, raises_try, raises_ret|].
  intros _. apply raises_bind; [apply raises_gate, method3_raises|].
  intros _. apply raises_bind; [apply raises_gate, raises_try, raises_ret|].
  intros _. apply raises_bind; [apply raises_gate, method5_raises|].
  intros _ s e; unfold return_gpus; simpl; congruence.
Qed.

End ExitStatusOnly.

(** X7. When the shell commands fail in no other way than by their exit
    status, the only exception that can leave the resolver is
    [OverflowError]: whatever the NVML binding does and whatever text the
    commands print, nothing else escapes. *)
Theorem only_overflow_escapes (w : World) (l : list Device) (e : exn) :
  (forall cmd e', check_output w cmd = Raise e' -> e' = CalledProcessError) ->
  fst (_add_process_info w (entry l)) = Raise e -> e = OverflowError.
Proof.
  intros H He. exact (resolver_raises w H (entry l) e He).
Qed.

Lemma inf_host_exit_status_only cmd e :
  check_output inf_host cmd = Raise e -> e = CalledProcessError.
Proof.
  unfold inf_host, with_output, no_tools; simpl.
  destruct (String.eqb cmd _); congruence.
Qed.

Lemma only_overflow_escapes_witness :
  fst (_add_process_info inf_host (entry two_devices)) = Raise OverflowError
  /\ OverflowError = OverflowError.
Proof.
  assert (H : fst (_add_process_info inf_host (entry two_devices))
              = Raise OverflowError) by (vm_compute; reflexivity).
  split; [exact H|].
  exact (only_overflow_escapes inf_host two_devices OverflowError
           inf_host_exit_status_only H).
Defined.

(** ** Integers that pass through [float] *)

Lemma digit_char c :
  Py.isdigit c = true ->
  Py.isspace_num c = false /\ Ascii.eqb c "_" = false /\ Py.lower_char c = c
  /\ forall s, Py.split_sign (String c s) = (false, String c s).
Proof.
  destruct c as [[] [] [] [] [] [] [] []]; vm_compute; intros H;
    try discriminate H; repeat split; reflexivity.
Qed.

Lemma rstrip_digits s : Py.all_digits s = true -> Py.rstrip_by Py.isspace_num s = s.
Proof.
  induction s as [|c s IH]; simpl; auto.
  intros H; apply andb_true_iff in H; destruct H as [Hc Hs].
  rewrite (IH Hs). destruct s; auto.
  now rewrite (proj1 (digit_char c Hc)).
Qed.

Lemma strip_digits s : Py.all_digits s = true -> Py.strip_by Py.isspace_num s = s.
Proof.
  intros H; unfold Py.strip_by.
  assert (Hl : Py.lstrip_by Py.isspace_num s = s).
  { destruct s as [|c s]; simpl in *; auto.
    apply andb_true_iff in H; destruct H as [Hc _].
    now rewrite (proj1 (digit_char c Hc)). }
  rewrite Hl. now apply rstrip_digits.
Qed.

Lemma underscores_digits s b : Py.all_digits s = true -> Py.underscores_ok b s = true.
Proof.
  revert b; induction s as [|c s IH]; intros b; simpl; auto.
  intros H; apply andb_true_iff in H; destruct H as [Hc Hs].
  destruct (digit_char c Hc) as (_ & -> & _). auto.
Qed.

Lemma remove_underscores_digits s :
  Py.all_digits s = true -> Py.remove_underscores s = s.
Proof.
  induction s as [|c s IH]; simpl; auto.
  intros H; apply andb_true_iff in H; destruct H as [Hc Hs].
  destruct (digit_char c Hc) as (_ & -> & _). now rewrite IH.
Qed.

Lemma lower_digits s : Py.all_digits s = true -> Py.lower s = s.
Proof.
  induction s as [|c s IH]; simpl; auto.
  intros H; apply andb_true_iff in H; destruct H as [Hc Hs].
  destruct (digit_char c Hc) as (_ & _ & -> & _). now rewrite IH.
Qed.

Lemma span_digits_all s : Py.all_digits s = true -> Py.span_digits s = (s, "").
Proof.
  induction s as [|c s IH]; simpl; auto.
  intros H; apply andb_true_iff in H; destruct H as [Hc Hs].
  now rewrite Hc, (IH Hs).
Qed.

Lemma append_empty s : (s ++ "")%string = s.
Proof. induction s; simpl; congruence. Qed.

Lemma digits_not_word s t :
  Py.all_digits s = true -> Py.all_digits t = false -> String.eqb s t = false.
Proof.
  intros Hs Ht. destruct (String.eqb_spec s t); auto. congruence.
Qed.

(** A natural number below [2^53] is a binary64: rounding keeps it. *)
Lemma round_small_integer m :
  (0 <= m < 2 ^ 53)%Z ->
  exists q e, Py.round_binary64 m 1 = Some (q, e)
              /\ Py.int_of_float (Py.FFin false q e) = Ok m.
Proof.
  intros [Hlo Hhi]. unfold Py.round_binary64.
  destruct (Z.eqb_spec m 0) as [->|Hne]; [exists 0%Z, 0%Z; auto|].
  assert (Hpos : (0 < m)%Z) by lia.
  pose proof (Z.log2_spec m Hpos) as [Hl1 Hl2].
  pose proof (Z.log2_nonneg m) as Hl0.
  assert (Hk : (Z.log2 m <= 52)%Z).
  { assert (Z.log2 m < 53)%Z by (apply Z.log2_lt_pow2; lia). lia. }
  change (Z.log2 1) with 0%Z. rewrite Z.sub_0_r.
  unfold Py.ge_pow2.
  replace (0 <=? Z.log2 m)%Z with true by (symmetry; apply Z.leb_le; lia).
  replace (1 * 2 ^ Z.log2 m <=? m)%Z with true by (symmetry; apply Z.leb_le; lia).
  replace (Z.max (Z.log2 m - 52) (-1074)) with (Z.log2 m - 52)%Z by lia.
  destruct (Z.leb_spec 0 (Z.log2 m - 52)) as [He|He].
  - assert (Hz : (Z.log2 m - 52 = 0)%Z) by lia. rewrite Hz.
    change (2 ^ 0)%Z with 1%Z. rewrite !Z.mul_1_r, Z.div_1_r, Z.mod_1_r.
    cbn [Z.mul Z.ltb Z.compare andb].
    replace (2 ^ 1024 <=? m)%Z with false.
    + exists m, 0%Z; split; auto. simpl. now rewrite Z.mul_1_r.
    + symmetry; apply Z.leb_gt.
      assert (2 ^ 53 < 2 ^ 1024)%Z by (apply Z.pow_lt_mono_r; lia). lia.
  - set (t := (- (Z.log2 m - 52))%Z).
    assert (Ht : (0 < t)%Z) by (unfold t; lia).
    assert (Hp : (0 < 2 ^ t)%Z) by (apply Z.pow_pos_nonneg; lia).
    rewrite Z.div_1_r, Z.mod_1_r.
    cbn [Z.mul Z.ltb Z.compare andb].
    exists (m * 2 ^ t)%Z, (Z.log2 m - 52)%Z; split; auto.
    unfold Py.int_of_float.
    replace (0 <=? Z.log2 m - 52)%Z with false by (symmetry; apply Z.leb_gt; lia).
    fold t. rewrite Z.div_mul by lia. reflexivity.
Qed.

(** The digits of a natural number read back as that number. *)
Lemma string_of_uint_digits d :
  Py.all_digits (NilEmpty.string_of_uint d) = true.
Proof. induction d; simpl; auto. Qed.

Ltac digit_value :=
  match goal with
  | |- context [Z.of_nat (Py.code ?c - 48)] =>
      let v := eval vm_compute in (Z.of_nat (Py.code c - 48)) in
      change (Z.of_nat (Py.code c - 48)) with v
  end.

Lemma digits_value_acc d acc :
  Py.digits_value (Zpos acc) (NilEmpty.string_of_uint d)
  = Zpos (Pos.of_uint_acc d acc).
Proof.
  revert acc; induction d; intros acc;
    cbn [NilEmpty.string_of_uint Py.digits_value Pos.of_uint_acc]; auto;
    digit_value; rewrite <- IHd; f_equal; lia.
Qed.

Lemma digits_value_uint d :
  Py.digits_value 0 (NilEmpty.string_of_uint d) = Z.of_N (Pos.of_uint d).
Proof.
  induction d;
    cbn [NilEmpty.string_of_uint Py.digits_value Pos.of_uint Z.of_N]; auto;
    digit_value; cbn [Z.mul Z.add]; auto; apply digits_value_acc.
Qed.

Lemma str_of_int_digits n :
  (0 <= n)%Z ->
  Py.all_digits (Py.str_of_int n) = true
  /\ Py.str_of_int n <> ""
  /\ Py.digits_value 0 (Py.str_of_int n) = n.
Proof.
  intros Hn. unfold Py.str_of_int.
  pose proof (DecimalZ.of_to n) as Hrt.
  destruct (Z.to_int n) as [d|d] eqn:Hd.
  - change (NilZero.string_of_int (Decimal.Pos d)) with (NilZero.string_of_uint d).
    unfold Z.of_int, Z.of_uint in Hrt. subst n.
    destruct d;
      try (split; [apply string_of_uint_digits
                  | split; [cbn; discriminate | apply digits_value_uint]]).
    repeat split; discriminate.
  - exfalso. destruct n as [|p|p]; simpl in Hd; try discriminate; lia.
Qed.

Lemma digits_value_nonneg s acc :
  (0 <= acc)%Z -> (0 <= Py.digits_value acc s)%Z.
Proof.
  revert acc; induction s as [|c s IH]; intros acc H;
    cbn [Py.digits_value]; auto.
  apply IH. pose proof (Nat2Z.is_nonneg (Py.code c - 48)). lia.
Qed.

Lemma int_float_digits s :
  s <> "" -> Py.all_digits s = true -> (Py.digits_value 0 s < 2 ^ 53)%Z ->
  Py.int_float s = Ok (Py.digits_value 0 s).
Proof.
  intros Hne Hd Hlt.
  pose proof (digits_value_nonneg s 0 (Z.le_refl 0)) as Hge.
  unfold Py.int_float, Py.float.
  rewrite (strip_digits s Hd), (underscores_digits s false Hd).
  cbn [negb]. rewrite (remove_underscores_digits s Hd).
  destruct s as [|c s']; [congruence|].
  assert (Hc : Py.isdigit c = true)
    by (simpl in Hd; apply andb_true_iff in Hd; tauto).
  destruct (digit_char c Hc) as (_ & _ & _ & Hsign). rewrite Hsign.
  rewrite (lower_digits _ Hd).
  rewrite !(digits_not_word (String c s')) by (auto; reflexivity).
  cbn [orb]. rewrite (span_digits_all _ Hd).
  cbn [Py.parse_exponent String.length Z.of_nat Z.sub Z.leb Z.compare Z.opp].
  rewrite append_empty. cbn [String.eqb].
  change (0 - 0)%Z with 0%Z. cbn [Z.leb Z.compare].
  change (10 ^ 0)%Z with 1%Z. rewrite Z.mul_1_r.
  destruct (round_small_integer (Py.digits_value 0 (String c s')))
    as (q & e & Hr & Hi); [lia|].
  rewrite Hr. cbn [rbind]. exact Hi.
Qed.

Lemma digits_not_sentinel s :
  Py.all_digits s = true -> s <> "" ->
  is_na s = false /\ String.eqb s "-" = false /\ Py.truthy s = true.
Proof.
  intros Hd Hne. unfold is_na, Py.truthy.
  rewrite !(digits_not_word s) by (auto; reflexivity).
  repeat split. destruct s; [congruence|reflexivity].
Qed.

(** X8. A figure printed as the decimal numeral of a natural number below
    [2^53] is stored as that very number wherever the code reads it with
    [int(float(...))]: the device metrics, and the memory columns of the
    compute-apps table and of [pmon]. *)
Theorem decimal_figures_are_exact (n : Z) :
  (0 <= n < 2 ^ 53)%Z ->
  Py.int_float (Py.str_of_int n) = Ok n
  /\ Py.int_float_or_zero (Py.str_of_int n) = Ok n
  /\ fan_of (Py.str_of_int n) = Ok (Some n)
  /\ csv_pmem (Py.str_of_int n) = Ok n
  /\ pmon_pmem (Py.str_of_int n) = Ok n.
Proof.
  intros [Hlo Hhi].
  destruct (str_of_int_digits n Hlo) as (Hd & Hne & Hv).
  destruct (digits_not_sentinel _ Hd Hne) as (Hna & Hdash & Ht).
  assert (Hf : Py.int_float (Py.str_of_int n) = Ok n).
  { rewrite <- Hv at 2. apply int_float_digits; auto. now rewrite Hv. }
  unfold Py.int_float_or_zero, fan_of, csv_pmem, pmon_pmem, try_except.
  rewrite Ht, Hna, Hdash, Hf. repeat split; reflexivity.
Qed.

Lemma decimal_figures_are_exact_witness :
  Py.int_float (Py.str_of_int 15360) = Ok 15360%Z
  /\ Py.int_float_or_zero (Py.str_of_int 15360) = Ok 15360%Z
  /\ fan_of (Py.str_of_int 15360) = Ok (Some 15360%Z)
  /\ csv_pmem (Py.str_of_int 15360) = Ok 15360%Z
  /\ pmon_pmem (Py.str_of_int 15360) = Ok 15360%Z.
Proof.
  apply (decimal_figures_are_exact 15360). split; [lia|reflexivity].
Defined.

(** ** The rows of the device query *)

Lemma getitem_nth {A} (l : list A) i d :
  (i < List.length l)%nat -> getitem l i = Ok (nth i l d).
Proof.
  unfold getitem. revert i; induction l as [|x l IH]; intros [|i]; simpl;
    try lia; auto.
  intros H; apply IH; lia.
Qed.

(** What a row that yields a device says about that device. *)
Lemma gpu_row_device w line g :
  gpu_row w line = Ok (Some g) ->
  short_row line = false
  /\ processes g = []
  /\ fan_of (fan_field line) = Ok (fan g).
Proof.
  unfold gpu_row, short_row, fan_field. fold (fields line).
  destruct (List.length (fields line) <? 10)%nat eqn:Hlen; [congruence|].
  apply Nat.ltb_ge in Hlen.
  assert (Hraw : (if (10 <? List.length (fields line))%nat
                  then getitem (fields line) 10 else Ok "")
                 = Ok (nth 10 (fields line) "")).
  { destruct (10 <? List.length (fields line))%nat eqn:H10.
    - apply getitem_nth. now apply Nat.ltb_lt.
    - apply Nat.ltb_ge in H10. now rewrite nth_overflow. }
  rewrite Hraw.
  repeat (cbn [rbind];
          match goal with
          | |- rbind ?r _ = _ -> _ =>
              destruct r as [?|?] eqn:?; [|cbn [rbind]; congruence]
          end).
  cbn [rbind]. intros [= <-]; simpl. auto.
Qed.

Lemma fan_of_none x o :
  fan_of x = Ok o -> (o = None <-> x = "" \/ is_na x = true).
Proof.
  unfold fan_of, Py.truthy.
  destruct (String.eqb_spec x ""); simpl.
  - intros [= <-]; tauto.
  - destruct (is_na x); simpl.
    + intros [= <-]; tauto.
    + destruct (Py.int_float x); simpl; intros [= <-].
      split; [discriminate|]. intros [?|?]; congruence.
Qed.

(** X9. The fan speed of a device is absent exactly when the row has no
    eleventh field, or an empty one, or one that holds the sentinel. *)
Theorem fan_absent_iff (w : World) (line : string) (g : Device) :
  gpu_row w line = Ok (Some g) ->
  (fan g = None <-> fan_field line = "" \/ is_na (fan_field line) = true).
Proof.
  intros H. destruct (gpu_row_device w line g H) as (_ & _ & Hf).
  now apply fan_of_none.
Qed.

Lemma fan_absent_iff_witness :
  @None Z = None
  <-> fan_field "0, GPU-1, Tesla T4, 535.104, 41, 5, 100, 15360, 27, 70" = ""
      \/ is_na (fan_field "0, GPU-1, Tesla T4, 535.104, 41, 5, 100, 15360, 27, 70")
         = true.
Proof.
  apply (fan_absent_iff no_tools
           "0, GPU-1, Tesla T4, 535.104, 41, 5, 100, 15360, 27, 70"
           {| id := 0; uuid := Some "GPU-1"; dev_name := "Tesla T4";
              driverVersion := Some "535.104"; temperature := 41;
              utilization := 5; dev_memory := mkMemoryInfo 100 15360;
              power := mkPowerInfo 27 70; fan := None; processes := [] |}).
  reflexivity.
Defined.

Lemma short_row_skipped w line : short_row line = true -> gpu_row w line = Ok None.
Proof.
  unfold short_row, fields, gpu_row. now intros ->.
Qed.

(** X10. Lines with fewer than ten fields count for nothing: the device
    query gives the same result, devices or error, as if they were not
    there.  An empty output gives no device and no error. *)
Theorem short_rows_are_ignored (w : World) (lines : list string) (acc : list Device) :
  gpu_rows w lines acc
  = gpu_rows w (filter (fun line => negb (short_row line)) lines) acc.
Proof.
  revert acc; induction lines as [|line lines IH]; intros acc; simpl; auto.
  destruct (short_row line) eqn:Hs; simpl.
  - now rewrite (short_row_skipped w line Hs).
  - destruct (gpu_row w line) as [[g|]|e]; auto.
Qed.

Lemma gpu_rows_bad_row w lines line e acc :
  In line lines -> gpu_row w line = Raise e ->
  exists e', gpu_rows w lines acc = Raise e'.
Proof.
  revert acc; induction lines as [|x lines IH]; intros acc; simpl; [tauto|].
  intros [->|Hin] He.
  - rewrite He; eauto.
  - destruct (gpu_row w x) as [[g|]|e'']; eauto.
Qed.

(** X11. One row that cannot be read fails the whole enumeration: the
    devices of the rows before it are dropped, [get_gpus] raises, no method
    of the resolver runs, and the handler of the snapshot raises too. *)
Theorem bad_row_fails_snapshot (w : World) (out line : string) (e : exn) :
  check_output w gpu_cmd = Ok out ->
  In line (Py.splitlines (Py.strip out)) ->
  gpu_row w line = Raise e ->
  exists e',
    get_gpus w initial = (Raise e', mkState [] 0 [ERun gpu_cmd])
    /\ fst (nvidia w initial) = Raise e'.
Proof.
  intros Hout Hin He.
  destruct (gpu_rows_bad_row w _ line e [] Hin He) as (e' & Hrows).
  exists e'.
  unfold nvidia, get_gpus, run_cmd, call, bind, emit, lift, ret, initial; simpl.
  rewrite Hout; simpl. rewrite Hrows. auto.
Qed.

Lemma bad_row_fails_snapshot_witness :
  exists e',
    get_gpus bad_row_host initial = (Raise e', mkState [] 0 [ERun gpu_cmd])
    /\ fst (nvidia bad_row_host initial) = Raise e'.
Proof.
  apply (bad_row_fails_snapshot bad_row_host bad_second_row
           "x, GPU-2, Tesla T4, 535.104, 39, 0, 0, 15360, 9.80, 70.00, 35"
           ValueError).
  - reflexivity.
  - vm_compute; tauto.
  - reflexivity.
Defined.

(** ** A delivered snapshot *)

Lemma gpu_rows_fresh w lines acc l :
  Forall (fun g => processes g = []) acc ->
  gpu_rows w lines acc = Ok l -> Forall (fun g => processes g = []) l.
Proof.
  revert acc; induction lines as [|line lines IH]; intros acc Hacc; simpl.
  - now intros [= <-].
  - destruct (gpu_row w line) as [[g|]|e] eqn:Hrow; try discriminate.
    + apply IH. apply Forall_app; split; auto.
      constructor; auto. apply (gpu_row_device w line g Hrow).
    + now apply IH.
Qed.

Lemma runs_extends m (c : M unit) :
  (forall n, runs_as m n c) -> forall s, extends (gpus s) (gpus (snd (c s))).
Proof.
  intros H s. eapply steps_extends. now apply (H (List.length (gpus s))).
Qed.

Lemma bind_extends {A B} (c : M A) (f : A -> M B) :
  (forall s, extends (gpus s) (gpus (snd (c s)))) ->
  (forall a s, extends (gpus s) (gpus (snd (f a s)))) ->
  forall s, extends (gpus s) (gpus (snd (bind c f s))).
Proof.
  intros Hc Hf s; unfold bind. specialize (Hc s).
  destruct (c s) as [[a|e] s1]; simpl in *; auto.
  eapply extends_trans; eauto.
Qed.

Lemma gate_extends (c : M unit) :
  (forall s, extends (gpus s) (gpus (snd (c s)))) ->
  forall s, extends (gpus s) (gpus (snd (if_none_appended c s))).
Proof.
  intros Hc s; unfold if_none_appended.
  destruct (appended s =? 0)%nat; [apply Hc|apply extends_refl].
Qed.

(** From any state, the resolver only appends. *)
Lemma resolver_extends_from w s :
  extends (gpus s) (gpus (snd (_add_process_info w s))).
Proof.
  revert s; unfold _add_process_info.
  apply bind_extends; [intros s; apply extends_refl|]; intros _.
  apply bind_extends;
    [apply (runs_extends 1); intros n; apply runs_method1|]; intros _.
  apply bind_extends;
    [apply gate_extends, (runs_extends 2); intros n; apply runs_method2|];
    intros _.
  apply bind_extends;
    [apply gate_extends, (runs_extends 3); intros n; apply runs_method3|];
    intros _.
  apply bind_extends;
    [apply gate_extends, (runs_extends 4); intros n; apply runs_method4|];
    intros _.
  apply bind_extends;
    [apply gate_extends, (runs_extends 5); intros n; apply runs_method5|];
    intros _.
  intros s; apply extends_refl.
Qed.

(** X12. A snapshot that is delivered names the host, stamps the time
    with a final [Z], and lists the devices of the query in the order of
    its rows: each as its row reads, and with no process record but those
    that the resolver appended in this very request. *)
Theorem snapshot_is_rows_plus_processes (w : World) (snap : Snapshot) (s : state) :
  nvidia w initial = (Ok snap, s) ->
  host snap = gethostname w
  /\ timestamp snap = (utcnow_isoformat w ++ "Z")%string
  /\ exists out l,
       check_output w gpu_cmd = Ok out
       /\ gpu_rows w (Py.splitlines (Py.strip out)) [] = Ok l
       /\ Forall (fun g => processes g = []) l
       /\ extends l (snapshot_gpus snap).
Proof.
  unfold nvidia, get_gpus, run_cmd, call, bind at 1 2 3 4 5, emit, lift, ret,
    set_gpus, initial; simpl.
  destruct (check_output w gpu_cmd) as [out|e] eqn:Hout; simpl; [|discriminate].
  destruct (gpu_rows w (Py.splitlines (Py.strip out)) []) as [l|e] eqn:Hrows;
    simpl; [|discriminate].
  unfold bind.
  match goal with
  | |- context [_add_process_info w ?st] =>
      pose proof (resolver_extends_from w st) as Hext;
      destruct (_add_process_info w st) as [[v|e] s1]
  end; simpl in *; [|discriminate].
  intros [= <- <-]; simpl. repeat split.
  exists out, l; repeat split; auto.
  eapply gpu_rows_fresh; eauto.
Qed.

Lemma snapshot_is_rows_plus_processes_witness :
  host (mkSnapshot "gpu-host" "2024-05-01T12:00:00.000000Z"
          (gpus (snd (nvidia two_rows_host initial))))
  = gethostname two_rows_host
  /\ timestamp (mkSnapshot "gpu-host" "2024-05-01T12:00:00.000000Z"
                  (gpus (snd (nvidia two_rows_host initial))))
     = (utcnow_isoformat two_rows_host ++ "Z")%string
  /\ exists out l,
       check_output two_rows_host gpu_cmd = Ok out
       /\ gpu_rows two_rows_host (Py.splitlines (Py.strip out)) [] = Ok l
       /\ Forall (fun g => processes g = []) l
       /\ extends l (snapshot_gpus
                       (mkSnapshot "gpu-host" "2024-05-01T12:00:00.000000Z"
                          (gpus (snd (nvidia two_rows_host initial))))).
Proof.
  apply (snapshot_is_rows_plus_processes two_rows_host _
           (snd (nvidia two_rows_host initial))).
  vm_compute; reflexivity.
Defined.

(** ** The registry of hosts *)

Lemma url_of_getitem h u :
  url_of h = Some u -> Registry.getitem h "url" = Registry.Done (Registry.PStr u).
Proof.
  unfold url_of, Registry.getitem.
  destruct h as [| | | | |l|d]; try discriminate.
  destruct (Registry.lookup "url" d) as [[| | | |s| |]|]; try discriminate.
  now intros [= ->].
Qed.

Lemma string_url_entry h :
  url_of h <> None -> exists u, url_of h = Some u.
Proof.
  destruct (url_of h) as [u|]; [eauto|congruence].
Qed.

Lemma body_fields d u n :
  Registry.lookup "url" d = Some (Registry.PStr u) ->
  Registry.lookup "name" d = Some n ->
  Registry.missing_fields (Registry.PDict d) = Registry.Done false
  /\ Registry.getitem (Registry.PDict d) "url" = Registry.Done (Registry.PStr u)
  /\ forall env, Registry.new_host env (Registry.PDict d)
                 = Registry.Done (stored_host env u n).
Proof.
  intros Hu Hn.
  unfold Registry.missing_fields, Registry.new_host, Registry.getitem,
    Registry.contains, Registry.has_key, Registry.truthy.
  rewrite Hu, Hn.
  destruct d as [|x d]; [discriminate|].
  repeat split.
Qed.

Lemma url_taken_has_url l data u :
  string_urls l ->
  Registry.getitem data "url" = Registry.Done (Registry.PStr u) ->
  Registry.url_taken l data = Registry.Done (has_url u l).
Proof.
  intros Hs Hdata; induction Hs as [|h l Hh _ IH]; [reflexivity|].
  destruct (string_url_entry h Hh) as (v & Hv).
  cbn [Registry.url_taken has_url existsb].
  rewrite (url_of_getitem h v Hv), Hv, Hdata.
  cbn [Registry.obind].
  change (Registry.py_eqb (Registry.PStr v) (Registry.PStr u)) with (String.eqb v u).
  destruct (String.eqb v u); [reflexivity|]. exact IH.
Qed.

Lemma without_url_others l u :
  string_urls l -> Registry.without_url l u = Registry.Done (others u l).
Proof.
  induction 1 as [|h l Hh _ IH]; [reflexivity|].
  destruct (string_url_entry h Hh) as (v & Hv).
  cbn [Registry.without_url others filter].
  rewrite (url_of_getitem h v Hv), Hv, IH.
  cbn [Registry.obind].
  change (Registry.py_eqb (Registry.PStr v) (Registry.PStr u)) with (String.eqb v u).
  reflexivity.
Qed.

Lemma others_length u l :
  (List.length (others u l) <= List.length l)%nat
  /\ (List.length (others u l) = List.length l <-> has_url u l = false).
Proof.
  unfold others, has_url. induction l as [|h l [IH1 IH2]]; simpl.
  - split; [lia|tauto].
  - destruct (url_of h) as [v|]; simpl.
    + destruct (String.eqb v u); simpl.
      * split; [lia|]. split; [lia|discriminate].
      * split; [lia|]. rewrite <- IH2. split; lia.
    + split; [lia|]. rewrite <- IH2. split; lia.
Qed.

Lemma others_all u l : has_url u l = false -> others u l = l.
Proof.
  unfold others, has_url. induction l as [|h l IH]; simpl; auto.
  destruct (url_of h) as [v|]; simpl.
  - destruct (String.eqb v u); simpl; [discriminate|].
    intros H; now rewrite IH.
  - intros H; now rewrite IH.
Qed.

Lemma others_none u l : has_url u (others u l) = false.
Proof.
  unfold others, has_url. induction l as [|h l IH]; simpl; auto.
  destruct (url_of h) as [v|] eqn:Hv; simpl.
  - destruct (String.eqb v u) eqn:E; simpl; auto. now rewrite Hv, E.
  - now rewrite Hv.
Qed.

Lemma others_string_urls u l : string_urls l -> string_urls (others u l).
Proof.
  unfold string_urls, others. intros H.
  apply Forall_forall; intros h Hin. apply filter_In in Hin.
  rewrite Forall_forall in H. now apply H.
Qed.

Lemma add_host_known env f l d u n :
  Registry.load_hosts f = Registry.PList l -> string_urls l ->
  Registry.lookup "url" d = Some (Registry.PStr u) ->
  Registry.lookup "name" d = Some n ->
  Registry.add_host env (Registry.PDict d) f
  = if has_url u l
    then (Registry.Done (Registry.error_reply "Host already exists" 409), f)
    else match Registry.write_failure env
                 (Registry.PList (l ++ [stored_host env u n])) f with
         | None => (Registry.Done (Registry.mkResponse (stored_host env u n) 201),
                    Registry.Holds (Registry.PList (l ++ [stored_host env u n])))
         | Some f' =>
             (Registry.Done (Registry.error_reply "Failed to save host" 500), f')
         end.
Proof.
  intros Hl Hs Hu Hn. unfold Registry.add_host.
  destruct (body_fields d u n Hu Hn) as (-> & Hget & Hnew).
  rewrite Hl. cbn [Registry.iterate Registry.obind].
  rewrite (url_taken_has_url l _ u Hs Hget).
  destruct (has_url u l); [reflexivity|].
  rewrite Hnew. cbn [Registry.obind Registry.append].
  unfold Registry.save_hosts.
  destruct (Registry.write_failure env _ f); reflexivity.
Qed.

Lemma delete_host_known env f l u :
  Registry.load_hosts f = Registry.PList l -> string_urls l ->
  Registry.delete_host env u f
  = if has_url u l
    then match Registry.write_failure env (Registry.PList (others u l)) f with
         | None =>
             (Registry.Done
                (Registry.mkResponse
                   (Registry.PDict [("message", Registry.PStr "Host deleted")])
                   200),
              Registry.Holds (Registry.PList (others u l)))
         | Some f' =>
             (Registry.Done (Registry.error_reply "Failed to delete host" 500), f')
         end
    else (Registry.Done (Registry.error_reply "Host not found" 404), f).
Proof.
  intros Hl Hs. unfold Registry.delete_host.
  rewrite Hl. cbn [Registry.len Registry.iterate Registry.obind].
  rewrite (without_url_others l u Hs). cbn [Registry.obind].
  destruct (others_length u l) as [_ Hlen].
  destruct (has_url u l) eqn:Hu.
  - replace (List.length (others u l) =? List.length l)%nat with false.
    + unfold Registry.save_hosts.
      destruct (Registry.write_failure env _ f); reflexivity.
    + symmetry; apply Nat.eqb_neq. intros E. apply Hlen in E. discriminate.
  - replace (List.length (others u l) =? List.length l)%nat with true; auto.
    symmetry; apply Nat.eqb_eq. now apply Hlen.
Qed.

(** X13. A body that is empty, or a dictionary without ["url"] or
    without ["name"], is answered with status 400; the file of the hosts is
    neither read nor written. *)
Theorem incomplete_body_is_rejected (env : Registry.Env) (data : Registry.pyobj)
    (f : Registry.file) :
  (Registry.truthy data = false
   \/ exists d, data = Registry.PDict d
                /\ (Registry.has_key "url" d = false
                    \/ Registry.has_key "name" d = false)) ->
  Registry.add_host env data f
  = (Registry.Done (Registry.error_reply "Missing url or name" 400), f).
Proof.
  unfold Registry.add_host, Registry.missing_fields.
  intros [H|(d & -> & H)].
  - now rewrite H.
  - destruct (Registry.truthy (Registry.PDict d)); [|reflexivity].
    cbn [negb Registry.contains Registry.obind].
    destruct (Registry.has_key "url" d); cbn [negb].
    + destruct H as [H|H]; [discriminate|]. 
      cbn [Registry.obind]. now rewrite H.
    + reflexivity.
Qed.

Lemma incomplete_body_is_rejected_witness :
  Registry.add_host sample_env
    (Registry.PDict [("url", Registry.PStr "http://b:5000/nvidia-smi.json")])
    (Registry.Holds (Registry.PList [host_a]))
  = (Registry.Done (Registry.error_reply "Missing url or name" 400),
     Registry.Holds (Registry.PList [host_a])).
Proof.
  apply incomplete_body_is_rejected.
  right. eexists; split; [reflexivity|]. right; reflexivity.
Defined.

(** X14. On a registry whose entries all have a string for their url, a
    body that is a dictionary with a name and with the url of one of the
    entries (the keys in any order, other keys or none beside them) is
    answered with status 409 and the file stays as it is. *)
Theorem duplicate_url_is_conflict (env : Registry.Env) (f : Registry.file)
    (l : list Registry.pyobj) (d : list (string * Registry.pyobj))
    (u : string) (n : Registry.pyobj) :
  Registry.load_hosts f = Registry.PList l -> string_urls l ->
  Registry.lookup "url" d = Some (Registry.PStr u) ->
  Registry.lookup "name" d = Some n ->
  has_url u l = true ->
  Registry.add_host env (Registry.PDict d) f
  = (Registry.Done (Registry.error_reply "Host already exists" 409), f).
Proof.
  intros Hl Hs Hu Hn Hhas. rewrite (add_host_known env f l d u n Hl Hs Hu Hn).
  now rewrite Hhas.
Qed.

Lemma sample_string_urls : string_urls [host_a].
Proof. repeat constructor; discriminate. Qed.

Lemma duplicate_url_is_conflict_witness :
  Registry.add_host sample_env
    (Registry.PDict [("name", Registry.PStr "again");
                     ("url", Registry.PStr "http://a:5000/nvidia-smi.json")])
    (Registry.Holds (Registry.PList [host_a]))
  = (Registry.Done (Registry.error_reply "Host already exists" 409),
     Registry.Holds (Registry.PList [host_a])).
Proof.
  apply (duplicate_url_is_conflict sample_env _ [host_a] _
           "http://a:5000/nvidia-smi.json" (Registry.PStr "again"));
    [reflexivity | exact sample_string_urls | reflexivity | reflexivity
     | reflexivity].
Defined.

(** X15. On a registry whose entries all have a string for their url, a
    body that is a dictionary with a name and with a string url that no
    entry has (the keys in any order, other keys or none beside them) is
    stored, when the write succeeds, behind the entries that were there:
    with its url and name, not connected, and stamped; the other keys of
    the body are dropped.  The new entry is the body of the answer, status
    201.  A file that is absent or unreadable counts as no entry. *)
Theorem new_host_is_appended (env : Registry.Env) (f : Registry.file)
    (l : list Registry.pyobj) (d : list (string * Registry.pyobj))
    (u : string) (n : Registry.pyobj) :
  Registry.load_hosts f = Registry.PList l -> string_urls l ->
  Registry.lookup "url" d = Some (Registry.PStr u) ->
  Registry.lookup "name" d = Some n ->
  has_url u l = false ->
  Registry.write_failure env (Registry.PList (l ++ [stored_host env u n])) f = None ->
  Registry.add_host env (Registry.PDict d) f
  = (Registry.Done (Registry.mkResponse (stored_host env u n) 201),
     Registry.Holds (Registry.PList (l ++ [stored_host env u n]))).
Proof.
  intros Hl Hs Hu Hn Hhas Hw. rewrite (add_host_known env f l d u n Hl Hs Hu Hn).
  now rewrite Hhas, Hw.
Qed.

Lemma new_host_is_appended_witness :
  Registry.add_host sample_env body_name_first
    (Registry.Holds (Registry.PList [host_a]))
  = (Registry.Done
       (Registry.mkResponse
          (stored_host sample_env "http://b:5000/nvidia-smi.json"
             (Registry.PStr "b")) 201),
     Registry.Holds
       (Registry.PList
          ([host_a] ++ [stored_host sample_env "http://b:5000/nvidia-smi.json"
                          (Registry.PStr "b")]))).
Proof.
  apply (new_host_is_appended sample_env _ [host_a]);
    [reflexivity | exact sample_string_urls | reflexivity | reflexivity
     | reflexivity | reflexivity].
Defined.

Lemma has_url_in u l : has_url u l = false -> ~ In (Some u) (map url_of l).
Proof.
  unfold has_url. induction l as [|h l IH]; simpl; [tauto|].
  destruct (url_of h) as [v|].
  - destruct (String.eqb_spec v u); simpl; [discriminate|].
    intros H [E|E]; [congruence|now apply IH].
  - simpl. intros H [E|E]; [discriminate|now apply IH].
Qed.

(** The file changes only when the new entry can be built. *)
Lemma add_host_needs_entry env data f e :
  Registry.new_host env data = Registry.Fail e ->
  snd (Registry.add_host env data f) = f.
Proof.
  intros H. unfold Registry.add_host.
  destruct (Registry.missing_fields data) as [[|]|]; simpl; auto.
  destruct (Registry.obind (Registry.iterate _) _) as [[|]|]; simpl; auto.
  now rewrite H.
Qed.

(** X16. Adding keeps a registry in good order, as long as the url of
    the body, if the body is a dictionary that has one, is a string: when
    every entry has a string for its url and no url occurs twice, the same
    holds of the file after [add_host], whatever the body is otherwise and
    whether the request was served, refused or ended in an exception (on a
    disk whose writes succeed). *)
Theorem urls_stay_distinct (env : Registry.Env) (f : Registry.file)
    (l : list Registry.pyobj) (data : Registry.pyobj) :
  good_disk env ->
  Registry.load_hosts f = Registry.PList l ->
  string_urls l -> NoDup (map url_of l) ->
  (forall d v, data = Registry.PDict d -> Registry.lookup "url" d = Some v ->
               exists u, v = Registry.PStr u) ->
  exists l',
    Registry.load_hosts (snd (Registry.add_host env data f)) = Registry.PList l'
    /\ string_urls l' /\ NoDup (map url_of l').
Proof.
  intros Hd Hl Hs Hn Hstr.
  assert (Hsame : forall e, Registry.new_host env data = Registry.Fail e ->
            exists l',
              Registry.load_hosts (snd (Registry.add_host env data f))
              = Registry.PList l'
              /\ string_urls l' /\ NoDup (map url_of l')).
  { intros e He. rewrite (add_host_needs_entry env data f e He). exists l; auto. }
  destruct data as [| | | | | |d]; try (apply (Hsame Registry.TypeError); reflexivity).
  destruct (Registry.lookup "url" d) as [v|] eqn:Hv.
  2:{ apply (Hsame Registry.KeyError).
      unfold Registry.new_host, Registry.getitem. now rewrite Hv. }
  destruct (Hstr d v eq_refl Hv) as (u & ->).
  destruct (Registry.lookup "name" d) as [n|] eqn:Hname.
  2:{ apply (Hsame Registry.KeyError).
      unfold Registry.new_host, Registry.getitem. now rewrite Hv, Hname. }
  rewrite (add_host_known env f l d u n Hl Hs Hv Hname).
  destruct (has_url u l) eqn:Hu.
  - exists l; auto.
  - rewrite Hd. exists (l ++ [stored_host env u n]); cbn [snd Registry.load_hosts].
    repeat split.
    + apply Forall_app; split; auto. repeat constructor; discriminate.
    + rewrite map_app. cbn [map].
      change (url_of (stored_host env u n)) with (Some u).
      apply NoDup_app; [exact Hn|repeat constructor; simpl; tauto|].
      intros x Hx [<-|[]]. now apply (has_url_in u l Hu).
Qed.

Lemma urls_stay_distinct_witness :
  exists l',
    Registry.load_hosts
      (snd (Registry.add_host sample_env body_name_first
              (Registry.Holds (Registry.PList [host_a]))))
    = Registry.PList l'
    /\ string_urls l' /\ NoDup (map url_of l').
Proof.
  apply (urls_stay_distinct sample_env _ [host_a]).
  - intros hosts f; reflexivity.
  - reflexivity.
  - exact sample_string_urls.
  - repeat constructor; simpl; tauto.
  - intros d v [= <-] Hv. cbn in Hv. injection Hv as <-. eexists; reflexivity.
Defined.

(** X17. Deleting a url that no entry has is answered with status 404
    and writes nothing. *)
Theorem unknown_url_is_not_found (env : Registry.Env) (f : Registry.file)
    (l : list Registry.pyobj) (u : string) :
  Registry.load_hosts f = Registry.PList l -> string_urls l ->
  has_url u l = false ->
  Registry.delete_host env u f
  = (Registry.Done (Registry.error_reply "Host not found" 404), f).
Proof.
  intros Hl Hs Hu. rewrite (delete_host_known env f l u Hl Hs). now rewrite Hu.
Qed.

Lemma unknown_url_is_not_found_witness :
  Registry.delete_host sample_env "http://a:5000/nvidia-smi.json"
    Registry.Unreadable
  = (Registry.Done (Registry.error_reply "Host not found" 404),
     Registry.Unreadable).
Proof.
  apply (unknown_url_is_not_found sample_env Registry.Unreadable []);
    [reflexivity | constructor | reflexivity].
Defined.

(** X18. Deleting a url that some entry has removes every entry with that
    url and keeps the others in their order; the answer has status 200,
    and deleting the same url once more is answered with 404. *)
Theorem delete_removes_every_entry (env : Registry.Env) (f : Registry.file)
    (l : list Registry.pyobj) (u : string) :
  good_disk env ->
  Registry.load_hosts f = Registry.PList l -> string_urls l ->
  has_url u l = true ->
  Registry.delete_host env u f
  = (Registry.Done
       (Registry.mkResponse
          (Registry.PDict [("message", Registry.PStr "Host deleted")]) 200),
     Registry.Holds (Registry.PList (others u l)))
  /\ has_url u (others u l) = false
  /\ Registry.delete_host env u (Registry.Holds (Registry.PList (others u l)))
     = (Registry.Done (Registry.error_reply "Host not found" 404),
        Registry.Holds (Registry.PList (others u l))).
Proof.
  intros Hd Hl Hs Hu. repeat split.
  - rewrite (delete_host_known env f l u Hl Hs). now rewrite Hu, Hd.
  - apply others_none.
  - rewrite (delete_host_known env (Registry.Holds (Registry.PList (others u l)))
               (others u l) u eq_refl (others_string_urls u l Hs)).
    now rewrite others_none.
Qed.

Lemma delete_removes_every_entry_witness :
  Registry.delete_host sample_env "http://a:5000/nvidia-smi.json"
    (Registry.Holds (Registry.PList [host_a; stored_host sample_env "http://b" (Registry.PStr "b"); host_a]))
  = (Registry.Done
       (Registry.mkResponse
          (Registry.PDict [("message", Registry.PStr "Host deleted")]) 200),
     Registry.Holds
       (Registry.PList
          (others "http://a:5000/nvidia-smi.json"
             [host_a; stored_host sample_env "http://b" (Registry.PStr "b");
              host_a]))).
Proof.
  apply (delete_removes_every_entry sample_env _
           [host_a; stored_host sample_env "http://b" (Registry.PStr "b"); host_a]).
  - intros hosts f; reflexivity.
  - reflexivity.
  - repeat constructor; discriminate.
  - reflexivity.
Defined.

(** X19. Adding a host and then deleting its url gives back the registry
    as it was: on a registry whose entries all have a string for their
    url and on a disk whose writes succeed, for a body that is a dictionary
    with a name and with a string url that no entry has, [delete_host] of
    that url after [add_host] of the body is answered with status 200 and
    leaves the entries that were there, in their order. *)
Theorem add_then_delete_restores (env : Registry.Env) (f : Registry.file)
    (l : list Registry.pyobj) (d : list (string * Registry.pyobj))
    (u : string) (n : Registry.pyobj) :
  good_disk env ->
  Registry.load_hosts f = Registry.PList l -> string_urls l ->
  Registry.lookup "url" d = Some (Registry.PStr u) ->
  Registry.lookup "name" d = Some n ->
  has_url u l = false ->
  Registry.delete_host env u (snd (Registry.add_host env (Registry.PDict d) f))
  = (Registry.Done
       (Registry.mkResponse
          (Registry.PDict [("message", Registry.PStr "Host deleted")]) 200),
     Registry.Holds (Registry.PList l)).
Proof.
  intros Hd Hl Hs Hu Hn Hhas.
  rewrite (add_host_known env f l d u n Hl Hs Hu Hn), Hhas, Hd. cbn [snd].
  assert (Hs' : string_urls (l ++ [stored_host env u n])).
  { apply Forall_app; split; auto. repeat constructor; discriminate. }
  rewrite (delete_host_known env
             (Registry.Holds (Registry.PList (l ++ [stored_host env u n])))
             (l ++ [stored_host env u n]) u eq_refl Hs').
  assert (Hothers : others u (l ++ [stored_host env u n]) = l).
  { unfold others. rewrite filter_app. simpl. rewrite String.eqb_refl. simpl.
    rewrite app_nil_r. exact (others_all u l Hhas). }
  assert (Hhas' : has_url u (l ++ [stored_host env u n]) = true).
  { unfold has_url. rewrite existsb_app. simpl.
    rewrite String.eqb_refl. now rewrite orb_true_r. }
  now rewrite Hhas', Hd, Hothers.
Qed.

Lemma add_then_delete_restores_witness :
  Registry.delete_host sample_env "http://b:5000/nvidia-smi.json"
    (snd (Registry.add_host sample_env body_name_first
            (Registry.Holds (Registry.PList [host_a]))))
  = (Registry.Done
       (Registry.mkResponse
          (Registry.PDict [("message", Registry.PStr "Host deleted")]) 200),
     Registry.Holds (Registry.PList [host_a])).
Proof.
  apply (add_then_delete_restores sample_env _ [host_a] _
           "http://b:5000/nvidia-smi.json" (Registry.PStr "b")).
  - intros hosts f; reflexivity.
  - reflexivity.
  - exact sample_string_urls.
  - reflexivity.
  - reflexivity.
  - reflexivity.
Defined.

(** X20. A host that has been added cannot be added again under the same
    string url: on a registry whose entries all have a string for their
    url and on a disk whose writes succeed, after [add_host] of a body
    that is a dictionary with a name and a string url, [add_host] of any
    dictionary with a name and the same url is answered with status 409
    and changes nothing. *)
Theorem second_add_is_conflict (env : Registry.Env) (f : Registry.file)
    (l : list Registry.pyobj) (d d' : list (string * Registry.pyobj))
    (u : string) (n n' : Registry.pyobj) :
  good_disk env ->
  Registry.load_hosts f = Registry.PList l -> string_urls l ->
  Registry.lookup "url" d = Some (Registry.PStr u) ->
  Registry.lookup "name" d = Some n ->
  Registry.lookup "url" d' = Some (Registry.PStr u) ->
  Registry.lookup "name" d' = Some n' ->
  Registry.add_host env (Registry.PDict d')
    (snd (Registry.add_host env (Registry.PDict d) f))
  = (Registry.Done (Registry.error_reply "Host already exists" 409),
     snd (Registry.add_host env (Registry.PDict d) f)).
Proof.
  intros Hd Hl Hs Hu Hn Hu' Hn'.
  rewrite (add_host_known env f l d u n Hl Hs Hu Hn).
  destruct (has_url u l) eqn:Hhas; cbn [snd].
  - rewrite (add_host_known env f l d' u n' Hl Hs Hu' Hn'). now rewrite Hhas.
  - rewrite Hd; cbn [snd].
    assert (Hs' : string_urls (l ++ [stored_host env u n])).
    { apply Forall_app; split; auto. repeat constructor; discriminate. }
    rewrite (add_host_known env
               (Registry.Holds (Registry.PList (l ++ [stored_host env u n])))
               (l ++ [stored_host env u n]) d' u n' eq_refl Hs' Hu' Hn').
    assert (Hhas' : has_url u (l ++ [stored_host env u n]) = true).
    { unfold has_url. rewrite existsb_app. simpl.
      rewrite String.eqb_refl. now rewrite orb_true_r. }
    now rewrite Hhas'.
Qed.

Lemma second_add_is_conflict_witness :
  Registry.add_host sample_env body_name_first
    (snd (Registry.add_host sample_env body_b
            (Registry.Holds (Registry.PList [host_a]))))
  = (Registry.Done (Registry.error_reply "Host already exists" 409),
     snd (Registry.add_host sample_env body_b
            (Registry.Holds (Registry.PList [host_a])))).
Proof.
  apply (second_add_is_conflict sample_env _ [host_a] _ _
           "http://b:5000/nvidia-smi.json" (Registry.PStr "b") (Registry.PStr "b")).
  - intros hosts f; reflexivity.
  - reflexivity.
  - exact sample_string_urls.
  - reflexivity.
  - reflexivity.
  - reflexivity.
  - reflexivity.
Defined.

Lemma url_key_getitem h :
  has_url_key h = true -> exists v, Registry.getitem h "url" = Registry.Done v.
Proof.
  destruct h as [| | | | | |d]; try discriminate.
  unfold has_url_key, Registry.has_key, Registry.getitem.
  destruct (Registry.lookup "url" d) as [v|]; [eauto|discriminate].
Qed.

Lemma url_taken_key_error l1 d l2 data v :
  Forall (fun h => has_url_key h = true) l1 ->
  Registry.getitem data "url" = Registry.Done v ->
  Forall (fun h => url_equals v h = false) l1 ->
  Registry.lookup "url" d = None ->
  Registry.url_taken (l1 ++ Registry.PDict d :: l2) data
  = Registry.Fail Registry.KeyError.
Proof.
  intros Hk Hdata Hne Hd; induction Hk as [|h l Hh _ IH].
  - cbn [app Registry.url_taken Registry.getitem]. now rewrite Hd.
  - inversion Hne as [|? ? Hx Hne']; subst.
    destruct (url_key_getitem h Hh) as (x & Hgx).
    unfold url_equals in Hx. rewrite Hgx in Hx.
    cbn [app Registry.url_taken].
    rewrite Hgx, Hdata. cbn [Registry.obind].
    rewrite Hx. now apply IH.
Qed.

Lemma without_url_key_error l1 d l2 u :
  Forall (fun h => has_url_key h = true) l1 ->
  Registry.lookup "url" d = None ->
  Registry.without_url (l1 ++ Registry.PDict d :: l2) u
  = Registry.Fail Registry.KeyError.
Proof.
  intros Hk Hd; induction Hk as [|h l Hh _ IH].
  - cbn [app Registry.without_url Registry.getitem]. now rewrite Hd.
  - destruct (url_key_getitem h Hh) as (x & Hgx).
    cbn [app Registry.without_url].
    rewrite Hgx, IH. reflexivity.
Qed.

(** X21. One entry without ["url"] breaks the registry.  When the file
    holds a list in which a dictionary lacks the key ["url"] and every
    entry before it is a dictionary with that key, [delete_host] raises
    [KeyError] for every url, and so does [add_host] for every body that
    is a dictionary with a name and with a url equal ([==]) to the url of
    no entry before the broken one; neither writes the file. *)
Theorem entry_without_url_breaks (env : Registry.Env) (f : Registry.file)
    (l1 l2 : list Registry.pyobj) (d : list (string * Registry.pyobj)) :
  Registry.load_hosts f = Registry.PList (l1 ++ Registry.PDict d :: l2) ->
  Forall (fun h => has_url_key h = true) l1 ->
  Registry.lookup "url" d = None ->
  (forall u, Registry.delete_host env u f = (Registry.Fail Registry.KeyError, f))
  /\ (forall body v,
        Registry.lookup "url" body = Some v ->
        Registry.has_key "name" body = true ->
        Forall (fun h => url_equals v h = false) l1 ->
        Registry.add_host env (Registry.PDict body) f
        = (Registry.Fail Registry.KeyError, f)).
Proof.
  intros Hl Hk Hd. split.
  - intros u. unfold Registry.delete_host. rewrite Hl.
    cbn [Registry.len Registry.iterate Registry.obind].
    now rewrite (without_url_key_error l1 d l2 u Hk Hd).
  - intros body v Hv Hname Hne.
    assert (Hget : Registry.getitem (Registry.PDict body) "url" = Registry.Done v)
      by (unfold Registry.getitem; now rewrite Hv).
    unfold Registry.add_host, Registry.missing_fields, Registry.contains,
      Registry.truthy.
    destruct body as [|x body]; [discriminate|].
    cbn [List.length Nat.eqb negb Registry.obind].
    unfold Registry.has_key at 1. rewrite Hv. cbn [negb Registry.obind].
    rewrite Hname. cbn [negb].
    rewrite Hl. cbn [Registry.iterate Registry.obind].
    now rewrite (url_taken_key_error l1 d l2 _ v Hk Hget Hne Hd).
Qed.

Lemma entry_without_url_breaks_witness :
  (forall u,
     Registry.delete_host sample_env u
       (Registry.Holds
          (Registry.PList ([host_a] ++ Registry.PDict [("name", Registry.PStr "c")] :: [])))
     = (Registry.Fail Registry.KeyError,
        Registry.Holds
          (Registry.PList ([host_a] ++ Registry.PDict [("name", Registry.PStr "c")] :: []))))
  /\ Registry.add_host sample_env body_name_first
       (Registry.Holds
          (Registry.PList ([host_a] ++ Registry.PDict [("name", Registry.PStr "c")] :: [])))
     = (Registry.Fail Registry.KeyError,
        Registry.Holds
          (Registry.PList ([host_a] ++ Registry.PDict [("name", Registry.PStr "c")] :: []))).
Proof.
  destruct (entry_without_url_breaks sample_env
              (Registry.Holds
                 (Registry.PList
                    ([host_a] ++ Registry.PDict [("name", Registry.PStr "c")] :: [])))
              [host_a] [] [("name", Registry.PStr "c")]
              eq_refl
              (Forall_cons host_a (eq_refl : has_url_key host_a = true)
                 (Forall_nil _))
              eq_refl) as [Hdel Hadd].
  split; [exact Hdel|].
  apply (Hadd _ (Registry.PStr "http://b:5000/nvidia-smi.json"));
    [reflexivity | reflexivity | repeat constructor].
Defined.

(** X22. No handler of the registry writes the file unless it gets as far
    as saving: whatever the body, the url and the file, a request that ends
    in an exception or in a status other than 200, 201 or 500 leaves the
    file as it was. *)
Theorem rejected_requests_write_nothing (env : Registry.Env)
    (data : Registry.pyobj) (url : string) (f : Registry.file) :
  match fst (Registry.add_host env data f) with
  | Registry.Fail _ => snd (Registry.add_host env data f) = f
  | Registry.Done r =>
      Registry.status r = 201%nat \/ Registry.status r = 500%nat
      \/ snd (Registry.add_host env data f) = f
  end
  /\ match fst (Registry.delete_host env url f) with
     | Registry.Fail _ => snd (Registry.delete_host env url f) = f
     | Registry.Done r =>
         Registry.status r = 200%nat \/ Registry.status r = 500%nat
         \/ snd (Registry.delete_host env url f) = f
     end.
Proof.
  split.
  - unfold Registry.add_host.
    destruct (Registry.missing_fields data) as [[|]|]; simpl; auto.
    destruct (Registry.obind (Registry.iterate _) _) as [[|]|]; simpl; auto.
    destruct (Registry.obind (Registry.new_host _ _) _) as [[nh hosts']|];
      simpl; auto.
    unfold Registry.save_hosts.
    destruct (Registry.write_failure _ _ _); simpl; auto.
  - unfold Registry.delete_host.
    destruct (Registry.obind (Registry.len _) _) as [[n kept]|]; simpl; auto.
    destruct (_ =? _)%nat; simpl; auto.
    unfold Registry.save_hosts.
    destruct (Registry.write_failure _ _ _); simpl; auto.
Qed.

Lemma string_differs v u :
  is_string v = false ->
  Registry.py_eqb (Registry.PStr u) v = false
  /\ Registry.py_eqb v (Registry.PStr u) = false.
Proof.
  destruct v as [| | |[]| | |]; try discriminate; split; reflexivity.
Qed.

Lemma url_taken_other_type l data v :
  string_urls l ->
  Registry.getitem data "url" = Registry.Done v -> is_string v = false ->
  Registry.url_taken l data = Registry.Done false.
Proof.
  intros Hs Hdata Hv; induction Hs as [|h l Hh _ IH]; [reflexivity|].
  destruct (string_url_entry h Hh) as (x & Hx).
  cbn [Registry.url_taken].
  rewrite (url_of_getitem h x Hx), Hdata. cbn [Registry.obind].
  destruct (string_differs v x Hv) as [-> _]. exact IH.
Qed.

Lemma without_url_last l e v u :
  string_urls l ->
  Registry.getitem e "url" = Registry.Done v -> is_string v = false ->
  Registry.without_url (l ++ [e]) u = Registry.Done (others u l ++ [e]).
Proof.
  intros Hs He Hv; induction Hs as [|h l Hh _ IH].
  - cbn [app Registry.without_url others filter]. rewrite He.
    cbn [Registry.obind].
    destruct (string_differs v u Hv) as [_ ->]. reflexivity.
  - destruct (string_url_entry h Hh) as (x & Hx).
    cbn [app Registry.without_url others filter].
    rewrite (url_of_getitem h x Hx), Hx, IH.
    cbn [Registry.obind].
    change (Registry.py_eqb (Registry.PStr x) (Registry.PStr u)) with (String.eqb x u).
    destruct (String.eqb x u); reflexivity.
Qed.

(** X25. The type of the url is not checked.  On a registry whose
    entries all have a string for their url and on a disk whose writes
    succeed, a body that is a dictionary with a name and with a url that
    is not a string is stored behind the entries that were there and
    answered with status 201; and no [delete_host] removes that entry
    afterwards: whatever url is deleted, the file holds a list that ends
    with it. *)
Theorem url_of_other_type_is_stored (env : Registry.Env) (f : Registry.file)
    (l : list Registry.pyobj) (d : list (string * Registry.pyobj))
    (v n : Registry.pyobj) :
  good_disk env ->
  Registry.load_hosts f = Registry.PList l -> string_urls l ->
  Registry.lookup "url" d = Some v -> is_string v = false ->
  Registry.lookup "name" d = Some n ->
  Registry.add_host env (Registry.PDict d) f
  = (Registry.Done (Registry.mkResponse (stored_entry env v n) 201),
     Registry.Holds (Registry.PList (l ++ [stored_entry env v n])))
  /\ forall u, exists kept,
       snd (Registry.delete_host env u
              (Registry.Holds (Registry.PList (l ++ [stored_entry env v n]))))
       = Registry.Holds (Registry.PList (kept ++ [stored_entry env v n])).
Proof.
  intros Hd Hl Hs Hv Hstr Hn. split.
  - assert (Hget : Registry.getitem (Registry.PDict d) "url" = Registry.Done v)
      by (unfold Registry.getitem; now rewrite Hv).
    unfold Registry.add_host, Registry.missing_fields, Registry.contains,
      Registry.truthy, Registry.has_key.
    rewrite Hv, Hn.
    destruct d as [|x d]; [discriminate|].
    cbn [List.length Nat.eqb negb Registry.obind].
    rewrite Hl. cbn [Registry.iterate Registry.obind].
    rewrite (url_taken_other_type l _ v Hs Hget Hstr).
    unfold Registry.new_host. rewrite Hget.
    unfold Registry.getitem at 1. rewrite Hn.
    cbn [Registry.obind Registry.append].
    unfold Registry.save_hosts. now rewrite Hd.
  - intros u. unfold Registry.delete_host.
    cbn [Registry.load_hosts Registry.len Registry.iterate Registry.obind].
    rewrite (without_url_last l (stored_entry env v n) v u Hs eq_refl Hstr).
    cbn [Registry.obind].
    destruct (_ =? _)%nat.
    + exists l; reflexivity.
    + unfold Registry.save_hosts. rewrite Hd. exists (others u l); reflexivity.
Qed.

Lemma url_of_other_type_is_stored_witness :
  Registry.add_host sample_env
    (Registry.PDict [("url", Registry.PInt 5); ("name", Registry.PStr "five")])
    (Registry.Holds (Registry.PList [host_a]))
  = (Registry.Done
       (Registry.mkResponse
          (stored_entry sample_env (Registry.PInt 5) (Registry.PStr "five")) 201),
     Registry.Holds
       (Registry.PList
          ([host_a]
           ++ [stored_entry sample_env (Registry.PInt 5) (Registry.PStr "five")]))).
Proof.
  apply (url_of_other_type_is_stored sample_env _ [host_a]).
  - intros hosts f; reflexivity.
  - reflexivity.
  - exact sample_string_urls.
  - reflexivity.
  - reflexivity.
  - reflexivity.
Defined.

(** ** Method 1, device by device *)

Lemma grow_nil g : grow [] g = g.
Proof. unfold grow; rewrite app_nil_r; now destruct g. Qed.

Lemma grow_app a b g : grow (a ++ b) g = grow b (grow a g).
Proof. unfold grow; simpl; now rewrite app_assoc. Qed.

Lemma grow_one p g : grow [p] g = add_process p g.
Proof. reflexivity. Qed.

Lemma alter_ext {A} (f g : A -> A) i l :
  (forall x, f x = g x) -> alter f i l = alter g i l.
Proof.
  intros H; revert i; induction l as [|x l IH]; intros [|i]; simpl; auto.
  - now rewrite H.
  - now rewrite IH.
Qed.

Lemma alter_alter {A} (f g : A -> A) i l :
  alter f i (alter g i l) = alter (fun x => f (g x)) i l.
Proof.
  revert i; induction l as [|x l IH]; intros [|i]; simpl; auto.
  now rewrite IH.
Qed.

Lemma alter_id {A} (f : A -> A) i l : (forall x, f x = x) -> alter f i l = l.
Proof.
  intros H; revert i; induction l as [|x l IH]; intros [|i]; simpl; auto.
  - now rewrite H.
  - now rewrite IH.
Qed.

Lemma method1_proc_alter w i proc s :
  fst (method1_proc w i proc s) = Ok tt
  /\ gpus (snd (method1_proc w i proc s))
     = alter (grow (nvml_records w proc)) i (gpus s).
Proof.
  unfold method1_proc, nvml_records, try_, bind, lift, call, emit,
    append_process, ret; simpl.
  destruct (memory_mb_of proc) as [mb|e]; simpl.
  - destruct (nvmlSystemGetProcessName w (np_pid proc)); simpl; auto.
  - split; auto. symmetry; apply alter_id, grow_nil.
Qed.

Lemma method1_procs_alter w i procs s :
  fst (for_each procs (method1_proc w i) s) = Ok tt
  /\ gpus (snd (for_each procs (method1_proc w i) s))
     = alter (grow (flat_map (nvml_records w) procs)) i (gpus s).
Proof.
  revert s; induction procs as [|proc procs IH]; intros s; simpl.
  - split; auto. symmetry; apply alter_id, grow_nil.
  - unfold bind at 1 2.
    destruct (method1_proc_alter w i proc s) as [Hok Hg].
    destruct (method1_proc w i proc s) as [[[]|e] s1]; simpl in *;
      try discriminate.
    destruct (IH s1) as [Hok' Hg']. split; auto.
    rewrite Hg', Hg, alter_alter. apply alter_ext.
    intros g; symmetry; apply grow_app.
Qed.

Lemma method1_device_alter w i s :
  fst (method1_device w i s) = Ok tt
  /\ gpus (snd (method1_device w i s))
     = alter (grow (device_records w i)) i (gpus s).
Proof.
  assert (Hid : forall l : list Device, l = alter (grow []) i l)
    by (intros l; symmetry; apply alter_id, grow_nil).
  unfold method1_device, device_records, try_, call, emit, lift, bind, ret;
    simpl.
  destruct (nvmlDeviceGetHandleByIndex w i) as [h|e]; simpl;
    [|split; [reflexivity|apply Hid]].
  destruct (nvmlDeviceGetComputeRunningProcesses w h) as [cs|e]; simpl;
    [|split; [reflexivity|apply Hid]].
  destruct (nvmlDeviceGetGraphicsRunningProcesses w h) as [gs|e]; simpl;
    [|split; [reflexivity|apply Hid]].
  match goal with
  | |- context [for_each ?l ?b ?st] =>
      destruct (method1_procs_alter w i l st) as [Hok Hg];
      destruct (for_each l b st) as [[[]|e] s1]; simpl in *; try discriminate
  end.
  split; [reflexivity|exact Hg].
Qed.

Lemma nth_error_alter w i j l g :
  nth_error l j = Some g ->
  nth_error (alter (grow (device_records w i)) i l) j
  = Some (if (i =? j)%nat then grow (device_records w j) g else g).
Proof.
  intros Hg. destruct (Nat.eqb_spec i j) as [->|Hne].
  - now apply nth_error_alter_same.
  - now rewrite nth_error_alter_other.
Qed.

Lemma method1_devices_pointwise w k :
  forall a s j g,
    nth_error (gpus s) j = Some g ->
    fst (for_each (seq a k) (method1_device w) s) = Ok tt
    /\ nth_error (gpus (snd (for_each (seq a k) (method1_device w) s))) j
       = Some (if (a <=? j)%nat && (j <? a + k)%nat
               then grow (device_records w j) g else g).
Proof.
  induction k as [|k IH]; intros a s j g Hg; simpl.
  - split; auto. rewrite Hg. f_equal.
    destruct (a <=? j)%nat eqn:E1; simpl; auto.
    replace (j <? a + 0)%nat with false; auto.
    symmetry; apply Nat.ltb_ge. apply Nat.leb_le in E1. lia.
  - unfold bind at 1 2.
    destruct (method1_device_alter w a s) as [Hok Hgp].
    destruct (method1_device w a s) as [[[]|e] s1]; simpl in *;
      try discriminate.
    assert (Hg1 : nth_error (gpus s1) j
                  = Some (if (a =? j)%nat then grow (device_records w j) g else g))
      by (rewrite Hgp; now apply nth_error_alter).
    destruct (IH (S a) s1 j _ Hg1) as [Hok' Hnth]. split; auto.
    rewrite Hnth. f_equal.
    destruct (Nat.eqb_spec a j) as [->|Hne].
    + replace (S j <=? j)%nat with false by (symmetry; apply Nat.leb_gt; lia).
      rewrite Nat.leb_refl.
      replace (j <? j + S k)%nat with true by (symmetry; apply Nat.ltb_lt; lia).
      reflexivity.
    + replace (j <? a + S k)%nat with (j <? S a + k)%nat
        by (f_equal; lia).
      destruct (Nat.leb_spec (S a) j), (Nat.leb_spec a j); simpl; auto; lia.
Qed.

(** X23. With a binding that imports and initialises, method 1 gives every
    device the records of its own position and nothing else: the compute
    and graphics processes of its handle, or none when the handle or one of
    the two lists cannot be had.  What fails for one device costs the
    others nothing; when the import or the initialisation fails, no device
    is touched. *)
Theorem method1_device_by_device (w : World) (s : state) (j : nat) (g : Device) :
  nth_error (gpus s) j = Some g ->
  (import_pynvml w = Ok tt -> nvmlInit w = Ok tt ->
   nth_error (gpus (snd (method1 w s))) j = Some (grow (device_records w j) g))
  /\ ((exists e, import_pynvml w = Raise e) \/ (exists e, nvmlInit w = Raise e) ->
      gpus (snd (method1 w s)) = gpus s).
Proof.
  intros Hg. split.
  - intros Hi Hn.
    unfold method1, try_, bind at 1, call, bind at 1, emit, lift; simpl.
    rewrite Hi; simpl. unfold bind at 1, bind at 1; simpl. rewrite Hn; simpl.
    unfold bind at 1.
    match goal with
    | |- context [for_each (seq 0 ?n) ?b ?st] =>
        destruct (method1_devices_pointwise w n 0 st j g Hg) as [Hok Hnth];
        destruct (for_each (seq 0 n) b st) as [[[]|e] s1]; simpl in *;
          try discriminate
    end.
    assert (Hj : (j < List.length (gpus s))%nat)
      by (apply nth_error_Some; congruence).
    replace (j <? List.length (gpus s))%nat with true in Hnth
      by (symmetry; now apply Nat.ltb_lt).
    unfold bind; simpl.
    destruct (nvmlShutdown w); simpl; exact Hnth.
  - unfold method1, try_, bind at 1, call, bind at 1, emit, lift; simpl.
    intros [[e He]|[e He]].
    + now rewrite He.
    + destruct (import_pynvml w) as [[]|e']; simpl; auto.
      unfold bind at 1, bind at 1; simpl. now rewrite He.
Qed.

Lemma method1_device_by_device_witness :
  nth_error (gpus (snd (method1 half_nvml_host (entry two_devices)))) 1
  = Some (grow (device_records half_nvml_host 1) (sample_device 1 "GPU-2"))
  /\ nth_error (gpus (snd (method1 half_nvml_host (entry two_devices)))) 0
     = Some (grow (device_records half_nvml_host 0) (sample_device 0 "GPU-1"))
  /\ gpus (snd (method1 no_tools (entry two_devices))) = two_devices.
Proof.
  split; [|split].
  - apply (proj1 (method1_device_by_device half_nvml_host (entry two_devices) 1
                    (sample_device 1 "GPU-2") eq_refl)); reflexivity.
  - apply (proj1 (method1_device_by_device half_nvml_host (entry two_devices) 0
                    (sample_device 0 "GPU-1") eq_refl)); reflexivity.
  - apply (proj2 (method1_device_by_device no_tools (entry two_devices) 0
                    (sample_device 0 "GPU-1") eq_refl)).
    left; exists ImportError; reflexivity.
Defined.

(** On that host device 0 stays empty and device 1 gets its record, under
    the placeholder name. *)
Example half_nvml_host_records :
  map processes (gpus (snd (method1 half_nvml_host (entry two_devices))))
  = [[]; [mkProcess 4242 "PID 4242" (Some 1024%Z)]].
Proof. vm_compute; reflexivity. Qed.

(** ** The plain-text report *)

Lemma method4_lines_outside_block w lines s :
  Forall (fun line => Py.contains "Processes:" line = false) lines ->
  for_fold lines false (method4_line w) s = (Ok false, s).
Proof.
  induction 1 as [|line lines Hl _ IH]; [reflexivity|].
  cbn [for_fold]. unfold bind, method4_line at 1. rewrite Hl. simpl.
  exact IH.
Qed.

(** X24. A report without a line that holds [Processes:] attributes
    nothing, whatever else it holds: no row of the summary table above is
    ever taken for a process. *)
Theorem report_without_processes_header (w : World) (s : state) (out : string) :
  check_output w "nvidia-smi" = Ok out ->
  Forall (fun line => Py.contains "Processes:" line = false)
         (Py.splitlines (Py.strip out)) ->
  method4 w s
  = (Ok tt, mkState (gpus s) (appended s) (trace s ++ [ERun "nvidia-smi"])).
Proof.
  intros Hout Hno.
  unfold method4, try_, bind at 1, run_cmd, bind at 1, call, bind at 1, emit,
    lift, ret; simpl.
  rewrite Hout; simpl. unfold bind.
  now rewrite (method4_lines_outside_block w _ _ Hno).
Qed.

Lemma report_without_processes_header_witness :
  method4 (with_output "nvidia-smi" "| 0 | 1 | N/A | 4567 | C | python3 | 2048MiB |"
             no_tools) (entry two_devices)
  = (Ok tt, mkState two_devices 0 [ERun "nvidia-smi"]).
Proof.
  apply (report_without_processes_header
           (with_output "nvidia-smi"
              "| 0 | 1 | N/A | 4567 | C | python3 | 2048MiB |" no_tools)
           (entry two_devices)
           "| 0 | 1 | N/A | 4567 | C | python3 | 2048MiB |").
  - reflexivity.
  - vm_compute. repeat constructor.
Defined.
